(** * available-domains: the verification pipeline of [domain_finder.py]

    A shallow embedding of the candidate generator, the DNS prefilter, the
    registrar checkers, the ledger (a pandas table) and the sequential and
    parallel verification strategies, together with the standalone provider
    clients of [porkbun_api.py] and [dynadot_api.py].

    Python values are modelled as follows: [str] is [string] (a byte
    sequence; UTF-8 literals keep their bytes, so substring tests agree with
    Python's), [int] is [Z], a [set] of strings is a [gset string], a [dict]
    with string keys is a [gmap string _], [None]-or-bool is [option bool].
    Effects (network, clock, files, randomness) are threaded explicitly. *)

From Stdlib Require Import ZArith QArith Lqa String Ascii List Bool Lia.
From stdpp Require Import gmap strings list pretty.

Import ListNotations.
Local Open Scope Z_scope.
Local Open Scope string_scope.
Local Open Scope list_scope.

(** ** Python string helpers *)

Module Py.

(** [needle in haystack] for two [str]. *)
Fixpoint contains (needle haystack : string) : bool :=
  String.prefix needle haystack ||
  match haystack with
  | EmptyString => false
  | String _ rest => contains needle rest
  end.

(** [str.lower] on the ASCII range. *)
Definition lower_ascii (c : ascii) : ascii :=
  let n := nat_of_ascii c in
  if (Nat.leb 65 n && Nat.leb n 90)%bool then ascii_of_nat (n + 32) else c.

Fixpoint lower (s : string) : string :=
  match s with
  | EmptyString => EmptyString
  | String c rest => String (lower_ascii c) (lower rest)
  end.

(** [string.ascii_lowercase] and [string.digits]. *)
Definition ascii_lowercase : string := "abcdefghijklmnopqrstuvwxyz".
Definition digits : string := "0123456789".

(** Truthiness of a [str]. *)
Definition truthy (s : string) : bool :=
  match s with EmptyString => false | _ => true end.

(** [itertools.product(characters, repeat=n)], each tuple already joined
    into a string: the first component runs through [characters] in the
    outer loop, the later components in the inner ones. *)
Fixpoint product (characters : string) (repeat : nat) : list string :=
  match repeat with
  | O => [EmptyString]
  | S n =>
      c ← list_ascii_of_string characters;
      (String c <$> product characters n)
  end.

End Py.

(** ** Logging *)

Inductive LogLevel := LDEBUG | LINFO | LWARNING | LERROR.

Record LogRecord := mkLog { log_level : LogLevel; log_message : string }.

(** ** Candidate generator ([generate_domains]) *)

Definition DEFAULT_TLD : string := ".com".

(** The [pattern] argument replaces the character set when it names letters
    and/or digits. *)
Definition pattern_characters (characters : string) (pattern : option string) : string :=
  match pattern with
  | Some p =>
      if Py.truthy p then
        let char_set := "" in
        let char_set := if Py.contains "l" (Py.lower p)
                        then char_set +:+ Py.ascii_lowercase else char_set in
        let char_set := if Py.contains "d" (Py.lower p)
                        then char_set +:+ Py.digits else char_set in
        if Py.truthy char_set then char_set else characters
      else characters
  | None => characters
  end.

Section Generator.

Variables (limit : Z) (prefix suffix tld : string) (exclude_set : gset string).

Definition full_domain_of (domain_part : string) : string :=
  prefix +:+ domain_part +:+ suffix +:+ tld.

(** The [for combo in itertools.product(...)] loop, with its [continue]
    and its [break]. *)
Fixpoint generate_loop (combos : list string) (generated : list string) (count : Z)
  : list string :=
  match combos with
  | [] => generated
  | domain_part :: rest =>
      let full_domain := full_domain_of domain_part in
      if decide (full_domain ∈ exclude_set) then generate_loop rest generated count
      else
        let generated := generated ++ [full_domain] in
        let count := count + 1 in
        if ((0 <? limit) && (limit <=? count))%Z then generated
        else generate_loop rest generated count
  end.

End Generator.

(** The messages logged before the loop. *)
Definition generate_plan_log (characters : string) (effective_length limit : Z) : LogRecord :=
  let total_combinations := Z.of_nat (String.length characters) ^ effective_length in
  let actual_limit := if (0 <? limit)%Z then limit else total_combinations in
  if ((10000 <? actual_limit) && (0 <? limit))%Z
  then mkLog LWARNING ("生成的组合数量非常大 (" +:+ pretty actual_limit +:+ ")，这可能需要一些时间")
  else mkLog LINFO ("将生成约" +:+ pretty (Z.min total_combinations actual_limit) +:+ "个组合").

(** [generate_domains]: the returned list and the records it logs. *)
Definition generate_domains_logged (characters : string) (length limit : Z)
    (prefix suffix tld : string) (exclude_set : gset string) (pattern : option string)
  : list string * list LogRecord :=
  let characters := pattern_characters characters pattern in
  let effective_length := length in
  if (effective_length <=? 0)%Z then
    ([], [mkLog LERROR "域名长度必须大于0"])
  else
    let generated :=
      generate_loop limit prefix suffix tld exclude_set
        (Py.product characters (Z.to_nat effective_length)) [] 0 in
    (generated,
     [generate_plan_log characters effective_length limit;
      mkLog LINFO ("成功生成" +:+ pretty (List.length generated) +:+ "个域名")]).

Definition generate_domains (characters : string) (length limit : Z)
    (prefix suffix tld : string) (exclude_set : gset string) (pattern : option string)
  : list string :=
  fst (generate_domains_logged characters length limit prefix suffix tld exclude_set pattern).

(** ** DNS prefilter ([dns_check]) *)

(** What [socket.gethostbyname] does: it returns an address, raises
    [socket.gaierror] (with the resolver's error number), or raises another
    exception (a socket timeout, a [UnicodeError] for a malformed label). *)
Inductive Resolution :=
| Resolved (address : string)
| RaisedGaierror (errno : Z) (strerror : string)
| RaisedOther (message : string).

(** Error numbers of [getaddrinfo] on Linux. *)
Definition EAI_NONAME : Z := -2.
Definition EAI_AGAIN : Z := -3.

Definition dns_check (gethostbyname : string -> Resolution) (domain : string)
  : string * bool * option string :=
  match gethostbyname domain with
  | Resolved _ => (domain, true, None)
  | RaisedGaierror _ _ => (domain, false, None)
  | RaisedOther e => (domain, true, Some ("DNS查询错误: " +:+ e))
  end.

(** ** JSON values and Python's operations on them *)

#[warnings="-register-all"]
Inductive Json :=
| JNull
| JBool (b : bool)
| JInt (n : Z)
| JFloat (q : Q)
| JStr (s : string)
| JArr (items : list Json)
| JObj (members : list (string * Json)).

(** Exception classes the handlers of the checkers tell apart. *)
Inductive ExcClass := EJSONDecode | ETimeout | ERequest | EOther.

Record PyExc := mkExc { exc_class : ExcClass; exc_str : string }.

Inductive Exc (A : Type) :=
| Ok (a : A)
| Raise (e : PyExc).
Arguments Ok {A} a.
Arguments Raise {A} e.

Definition exc_bind {A B} (m : Exc A) (k : A -> Exc B) : Exc B :=
  match m with
  | Ok a => k a
  | Raise e => Raise e
  end.

Notation "'try!' x <- m ; k" := (exc_bind m (fun x => k))
  (at level 10, x name, m at level 100, k at level 200).

(** Faults of the interpreter on a value of the wrong shape. *)
Inductive Fault :=
| NoAttribute (value : Json) (attribute : string)
| NotIterable (value : Json)
| NotSubscriptable (value : Json) (key : string)
| MissingKey (key : string).

(** The interpreter's renderings: [str(value)] inside an f-string and the
    text of the exception it raises for a fault. *)
Class Runtime := {
  py_str : Json -> string;
  fault_str : Fault -> string;
}.

Section JsonOps.

Context `{Runtime}.

Definition fault {A} (f : Fault) : Exc A := Raise (mkExc EOther (fault_str f)).

Fixpoint assoc_get {V} (members : list (string * V)) (key : string) : option V :=
  match members with
  | [] => None
  | (k, v) :: rest => if decide (k = key) then Some v else assoc_get rest key
  end.

Definition is_JStr (j : Json) (s : string) : bool :=
  match j with
  | JStr s' => if decide (s' = s) then true else false
  | _ => false
  end.

(** [value.get(key, default)] *)
Definition py_get (value : Json) (key : string) (default : Json) : Exc Json :=
  match value with
  | JObj members => Ok (from_option id default (assoc_get members key))
  | _ => fault (NoAttribute value "get")
  end.

(** [key in value] for a string [key] *)
Definition py_in (key : string) (value : Json) : Exc bool :=
  match value with
  | JObj members => Ok (bool_decide (is_Some (assoc_get members key)))
  | JArr items => Ok (existsb (fun item => is_JStr item key) items)
  | JStr s => Ok (Py.contains key s)
  | _ => fault (NotIterable value)
  end.

(** [value[key]] for a string [key] *)
Definition py_item (value : Json) (key : string) : Exc Json :=
  match value with
  | JObj members =>
      match assoc_get members key with
      | Some v => Ok v
      | None => Raise (mkExc EOther (fault_str (MissingKey key)))
      end
  | _ => fault (NotSubscriptable value key)
  end.

(** [value.lower()] *)
Definition py_lower (value : Json) : Exc string :=
  match value with
  | JStr s => Ok (Py.lower s)
  | _ => fault (NoAttribute value "lower")
  end.

(** Truthiness. *)
Definition py_truthy (value : Json) : bool :=
  match value with
  | JNull => false
  | JBool b => b
  | JInt n => negb (n =? 0)%Z
  | JFloat q => negb (Qeq_bool q 0)
  | JStr s => Py.truthy s
  | JArr items => match items with [] => false | _ => true end
  | JObj members => match members with [] => false | _ => true end
  end.

End JsonOps.

(** ** HTTP *)

Record Response := mkResponse {
  status_code : Z;
  text : string;
  json : Exc Json;      (* what [response.json()] returns or raises *)
}.

(** [requests.post]/[requests.get] return a response or raise. *)
Inductive NetOutcome :=
| Responded (response : Response)
| NetRaised (e : PyExc).

(** The first 100 characters of a text, [text[:100]]. The model counts
    bytes. *)
Fixpoint str_take (n : nat) (s : string) : string :=
  match n, s with
  | S n, String c rest => String c (str_take n rest)
  | _, _ => EmptyString
  end.

(** ** Registrar checkers of [domain_finder.py] *)

(** Availability as the checkers return it: [Some true], [Some false], or
    [None] for Python's [None]. *)
Definition Verdict : Type := option bool * string.

Section Checkers.

Context `{Runtime}.

(** [porkbun_check], from the outcome of its one request on. *)
Definition porkbun_verdict (outcome : NetOutcome) : Verdict :=
  let body : Exc Verdict :=
    match outcome with
    | NetRaised e => Raise e
    | Responded response =>
        if (status_code response =? 200)%Z then
          try! data <- json response;
          try! status <- py_get data "status" JNull;
          if is_JStr status "SUCCESS" then
            try! response_data <- py_get data "response" (JObj []);
            try! avail <- py_get response_data "avail" JNull;
            let available := is_JStr avail "yes" in
            try! price <- py_get response_data "price" (JStr "未知");
            Ok (Some available, "Porkbun价格: " +:+ py_str price)
          else
            try! error_msg <- py_get data "message" (JStr "未知错误");
            Ok (Some false, "Porkbun API错误: " +:+ py_str error_msg)
        else if ((status_code response =? 400)%Z
                 && Py.contains "within 10 seconds used" (text response))%bool then
          Ok (None, "Porkbun速率限制")
        else
          Ok (Some false, "Porkbun HTTP错误: " +:+ pretty (status_code response))
    end in
  match body with
  | Ok v => v
  | Raise e => (Some false, "Porkbun请求异常: " +:+ exc_str e)
  end.

(** The part of [dynadot_check] inside [if response.status_code == 200]. *)
Definition dynadot_parse (data : Json) : Exc Verdict :=
  try! has_error <- py_in "error" data;
  if has_error : bool then
    try! error_msg <- py_get data "error" (JStr "未知错误");
    Ok (Some false, "Dynadot API错误: " +:+ py_str error_msg)
  else
    try! has_sr <- py_in "SearchResponse" data;
    try! sr_error <-
      (if has_sr : bool then try! sr <- py_item data "SearchResponse"; py_in "Error" sr
       else Ok false);
    if sr_error : bool then
      try! sr <- py_item data "SearchResponse";
      try! error_msg <- py_get sr "Error" (JStr "未知错误");
      Ok (Some false, "Dynadot API错误: " +:+ py_str error_msg)
    else
      try! has_results <-
        (if has_sr : bool then try! sr <- py_item data "SearchResponse"; py_in "SearchResults" sr
         else Ok false);
      let unparsed : Exc Verdict := Ok (Some false, "Dynadot API返回格式异常") in
      if has_results : bool then
        try! sr <- py_item data "SearchResponse";
        try! results <- py_item sr "SearchResults";
        match results with
        | JArr (result :: _) =>
            try! available_str <- py_get result "Available" (JStr "no");
            try! lowered <- py_lower available_str;
            let available := if decide (lowered = "yes") then true else false in
            try! price <- py_get result "Price" (JStr "未知");
            try! currency <- py_get result "Currency" (JStr "USD");
            if available
            then Ok (Some true, "Dynadot价格: " +:+ py_str price +:+ " " +:+ py_str currency)
            else Ok (Some false, "Dynadot: 域名已注册")
        | _ => unparsed
        end
      else unparsed.

(** [dynadot_check] from its request on (the API key is present). *)
Definition dynadot_verdict (outcome : NetOutcome) : Verdict :=
  let body : Exc Verdict :=
    match outcome with
    | NetRaised e => Raise e
    | Responded response =>
        if (status_code response =? 200)%Z then
          match (try! data <- json response; dynadot_parse data) with
          | Raise (mkExc EJSONDecode _) =>
              Ok (Some false,
                  "Dynadot JSON解析错误: " +:+ str_take 100 (text response) +:+ "...")
          | r => r
          end
        else
          Ok (Some false, "Dynadot HTTP错误: " +:+ pretty (status_code response))
    end in
  match body with
  | Ok v => v
  | Raise e => (Some false, "Dynadot请求异常: " +:+ exc_str e)
  end.

End Checkers.

(** ** The ledger: a pandas table *)

Inductive Cell :=
| CStr (s : string)
| CBool (b : bool)
| CNum (q : Q)
| CNaN
| CNone.

(** A [DataFrame]: the column labels in order and one dict per row. A label
    of [columns] that a row does not bind reads as NaN. *)
Record DataFrame := mkDF {
  columns : list string;
  rows : list (gmap string Cell);
}.

Definition has_column (df : DataFrame) (col : string) : bool :=
  bool_decide (col ∈ columns df).

(** [df[col]] as a list of cells ([None]: [KeyError]). *)
Definition column (df : DataFrame) (col : string) : option (list Cell) :=
  if has_column df col
  then Some ((fun row : gmap string Cell => default CNaN (row !! col)) <$> rows df)
  else None.

(** [df[col] = value] with a scalar [value]. *)
Definition set_column (col : string) (value : Cell) (df : DataFrame) : DataFrame :=
  {| columns := if has_column df col then columns df else columns df ++ [col];
     rows := (fun row : gmap string Cell => <[col := value]> row) <$> rows df |}.

(** [df.loc[mask, col] = value]; a new label is added to the table. *)
Definition loc_set (mask : list bool) (col : string) (value : Cell) (df : DataFrame)
  : DataFrame :=
  {| columns := if has_column df col then columns df else columns df ++ [col];
     rows := zip_with (fun (m : bool) (row : gmap string Cell) =>
                         if m then <[col := value]> row else row)
                      mask (rows df) |}.

Definition cell_is_str (s : string) (c : Cell) : bool :=
  match c with
  | CStr s' => bool_decide (s' = s)
  | _ => false
  end.

(** [cell == True] and [cell == False], elementwise. *)
Definition cell_is_true (c : Cell) : bool :=
  match c with
  | CBool b => b
  | CNum q => Qeq_bool q 1
  | _ => false
  end.

Definition cell_is_false (c : Cell) : bool :=
  match c with
  | CBool b => negb b
  | CNum q => Qeq_bool q 0
  | _ => false
  end.

(** [df['domain'] == domain] *)
Definition domain_mask (df : DataFrame) (domain : string) : option (list bool) :=
  match column df "domain" with
  | Some cells => Some (cell_is_str domain <$> cells)
  | None => None
  end.

(** [pd.concat([a, b], ignore_index=True)] *)
Definition concat (a b : DataFrame) : DataFrame :=
  {| columns := columns a ++ filter (fun col => col ∉ columns a) (columns b);
     rows := rows a ++ rows b |}.

Definition ledger_columns : list string :=
  ["domain"; "dns_checked"; "api_verified"; "available"; "note"].

(** [pd.DataFrame(columns=[...])] *)
Definition empty_ledger : DataFrame := mkDF ledger_columns [].

(** What is at the ledger path: nothing, a file [pd.read_csv] raises on, or
    a file it parses into a table. *)
Inductive FileState :=
| Missing
| Unreadable (message : string)
| Table (df : DataFrame).

Definition required_columns : list string :=
  ["domain"; "dns_checked"; "api_verified"; "available"].

Definition backfill (df : DataFrame) (col : string) : DataFrame :=
  if has_column df col then df
  else set_column col (if decide (col = "domain") then CStr "" else CBool false) df.

(** The strings among the cells of a column: the members of
    [set(df['domain'].tolist())] a [str] can be equal to. *)
Definition str_cells (cells : list Cell) : gset string :=
  list_to_set (omap (fun c => match c with CStr s => Some s | _ => None end) cells).

Definition load_checked_domains (file : FileState) : DataFrame * gset string :=
  match file with
  | Table df =>
      let df := foldl backfill df required_columns in
      (df, str_cells (default [] (column df "domain")))
  | Unreadable _ => (empty_ledger, ∅)
  | Missing => (empty_ledger, ∅)
  end.

(** ** The environment and the world *)

Inductive Event :=
| EvRequest (provider domain : string) (time : Q)
| EvSleep (seconds : Q)
| EvAvailable (domain note : string)
| EvError (domain error : string)
| EvSaveLedger (df : DataFrame).

(** What the program does not decide: the outcome of the k-th HTTP request,
    the time the k-th blocking operation (a request, a sleep) takes beyond
    its minimum, the k-th draw of [random.choice], the answer of the
    resolver, and the order in which a pool completes its tasks. *)
Record Env := mkEnv {
  http : nat -> NetOutcome;
  lag : nat -> Q;
  pick : nat -> nat;
  gethostbyname : string -> Resolution;
  as_completed : forall A : Type, list A -> list A;
}.

(** Time passes in blocking operations only. [trace] is chronological. *)
Record World := mkWorld {
  now : Q;
  n_http : nat;
  n_block : nat;
  n_pick : nat;
  trace : list Event;
}.

Definition emit (e : Event) (w : World) : World :=
  mkWorld (now w) (n_http w) (n_block w) (n_pick w) (trace w ++ [e]).

Section Effects.

Variable env : Env.

(** [time.sleep(seconds)] *)
Definition sleep (seconds : Q) (w : World) : World :=
  mkWorld (now w + seconds + lag env (n_block w))%Q
          (n_http w) (S (n_block w)) (n_pick w) (trace w ++ [EvSleep seconds]).

(** One HTTP request to a provider about a domain. *)
Definition request (provider domain : string) (w : World) : NetOutcome * World :=
  (http env (n_http w),
   mkWorld (now w + lag env (n_block w))%Q
           (S (n_http w)) (S (n_block w)) (n_pick w)
           (trace w ++ [EvRequest provider domain (now w)])).

(** [random.choice(items)] on a non-empty list. *)
Definition random_choice (items : list string) (w : World) : option string * World :=
  (items !! (pick env (n_pick w) mod List.length items)%nat,
   mkWorld (now w) (n_http w) (n_block w) (S (n_pick w)) (trace w)).

Definition save_available_domain (domain note : string) (w : World) : World :=
  emit (EvAvailable domain note) w.

Definition log_error (domain error : string) (w : World) : World :=
  emit (EvError domain error) w.

Definition save_checked_domains (df : DataFrame) (w : World) : World :=
  emit (EvSaveLedger df) w.

End Effects.

(** ** Provider configuration ([APIConfig]) *)

Definition RATE_LIMIT_PORKBUN : Q := 11.
Definition RATE_LIMIT_DYNADOT : Q := 2.

Record APIConfig := mkAPIConfig {
  providers : gmap string (gmap string Json);
  active_providers : list string;
}.

Definition add_provider (provider : string) (config : gmap string Json) (c : APIConfig)
  : APIConfig :=
  {| providers := <[Py.lower provider := config]> (providers c);
     active_providers :=
       if py_truthy (default (JBool true) (config !! "active"))
       then active_providers c ++ [Py.lower provider]
       else active_providers c |}.

Definition get_provider_config (c : APIConfig) (provider : string) : gmap string Json :=
  default ∅ (providers c !! Py.lower provider).

(** The pause of a provider: Porkbun's unless the name is Dynadot's. *)
Definition rate_limit_of (provider : string) : Q :=
  if decide (Py.lower provider = "dynadot") then RATE_LIMIT_DYNADOT else RATE_LIMIT_PORKBUN.

(** A Python dict that keeps insertion order: assignment to a present key
    keeps its place. *)
Fixpoint dict_set {V} (k : string) (v : V) (d : list (string * V)) : list (string * V) :=
  match d with
  | [] => [(k, v)]
  | (k', v') :: rest => if decide (k' = k) then (k, v) :: rest else (k', v') :: dict_set k v rest
  end.

(** [if k not in d: d[k] = []] followed by [d[k].append(x)] *)
Fixpoint dict_append {V} (k : string) (x : V) (d : list (string * list V))
  : list (string * list V) :=
  match d with
  | [] => [(k, [x])]
  | (k', xs) :: rest =>
      if decide (k' = k) then (k, xs ++ [x]) :: rest else (k', xs) :: dict_append k x rest
  end.

Definition verdict_cell (is_available : option bool) : Cell :=
  match is_available with
  | Some b => CBool b
  | None => CNone
  end.

(** [if is_available:] *)
Definition is_true (is_available : option bool) : bool :=
  match is_available with
  | Some true => true
  | _ => false
  end.

Definition is_none {A} (o : option A) : bool :=
  match o with
  | None => true
  | Some _ => false
  end.

(** One result of a lane: [(domain, is_available, note)]. *)
Definition ApiResult : Type := string * option bool * string.

Section Verifier.

Context `{Runtime}.
Variable env : Env.
Variable api_config : APIConfig.

Definition get_random_active_provider (w : World) : option string * World :=
  match active_providers api_config with
  | [] => (None, w)
  | _ => random_choice env (active_providers api_config) w
  end.

Definition porkbun_check (domain : string) (config : gmap string Json) (w : World)
  : Verdict * World :=
  let '(outcome, w) := request env "porkbun" domain w in
  (porkbun_verdict outcome, w).

Definition dynadot_check (domain : string) (config : gmap string Json) (w : World)
  : Verdict * World :=
  if py_truthy (default JNull (config !! "api_key")) then
    let '(outcome, w) := request env "dynadot" domain w in
    (dynadot_verdict outcome, w)
  else ((Some false, "未提供Dynadot API密钥"), w).

(** [api_check]; the domain it returns is the one it was given. *)
Definition api_check (domain : string) (provider : option string) (w : World)
  : Verdict * World :=
  let '(provider, w) :=
    match provider with
    | Some p => if Py.truthy p then (Some p, w) else get_random_active_provider w
    | None => get_random_active_provider w
    end in
  match provider with
  | None => ((Some false, "未配置API"), w)
  | Some p =>
      if negb (Py.truthy p) then ((Some false, "未配置API"), w)
      else
        let provider_config := get_provider_config api_config p in
        if decide (provider_config = ∅)
        then ((Some false, "未找到提供商配置: " +:+ p), w)
        else if decide (Py.lower p = "porkbun") then porkbun_check domain provider_config w
        else if decide (Py.lower p = "dynadot") then dynadot_check domain provider_config w
        else ((Some false, "不支持的API提供商: " +:+ p), w)
  end.

(** The loop of [process_api_batch]. [api_check] returns a verdict for
    every outcome of the request, so the handler of the loop body is not
    entered. *)
Fixpoint process_api_loop (provider : string) (domains : list string)
    (results : list ApiResult) (w : World) : list ApiResult * World :=
  match domains with
  | [] => (results, w)
  | domain :: rest =>
      let rate_limit := rate_limit_of provider in
      let '((is_available, note), w) := api_check domain (Some provider) w in
      let results := results ++ [(domain, is_available, note)] in
      let w := if is_true is_available
               then save_available_domain domain ("API已确认 - " +:+ note) w
               else w in
      let w := sleep env rate_limit w in
      process_api_loop provider rest results w
  end.

Definition process_api_batch (domains : list string) (provider : string) (w : World)
  : list ApiResult * World :=
  process_api_loop provider domains [] w.

(** The loop of [run_sequential_api_verification]. The table is updated
    in place; the handler of the loop body logs the exception and goes on
    to the next domain. *)
Fixpoint run_sequential_api_verification (domains : list string)
    (checked_df : DataFrame) (w : World) : DataFrame * World :=
  match domains with
  | [] => (checked_df, w)
  | domain :: rest =>
      let '(provider, w) := get_random_active_provider w in
      match provider with
      | None =>
          (* [provider.lower()] on [None] *)
          let error_msg := "API验证出错: " +:+ fault_str (NoAttribute JNull "lower") in
          run_sequential_api_verification rest checked_df (log_error domain error_msg w)
      | Some provider =>
          let rate_limit := rate_limit_of provider in
          let '((is_available, note), w) := api_check domain (Some provider) w in
          let '((is_available, note), w) :=
            if (is_none is_available && Py.contains "速率限制" note)%bool
            then api_check domain None (sleep env rate_limit w)
            else ((is_available, note), w) in
          match domain_mask checked_df domain with
          | None =>
              (* [checked_df['domain']] without that column *)
              let error_msg := "API验证出错: " +:+ fault_str (MissingKey "domain") in
              run_sequential_api_verification rest checked_df (log_error domain error_msg w)
          | Some mask =>
              let checked_df := loc_set mask "api_verified" (CBool true) checked_df in
              let checked_df :=
                loc_set mask "note" (CStr note)
                  (loc_set mask "available" (CBool (is_true is_available)) checked_df) in
              let w := if is_true is_available
                       then save_available_domain domain ("API已确认 - " +:+ note) w
                       else w in
              let w := sleep env rate_limit w in
              run_sequential_api_verification rest checked_df w
          end
      end
  end.

End Verifier.

(** How a call that updates the table in place ends: it returns, or an
    exception leaves it (the table keeps the updates made until then). *)
Inductive Completion :=
| Returned
| Raised (message : string).

Section Merge.

Context `{Runtime}.

(** The update of the table at the end of [run_parallel_api_verification]. *)
Fixpoint merge_api_results (results : list ApiResult) (checked_df : DataFrame)
  : DataFrame * Completion :=
  match results with
  | [] => (checked_df, Returned)
  | (domain, is_available, note) :: rest =>
      match domain_mask checked_df domain with
      | None => (checked_df, Raised (fault_str (MissingKey "domain")))
      | Some mask =>
          let checked_df :=
            if existsb id mask then
              loc_set mask "note" (CStr note)
                (loc_set mask "available" (verdict_cell is_available)
                   (loc_set mask "api_verified" (CBool true) checked_df))
            else checked_df in
          merge_api_results rest checked_df
      end
  end.

End Merge.

(** Round-robin assignment of the domains to the providers, and the queue
    of each provider. *)
Fixpoint assign_providers (providers : list string) (i : nat) (domains : list string)
    (domain_to_provider : list (string * string)) : list (string * string) :=
  match domains with
  | [] => domain_to_provider
  | domain :: rest =>
      let provider := default "" (providers !! (i mod List.length providers)%nat) in
      assign_providers providers (S i) rest (dict_set domain provider domain_to_provider)
  end.

Definition group_by_provider (domain_to_provider : list (string * string))
  : list (string * list string) :=
  foldl (fun d '(domain, provider) => dict_append provider domain d) [] domain_to_provider.

Section Parallel.

Context `{Runtime}.
Variable env : Env.                  (* the environment of the main thread *)
Variable lane_env : string -> Env.   (* the environment of each provider's lane *)
Variable api_config : APIConfig.

(** Every lane runs on its own thread, from the world in which the pool
    starts, against its own environment. The events of a lane are appended
    to the trace lane by lane, in completion order; the order in time of
    events of different lanes is not represented. An exception leaves the
    function when the pool is given a width of at most 0 and when the
    table has no domain column. *)
Definition run_parallel_api_verification (domains : list string)
    (checked_df : DataFrame) (max_workers : Z) (w : World)
  : DataFrame * Completion * World :=
  let providers := active_providers api_config in
  match providers with
  | [] => (checked_df, Returned, w)
  | _ =>
      let tasks := group_by_provider (assign_providers providers 0 domains []) in
      if (Z.min max_workers (Z.of_nat (List.length tasks)) <=? 0)%Z
      then (checked_df, Raised "max_workers must be greater than 0", w)
      else
        let lanes :=
          (fun '(provider, provider_domains) =>
             process_api_batch (lane_env provider) api_config provider_domains provider
               (mkWorld (now w) (n_http w) (n_block w) (n_pick w) []))
          <$> tasks in
        let completed := as_completed env (list ApiResult * World)%type lanes in
        let results := flat_map fst completed in
        let w := mkWorld (now w) (n_http w) (n_block w) (n_pick w)
                   (trace w ++ flat_map (fun lane => trace (snd lane)) completed) in
        (merge_api_results results checked_df, w)
  end.

Definition run_api_verification (domains : list string) (checked_df : DataFrame)
    (use_multi_api : bool) (max_workers : Z) (w : World)
  : DataFrame * Completion * World :=
  match active_providers api_config with
  | [] => (checked_df, Returned, w)
  | _ =>
      if (negb use_multi_api || (max_workers <=? 1)%Z)%bool then
        let '(df, w) := run_sequential_api_verification env api_config domains checked_df w in
        (df, Returned, w)
      else run_parallel_api_verification domains checked_df max_workers w
  end.

End Parallel.

(** ** The DNS batch and the orchestrator ([main]) *)

Definition dns_row (domain : string) (is_registered : bool) (error : option string)
  : gmap string Cell :=
  let note :=
    match error with
    | Some e => if Py.truthy e then e
                else if is_registered then "已注册" else "DNS无记录，可能可用"
    | None => if is_registered then "已注册" else "DNS无记录，可能可用"
    end in
  <["domain" := CStr domain]>
    (<["dns_checked" := CBool true]>
       (<["api_verified" := CBool false]>
          (<["available" := CBool (negb is_registered)]>
             (<["note" := CStr note]> ∅)))).

(** [pd.DataFrame(new_rows)] for rows with the five ledger keys. *)
Definition frame_of_rows (new_rows : list (gmap string Cell)) : DataFrame :=
  match new_rows with
  | [] => mkDF [] []
  | _ => mkDF ledger_columns new_rows
  end.

(** The rows of the ledger that the DNS stage approved and no registrar has
    checked ([None]: [KeyError]). Domain cells are strings in a ledger the
    pipeline wrote; other cells are left out. *)
Definition pending_domains (df : DataFrame) : option (list string) :=
  if (has_column df "dns_checked" && has_column df "api_verified"
      && has_column df "available" && has_column df "domain")%bool
  then
    Some (omap (fun row : gmap string Cell =>
                  if (cell_is_true (default CNaN (row !! "dns_checked"))
                      && cell_is_false (default CNaN (row !! "api_verified"))
                      && cell_is_true (default CNaN (row !! "available")))%bool
                  then match row !! "domain" with
                       | Some (CStr s) => Some s
                       | _ => None
                       end
                  else None)
               (rows df))
  else None.

Record Args := mkArgs {
  arg_characters : string;
  arg_length : Z;
  arg_limit : Z;
  arg_prefix : string;
  arg_suffix : string;
  arg_tld : string;
  arg_pattern : option string;
  arg_letters : bool;
  arg_digits : bool;
  arg_alphanumeric : bool;
  arg_threads : Z;
  arg_api_workers : Z;
  arg_verify_api : bool;
  arg_only_verify_api : bool;
}.

Section Orchestrator.

Context `{Runtime}.
Variable env : Env.
Variable lane_env : string -> Env.
Variable api_config : APIConfig.     (* what [APIConfig.from_file] loads *)

(** The body of the loop of [run_dns_batch] over the completed probes. *)
Fixpoint dns_loop (completed : list string) (new_rows : list (gmap string Cell))
    (w : World) : list (gmap string Cell) * World :=
  match completed with
  | [] => (new_rows, w)
  | submitted :: rest =>
      let '(domain, is_registered, error) := dns_check (gethostbyname env) submitted in
      let w := match error with
               | Some e => if Py.truthy e then log_error domain e w else w
               | None => w
               end in
      let new_rows := new_rows ++ [dns_row domain is_registered error] in
      let w := if is_registered then w
               else save_available_domain domain "待API验证" w in
      dns_loop rest new_rows w
  end.

(** [run_dns_batch] ([None]: a pool of width at most 0 raises). *)
Definition run_dns_batch (domains : list string) (checked_df : DataFrame)
    (max_workers : Z) (w : World) : option (DataFrame * World) :=
  if (max_workers <=? 0)%Z then None
  else
    let '(new_rows, w) := dns_loop (as_completed env string domains) [] w in
    Some (concat checked_df (frame_of_rows new_rows), w).

Definition run_api_verification_stage (args : Args) (checked_df : DataFrame)
    (domains : option (list string)) (w : World) : World :=
  match active_providers api_config with
  | [] => w
  | _ =>
      let domains := match domains with
                     | Some ds => Some ds
                     | None => pending_domains checked_df
                     end in
      match domains with
      | None => w
      | Some [] => w
      | Some ds =>
          let use_multi_api :=
            ((1 <? arg_api_workers args)%Z
             && (1 <? List.length (active_providers api_config))%nat)%bool in
          let '(final_df, completion, w) :=
            run_api_verification env lane_env api_config ds checked_df
              use_multi_api (arg_api_workers args) w in
          match completion with
          | Returned => save_checked_domains final_df w
          | Raised _ => w
          end
      end
  end.

Definition run_only_api_verification (args : Args) (checked_df : DataFrame) (w : World)
  : World :=
  match pending_domains checked_df with
  | None => w
  | Some [] => w
  | Some possibly_available =>
      run_api_verification_stage args checked_df (Some possibly_available) w
  end.

(** [main] after argument parsing: [file] is what is at the ledger path,
    the result is the world when the run ends (an exception that leaves a
    stage ends the run where it is). *)
Definition main (args : Args) (file : FileState) (w : World) : World :=
  let characters :=
    if arg_letters args then Py.ascii_lowercase
    else if arg_digits args then Py.digits
    else if arg_alphanumeric args then Py.ascii_lowercase +:+ Py.digits
    else arg_characters args in
  let '(checked_df, checked_set) := load_checked_domains file in
  if arg_only_verify_api args then run_only_api_verification args checked_df w
  else
    let domains :=
      generate_domains characters (arg_length args) (arg_limit args)
        (arg_prefix args) (arg_suffix args) (arg_tld args) checked_set
        (arg_pattern args) in
    match domains with
    | [] => w
    | _ =>
        match run_dns_batch domains checked_df (arg_threads args) w with
        | None => w
        | Some (updated_df, w) =>
            let w := save_checked_domains updated_df w in
            if arg_verify_api args
            then run_api_verification_stage args updated_df None w
            else w
        end
    end.

End Orchestrator.

(** ** The standalone provider clients ([porkbun_api.py], [dynadot_api.py]) *)

(** [if "." not in domain: domain += ".com"] *)
Definition complete_domain (domain : string) : string :=
  if Py.contains "." domain then domain else domain +:+ ".com".

(** The note of a result counts as an error when it contains one of the two
    words. *)
Definition is_error_note (note : string) : bool :=
  Py.contains "错误" note || Py.contains "异常" note.

(** [except requests.Timeout], [except requests.RequestException],
    [except Exception] of the clients. *)
Definition client_exception_note (e : PyExc) : string :=
  match exc_class e with
  | ETimeout => "请求超时"
  | ERequest => "请求异常: " +:+ exc_str e
  | _ => "未知错误: " +:+ exc_str e
  end.

Section Clients.

Context `{Runtime}.
Variable env : Env.

(** [_respect_rate_limit] of either client; returns the new
    [last_request_time]. *)
Definition respect_rate_limit (RATE_LIMIT : Q) (last_request_time : Q) (w : World)
  : Q * World :=
  let current_time := now w in
  let elapsed := (current_time - last_request_time)%Q in
  let w := if Qle_bool RATE_LIMIT elapsed then w
           else sleep env (RATE_LIMIT - elapsed)%Q w in
  (now w, w).

End Clients.

Module PorkbunAPI.

Definition RATE_LIMIT : Q := 11.

Section Client.

Context `{Runtime}.
Variable env : Env.

(** [check_domain] from the outcome of its request on. *)
Definition verdict_of (outcome : NetOutcome) : Verdict :=
  match outcome with
  | NetRaised e => (Some false, client_exception_note e)
  | Responded response =>
      if (status_code response =? 200)%Z then
        let parsed : Exc Verdict :=
          try! data <- json response;
          try! status <- py_get data "status" JNull;
          if is_JStr status "SUCCESS" then
            try! response_data <- py_get data "response" (JObj []);
            try! avail <- py_get response_data "avail" JNull;
            let available := is_JStr avail "yes" in
            try! price <- py_get response_data "price" (JStr "未知");
            if available then Ok (Some true, "价格: " +:+ py_str price)
            else Ok (Some false, "域名已注册")
          else
            try! error_msg <- py_get data "message" (JStr "未知错误");
            Ok (Some false, "API错误: " +:+ py_str error_msg) in
        match parsed with
        | Ok v => v
        | Raise (mkExc EJSONDecode _) =>
            (Some false, "JSON解析错误: " +:+ str_take 100 (text response) +:+ "...")
        | Raise e => (Some false, client_exception_note e)
        end
      else if ((status_code response =? 400)%Z
               && Py.contains "within 10 seconds used" (text response))%bool then
        (None, "Porkbun速率限制")
      else
        (Some false,
         "HTTP错误 " +:+ pretty (status_code response) +:+ ": "
           +:+ str_take 100 (text response) +:+ "...")
  end.

(** [check_domain]: the state of the client is its [last_request_time]. *)
Definition check_domain (domain : string) (last_request_time : Q) (w : World)
  : Verdict * Q * World :=
  let domain := complete_domain domain in
  let '(last_request_time, w) := respect_rate_limit env RATE_LIMIT last_request_time w in
  let '(outcome, w) := request env "porkbun" domain w in
  (verdict_of outcome, last_request_time, w).

(** The loop of [batch_check], with its [break]. *)
Fixpoint batch_loop (max_errors : Z) (domains : list string)
    (results : list (string * Verdict)) (consecutive_errors : Z)
    (last_request_time : Q) (w : World)
  : list (string * Verdict) * Q * World :=
  match domains with
  | [] => (results, last_request_time, w)
  | domain :: rest =>
      let '((available, note), last_request_time, w) :=
        check_domain domain last_request_time w in
      let '((available, note), last_request_time, w) :=
        if (is_none available && Py.contains "速率限制" note)%bool
        then check_domain domain last_request_time (sleep env RATE_LIMIT w)
        else ((available, note), last_request_time, w) in
      let results := dict_set domain (available, note) results in
      if is_error_note note then
        let consecutive_errors := (consecutive_errors + 1)%Z in
        if (max_errors <=? consecutive_errors)%Z then (results, last_request_time, w)
        else batch_loop max_errors rest results consecutive_errors last_request_time w
      else batch_loop max_errors rest results 0%Z last_request_time w
  end.

Definition batch_check (domains : list string) (max_errors : Z)
    (last_request_time : Q) (w : World) : list (string * Verdict) * Q * World :=
  batch_loop max_errors domains [] 0%Z last_request_time w.

End Client.

End PorkbunAPI.

Module DynadotAPI.

Definition RATE_LIMIT : Q := 2.

Section Client.

Context `{Runtime}.
Variable env : Env.

(** The part of [check_domain] after [data = response.json()]. *)
Definition parse (data : Json) : Exc Verdict :=
  try! has_error <- py_in "error" data;
  if has_error : bool then
    try! error_msg <- py_get data "error" (JStr "未知错误");
    Ok (Some false, "API错误: " +:+ py_str error_msg)
  else
    try! has_sr <- py_in "SearchResponse" data;
    try! sr_error <-
      (if has_sr : bool then try! sr <- py_item data "SearchResponse"; py_in "Error" sr
       else Ok false);
    if sr_error : bool then
      try! sr <- py_item data "SearchResponse";
      try! error_msg <- py_get sr "Error" (JStr "未知错误");
      Ok (Some false, "API错误: " +:+ py_str error_msg)
    else
      try! has_results <-
        (if has_sr : bool
         then try! sr <- py_item data "SearchResponse"; py_in "SearchResults" sr
         else Ok false);
      let unparsed : Exc Verdict := Ok (Some false, "API返回格式异常") in
      if has_results : bool then
        try! sr <- py_item data "SearchResponse";
        try! results <- py_item sr "SearchResults";
        match results with
        | JArr (result :: _) =>
            try! available_str <- py_get result "Available" (JStr "no");
            try! lowered <- py_lower available_str;
            let available := if decide (lowered = "yes") then true else false in
            try! price <- py_get result "Price" (JStr "未知");
            try! currency <- py_get result "Currency" (JStr "USD");
            if available
            then Ok (Some true, "价格: " +:+ py_str price +:+ " " +:+ py_str currency)
            else Ok (Some false, "域名已注册")
        | _ => unparsed
        end
      else unparsed.

Definition verdict_of (outcome : NetOutcome) : Verdict :=
  match outcome with
  | NetRaised e => (Some false, client_exception_note e)
  | Responded response =>
      if (status_code response =? 200)%Z then
        match (try! data <- json response; parse data) with
        | Ok v => v
        | Raise (mkExc EJSONDecode _) =>
            (Some false, "JSON解析错误: " +:+ str_take 100 (text response) +:+ "...")
        | Raise e => (Some false, client_exception_note e)
        end
      else
        (Some false,
         "HTTP错误 " +:+ pretty (status_code response) +:+ ": "
           +:+ str_take 100 (text response) +:+ "...")
  end.

Definition check_domain (domain : string) (last_request_time : Q) (w : World)
  : Verdict * Q * World :=
  let domain := complete_domain domain in
  let '(last_request_time, w) := respect_rate_limit env RATE_LIMIT last_request_time w in
  let '(outcome, w) := request env "dynadot" domain w in
  (verdict_of outcome, last_request_time, w).

Fixpoint batch_loop (max_errors : Z) (domains : list string)
    (results : list (string * Verdict)) (consecutive_errors : Z)
    (last_request_time : Q) (w : World)
  : list (string * Verdict) * Q * World :=
  match domains with
  | [] => (results, last_request_time, w)
  | domain :: rest =>
      let '((available, note), last_request_time, w) :=
        check_domain domain last_request_time w in
      let results := dict_set domain (available, note) results in
      if is_error_note note then
        let consecutive_errors := (consecutive_errors + 1)%Z in
        if (max_errors <=? consecutive_errors)%Z then (results, last_request_time, w)
        else batch_loop max_errors rest results consecutive_errors last_request_time w
      else batch_loop max_errors rest results 0%Z last_request_time w
  end.

Definition batch_check (domains : list string) (max_errors : Z)
    (last_request_time : Q) (w : World) : list (string * Verdict) * Q * World :=
  batch_loop max_errors domains [] 0%Z last_request_time w.

End Client.

End DynadotAPI.

(** ** The generation order as the specification words it *)

(** Lexicographic product order over the alphabet, leftmost character
    slowest: the word of rank [k] among the words of length [n] has at
    position [j] the character of rank [(k / |alphabet|^(n-1-j)) mod
    |alphabet|] of the alphabet. *)
Definition lex_word (alphabet : string) (n k : nat) : string :=
  let a := String.length alphabet in
  string_of_list_ascii
    ((fun j => nth ((k / a ^ (n - 1 - j)) mod a)%nat (list_ascii_of_string alphabet) zero)
       <$> seq 0 n).

Definition lex_words (alphabet : string) (n : nat) : list string :=
  lex_word alphabet n <$> seq 0 (String.length alphabet ^ n)%nat.

(** Stopping after [limit] accepted results, 0 (or less) meaning no bound. *)
Definition limit_cut {A} (limit : Z) (l : list A) : list A :=
  if (0 <? limit)%Z then take (Z.to_nat limit) l else l.

(** ** Concrete environments *)

(** A runtime that renders strings as they are and other values and faults
    by a fixed text. *)
Definition plain_runtime : Runtime :=
  {| py_str := fun j => match j with JStr s => s | _ => "?" end;
     fault_str := fun _ => "fault" |}.

(** Every request is answered by the same outcome, at once; the pools
    complete their tasks in submission order. *)
Definition constant_env (outcome : NetOutcome) (resolution : Resolution) : Env :=
  {| http := fun _ => outcome;
     lag := fun _ => 0%Q;
     pick := fun _ => 0%nat;
     gethostbyname := fun _ => resolution;
     as_completed := fun _ l => l |}.

Definition http_500 : NetOutcome :=
  Responded (mkResponse 500 "Internal Server Error" (Raise (mkExc EJSONDecode "Expecting value"))).

Definition porkbun_rate_limited : NetOutcome :=
  Responded (mkResponse 400 "1 out of 1 checks within 10 seconds used"
               (Raise (mkExc EJSONDecode "Expecting value"))).

Definition porkbun_available : NetOutcome :=
  Responded (mkResponse 200 ""
               (Ok (JObj [("status", JStr "SUCCESS");
                          ("response", JObj [("avail", JStr "yes"); ("price", JStr "9.73")])]))).

(** The k-th request is answered by the k-th outcome of a script, and by
    [otherwise] once the script is used up. *)
Definition scripted_env (script : list NetOutcome) (otherwise : NetOutcome) : Env :=
  {| http := fun k => nth k script otherwise;
     lag := fun _ => 0%Q;
     pick := fun _ => 0%nat;
     gethostbyname := fun _ => RaisedGaierror EAI_NONAME "Name or service not known";
     as_completed := fun _ l => l |}.

Definition no_such_name : Resolution := RaisedGaierror EAI_NONAME "Name or service not known".

Definition world0 : World := mkWorld 0 0 0 0 [].

Definition porkbun_only : APIConfig :=
  add_provider "porkbun" {["api_key" := JStr "pk"; "api_secret" := JStr "sk"]}
    (mkAPIConfig ∅ []).

Definition default_args : Args :=
  {| arg_characters := "abcdefhkmnprstuwy"; arg_length := 4; arg_limit := 1000;
     arg_prefix := ""; arg_suffix := ""; arg_tld := DEFAULT_TLD; arg_pattern := None;
     arg_letters := false; arg_digits := false; arg_alphanumeric := false;
     arg_threads := 20; arg_api_workers := 1;
     arg_verify_api := false; arg_only_verify_api := false |}.


(** The response on which the Porkbun checkers answer "rate limited". *)
Definition rate_limit_response (outcome : NetOutcome) : Prop :=
  exists response,
    outcome = Responded response
    /\ status_code response = 400%Z
    /\ Py.contains "within 10 seconds used" (text response) = true.

(** The default a missing required column is filled with. *)
Definition backfill_default (col : string) : Cell :=
  if decide (col = "domain") then CStr "" else CBool false.

(** A ledger file written before the note column existed. *)
Definition ledger_without_note : DataFrame :=
  mkDF ["domain"; "dns_checked"]
       [ {["domain" := CStr "abcd.com"; "dns_checked" := CBool true]} ].

(** Row [i] of the table is marked as verified by a registrar. *)
Definition api_verified_at (df : DataFrame) (i : nat) : bool :=
  match rows df !! i with
  | Some row =>
      match row !! "api_verified" with
      | Some (CBool true) => true
      | _ => false
      end
  | None => false
  end.

Definition domain_at (df : DataFrame) (i : nat) : option Cell :=
  match rows df !! i with
  | Some row => row !! "domain"
  | None => None
  end.

(** [after] keeps every row of [before] in its place, with its domain, and
    keeps every verified row verified. *)
Definition keeps_verified (before after : DataFrame) : Prop :=
  (List.length (rows before) <= List.length (rows after))%nat
  /\ forall i, (i < List.length (rows before))%nat ->
       domain_at after i = domain_at before i
       /\ (api_verified_at before i = true -> api_verified_at after i = true).

(** ** Reading a trace *)

(** The requests of a trace, in order: provider and domain. *)
Definition requests_of (events : list Event) : list (string * string) :=
  omap (fun e => match e with
                 | EvRequest provider domain _ => Some (provider, domain)
                 | _ => None
                 end) events.



Definition six_domains : list string :=
  ["aaaa.com"; "aaab.com"; "aaac.com"; "aaad.com"; "aaae.com"; "aaaf.com"].

(** The ledger after the DNS stage found no record for any of [domains]. *)
Definition dns_ledger (domains : list string) : DataFrame :=
  mkDF ledger_columns ((fun d => dns_row d false None) <$> domains).

Definition two_providers : APIConfig :=
  add_provider "dynadot" {["api_key" := JStr "dk"]} porkbun_only.

(** Porkbun answers "rate limited", Dynadot answers with a server error. *)
Definition rate_limited_lanes (provider : string) : Env :=
  if decide (provider = "porkbun")
  then constant_env porkbun_rate_limited no_such_name
  else constant_env http_500 no_such_name.


(** ** The configuration file ([APIConfig.from_file]) *)

(** What is at the path of the configuration file: nothing, a file
    [json.load] raises on, or a file it parses. *)
Inductive ConfigFile :=
| NoConfigFile
| ConfigUnreadable (message : string)
| ConfigParsed (data : Json).

(** An [APIConfig] as [from_file] builds it: the configuration stored for a
    provider is whatever value the file gives, an object or not. *)
Record LoadedConfig := mkLoaded {
  loaded_providers : gmap string Json;
  loaded_active : list string;
}.

Section FromFile.
Context `{Runtime}.

(** [add_provider] on a value of any shape: the value is stored, then
    [config.get] raises when it is not an object ([true]: raised). *)
Definition add_provider_json (provider : string) (config : Json) (c : LoadedConfig)
  : LoadedConfig * bool :=
  let stored := mkLoaded (<[Py.lower provider := config]> (loaded_providers c))
                  (loaded_active c) in
  match py_get config "active" (JBool true) with
  | Ok active =>
      (if py_truthy active
       then mkLoaded (loaded_providers stored) (loaded_active stored ++ [Py.lower provider])
       else stored,
       false)
  | Raise _ => (stored, true)
  end.

(** The loop over [providers.items()]; an exception ends it. *)
Fixpoint add_providers (entries : list (string * Json)) (c : LoadedConfig) : LoadedConfig :=
  match entries with
  | [] => c
  | (provider_name, provider_config) :: rest =>
      let '(c, raised) := add_provider_json provider_name provider_config c in
      if raised : bool then c else add_providers rest c
  end.

(** [APIConfig.from_file]. The members of an object are the items of the
    dict, with distinct keys. Every exception is caught and logged; the
    configuration built until then is returned. *)
Definition from_file (file : ConfigFile) : LoadedConfig :=
  let config := mkLoaded ∅ [] in
  match file with
  | NoConfigFile => config
  | ConfigUnreadable _ => config
  | ConfigParsed (JObj members) =>
      match assoc_get members "provider" with
      | Some provider =>
          if py_truthy provider then
            let provider_config :=
              JObj [("api_key", from_option id JNull (assoc_get members "api_key"));
                    ("api_secret", from_option id JNull (assoc_get members "api_secret"));
                    ("active", JBool true)] in
            match provider with
            | JStr name => fst (add_provider_json name provider_config config)
            | _ => config
            end
          else config
      | None =>
          match assoc_get members "providers" with
          | Some (JObj entries) => add_providers entries config
          | _ => config
          end
      end
  | ConfigParsed _ => config
  end.

End FromFile.

(** A loaded configuration as the [APIConfig] of the pipeline: it holds the
    providers whose stored value is an object. *)
Definition as_dict (j : Json) : option (gmap string Json) :=
  match j with
  | JObj members => Some (list_to_map members)
  | _ => None
  end.

Definition to_api_config (c : LoadedConfig) : APIConfig :=
  mkAPIConfig (omap as_dict (loaded_providers c)) (loaded_active c).

(** [is_provider_active] *)
Definition is_provider_active (c : APIConfig) (provider : string) : bool :=
  bool_decide (Py.lower provider ∈ active_providers c).

(** ** The loaders of the standalone clients ([load_from_config]) *)

(** [load_from_config] of [porkbun_api.py]: the key and the secret the
    client is built with, [None] when no client is returned. A missing
    file, a file that does not parse and a value without [get] raise; the
    handler returns [None]. *)
Module porkbun_api.
Section Loader.
Context `{Runtime}.

Definition load_from_config (file : ConfigFile) : option (Json * Json) :=
  match file with
  | ConfigParsed config =>
      let loaded : Exc (option (Json * Json)) :=
        try! providers <- py_get config "providers" (JObj []);
        try! porkbun_config <- py_get providers "porkbun" (JObj []);
        try! api_key <- py_get porkbun_config "api_key" JNull;
        try! api_secret <- py_get porkbun_config "api_secret" JNull;
        if negb (py_truthy api_key) then Ok None
        else
          try! active <- py_get porkbun_config "active" (JBool false);
          Ok (Some (api_key, api_secret)) in
      match loaded with
      | Ok client => client
      | Raise _ => None
      end
  | _ => None
  end.

End Loader.
End porkbun_api.

(** [load_from_config] of [dynadot_api.py]: the key the client is built
    with. *)
Module dynadot_api.
Section Loader.
Context `{Runtime}.

Definition load_from_config (file : ConfigFile) : option Json :=
  match file with
  | ConfigParsed config =>
      let loaded : Exc (option Json) :=
        try! providers <- py_get config "providers" (JObj []);
        try! dynadot_config <- py_get providers "dynadot" (JObj []);
        try! api_key <- py_get dynadot_config "api_key" JNull;
        if negb (py_truthy api_key) then Ok None
        else
          try! active <- py_get dynadot_config "active" (JBool false);
          Ok (Some api_key) in
      match loaded with
      | Ok client => client
      | Raise _ => None
      end
  | _ => None
  end.

End Loader.
End dynadot_api.

(** ** The lanes, the rows of the DNS batch and the answers of the registrars *)

(** The body of the loop that builds [provider_tasks]. *)
Definition lane_step (d : list (string * list string)) (entry : string * string)
  : list (string * list string) :=
  let '(domain, provider) := entry in dict_append provider domain d.

(** The row the DNS batch writes for a probed domain. *)
Definition probe_row (env : Env) (domain : string) : gmap string Cell :=
  let '(domain, is_registered, error) := dns_check (gethostbyname env) domain in
  dns_row domain is_registered error.

(** The resolver raised [socket.gaierror] for the domain. *)
Definition no_dns_record (env : Env) (domain : string) : bool :=
  match gethostbyname env domain with
  | RaisedGaierror _ _ => true
  | _ => false
  end.

Section Answers.

Context `{Runtime}.

(** The registrar says yes: status 200, a body that parses to an object
    with status SUCCESS whose response object has avail = "yes". *)
Definition porkbun_says_yes (outcome : NetOutcome) : Prop :=
  exists response data response_data,
    outcome = Responded response
    /\ status_code response = 200
    /\ json response = Ok data
    /\ py_get data "status" JNull = Ok (JStr "SUCCESS")
    /\ py_get data "response" (JObj []) = Ok response_data
    /\ py_get response_data "avail" JNull = Ok (JStr "yes").

(** The registrar says yes: the first search result has Available equal to
    "yes" up to case. *)
Definition dynadot_says_yes (outcome : NetOutcome) : Prop :=
  exists response data sr result others avail,
    outcome = Responded response
    /\ status_code response = 200
    /\ json response = Ok data
    /\ py_item data "SearchResponse" = Ok sr
    /\ py_item sr "SearchResults" = Ok (JArr (result :: others))
    /\ py_get result "Available" (JStr "no") = Ok avail
    /\ py_lower avail = Ok "yes".

End Answers.

(** An answer of Dynadot for a name that is free. *)
Definition dynadot_available : NetOutcome :=
  Responded (mkResponse 200 ""
               (Ok (JObj [("SearchResponse",
                           JObj [("ResponseCode", JStr "0");
                                 ("SearchResults",
                                  JArr [JObj [("DomainName", JStr "abcd.com");
                                              ("Available", JStr "Yes");
                                              ("Price", JStr "10.99")]])])]))).

(** The requests issued between two worlds are all about domains of a
    given list. *)
Definition asks_only_about (domains : list string) (w w' : World) : Prop :=
  exists asked,
    requests_of (trace w') = (requests_of (trace w) ++ asked)%list
    /\ Forall (fun r : string * string => snd r ∈ domains) asked.


(** * Properties *)

(** ** Generator *)

Lemma append_length (a b : string) :
  String.length (a +:+ b) = (String.length a + String.length b)%nat.
Proof. induction a as [|c a IH]; simpl; [reflexivity | now rewrite IH]. Qed.

Lemma append_inj_r (s x y : string) : x +:+ s = y +:+ s -> x = y.
Proof.
  revert y. induction x as [|c x IH]; intros [|d y] Heq; simpl in Heq.
  - reflexivity.
  - apply (f_equal String.length) in Heq.
    rewrite ?append_length in Heq. simpl in Heq. rewrite ?append_length in Heq. lia.
  - apply (f_equal String.length) in Heq.
    rewrite ?append_length in Heq. simpl in Heq. rewrite ?append_length in Heq. lia.
  - injection Heq as -> Heq. f_equal. now apply IH.
Qed.

Lemma full_domain_of_inj prefix suffix tld :
  Inj eq eq (full_domain_of prefix suffix tld).
Proof.
  intros x y Heq. unfold full_domain_of in Heq.
  apply String.app_inj in Heq. now apply append_inj_r in Heq.
Qed.

Lemma generate_loop_spec limit prefix suffix tld (exclude_set : gset string) combos :
  forall generated count,
    ((0 <? limit) = true -> count < limit)%Z ->
    generate_loop limit prefix suffix tld exclude_set combos generated count
    = generated ++
      (if (0 <? limit)%Z
       then take (Z.to_nat (limit - count))
       else fun l => l)
        (filter (fun d => d ∉ exclude_set) (full_domain_of prefix suffix tld <$> combos)).
Proof.
  induction combos as [|combo rest IH]; intros generated count Hcount; simpl.
  - rewrite filter_nil. now destruct (0 <? limit)%Z; rewrite ?take_nil, app_nil_r.
  - rewrite filter_cons. destruct (decide (_ ∈ exclude_set)) as [Hin|Hnin].
    + rewrite decide_False by (intros Hn; now apply Hn). now apply IH.
    + rewrite decide_True by assumption.
      destruct (0 <? limit)%Z eqn:Hlim; simpl.
      * specialize (Hcount eq_refl).
        destruct (limit <=? count + 1)%Z eqn:Hstop.
        -- apply Z.leb_le in Hstop.
           replace (Z.to_nat (limit - count)) with 1%nat by lia.
           simpl. now rewrite take_0.
        -- apply Z.leb_gt in Hstop.
           rewrite IH by (intros _; lia).
           replace (Z.to_nat (limit - count)) with (S (Z.to_nat (limit - (count + 1)))) by lia.
           simpl. now rewrite <- app_assoc.
      * rewrite IH by discriminate. now rewrite <- app_assoc.
Qed.

Lemma generate_domains_spec characters length limit prefix suffix tld
    (exclude_set : gset string) pattern :
  (0 < length)%Z ->
  generate_domains characters length limit prefix suffix tld exclude_set pattern
  = limit_cut limit
      (filter (fun d => d ∉ exclude_set)
         (full_domain_of prefix suffix tld
            <$> Py.product (pattern_characters characters pattern) (Z.to_nat length))).
Proof.
  intros Hlen. unfold generate_domains, generate_domains_logged.
  destruct (length <=? 0)%Z eqn:Hle; [apply Z.leb_le in Hle; lia|].
  simpl. rewrite generate_loop_spec by (intros H; now apply Z.ltb_lt).
  simpl. unfold limit_cut. rewrite Z.sub_0_r. now destruct (0 <? limit)%Z.
Qed.

(** *** The product enumerates the words by rank *)

Section ProductOrder.

Local Open Scope nat_scope.

Lemma seq_blocks (a m : nat) :
  seq 0 (a * m) = i ← seq 0 a; ((fun r => i * m + r) <$> seq 0 m).
Proof.
  induction a as [|a IH].
  - reflexivity.
  - replace (S a * m) with (a * m + m) by lia.
    rewrite seq_S, bind_app, seq_app, <- IH. f_equal.
    cbn [mbind list_bind mret]. rewrite app_nil_r. simpl Nat.add.
    change (fun r : nat => a * m + r) with (Nat.add (a * m)).
    rewrite fmap_add_seq, Nat.add_0_r. reflexivity.
Qed.

Lemma list_ascii_length (s : string) :
  List.length (list_ascii_of_string s) = String.length s.
Proof. induction s as [|c s IH]; simpl; [reflexivity | now rewrite IH]. Qed.

Lemma nth_seq_chars (l : list ascii) :
  l = (fun i => nth i l zero) <$> seq 0 (List.length l).
Proof.
  induction l as [|c l IH]; [reflexivity|].
  simpl. f_equal. rewrite <- fmap_S_seq, <- list_fmap_compose.
  exact IH.
Qed.

Lemma lex_word_S (alphabet : string) (n i r : nat) :
  i < String.length alphabet ->
  r < String.length alphabet ^ n ->
  lex_word alphabet (S n) (i * String.length alphabet ^ n + r)
  = String (nth i (list_ascii_of_string alphabet) zero) (lex_word alphabet n r).
Proof.
  intros Hi Hr. unfold lex_word.
  set (a := String.length alphabet) in *.
  set (chars := list_ascii_of_string alphabet).
  assert (Ha : a ≠ 0) by lia.
  rewrite <- cons_seq, fmap_cons. simpl string_of_list_ascii. f_equal.
  - replace (n - 0 - 0) with n by lia.
    rewrite Nat.div_add_l by (apply Nat.pow_nonzero; lia).
    rewrite (Nat.div_small r) by lia.
    rewrite Nat.add_0_r, Nat.mod_small by lia. reflexivity.
  - f_equal. rewrite <- fmap_S_seq, <- list_fmap_compose.
    apply list_fmap_ext. intros k j Hj. simpl.
    apply lookup_seq in Hj as [-> Hk]. simpl in Hk.
    replace (n - 0 - S (0 + k)) with (n - 1 - k) by lia.
    replace (n - 1 - (0 + k)) with (n - 1 - k) by lia.
    f_equal.
    set (p := a ^ (n - 1 - k)).
    assert (Hp : p ≠ 0) by (apply Nat.pow_nonzero; lia).
    assert (Hn : a ^ n = (a ^ k * a) * p).
    { unfold p. replace n with (k + 1 + (n - 1 - k)) at 1 by lia.
      rewrite !Nat.pow_add_r. simpl. lia. }
    rewrite Hn.
    replace (i * (a ^ k * a * p) + r) with ((i * a ^ k * a) * p + r) by lia.
    rewrite Nat.div_add_l by assumption.
    rewrite Nat.add_comm, Nat.Div0.mod_add. reflexivity.
Qed.

Lemma fmap_over_bind {A B C} (f : B -> C) (g : A -> list B) (l : list A) :
  f <$> (l ≫= g) = l ≫= (fun x => f <$> g x).
Proof.
  induction l as [|x l IH]; [reflexivity|].
  cbn [mbind list_bind]. rewrite fmap_app. f_equal. exact IH.
Qed.

Lemma product_lex (alphabet : string) (n : nat) :
  Py.product alphabet n = lex_words alphabet n.
Proof.
  induction n as [|n IH].
  - reflexivity.
  - unfold lex_words. simpl Py.product. rewrite IH.
    rewrite Nat.pow_succ_r', seq_blocks, fmap_over_bind.
    rewrite (nth_seq_chars (list_ascii_of_string alphabet)) at 1.
    rewrite list_ascii_length, list_fmap_bind.
    apply Forall_bind_ext, Forall_forall. intros i Hi.
    apply elem_of_seq in Hi. simpl.
    unfold lex_words. rewrite <- !list_fmap_compose.
    apply list_fmap_ext. intros k r Hr. simpl.
    apply lookup_seq in Hr as [-> Hk]. simpl in *.
    symmetry. apply lex_word_S; lia.
Qed.

Lemma product_step_NoDup (l : list ascii) (ws : list string) :
  NoDup l -> NoDup ws -> NoDup (c ← l; (String c <$> ws)).
Proof.
  intros Hl Hws. induction Hl as [|c l Hc Hl IH]; cbn [mbind list_bind].
  - constructor.
  - apply NoDup_app. split; [|split; [|exact IH]].
    + apply NoDup_fmap_2; [|exact Hws]. intros x y Heq. now injection Heq.
    + intros w Hw Hw'. apply list_elem_of_fmap in Hw as (x & -> & _).
      apply list_elem_of_bind in Hw' as (c' & Hin & Hc').
      apply list_elem_of_fmap in Hin as (y & Heq & _).
      injection Heq as -> _. contradiction.
Qed.

Lemma product_NoDup (alphabet : string) (n : nat) :
  NoDup (list_ascii_of_string alphabet) -> NoDup (Py.product alphabet n).
Proof.
  intros Hl. induction n as [|n IH]; simpl.
  - apply NoDup_singleton.
  - now apply product_step_NoDup.
Qed.

Lemma limit_cut_sublist {A} limit (l : list A) : limit_cut limit l `sublist_of` l.
Proof. unfold limit_cut. destruct (0 <? limit)%Z; [apply sublist_take | reflexivity]. Qed.

End ProductOrder.

(** *** The claims on the generator *)

(** C6. The generator enumerates the candidates in lexicographic product
    order, leftmost character slowest: for a positive length the returned
    list is the list of all words by rank, each wrapped in prefix, suffix
    and TLD, without the excluded ones and cut after [limit] results; and
    [generate_domains "ab" 2 3] with TLD ".com" is
    ["aa.com"; "ab.com"; "ba.com"]. *)
Theorem C6_lexicographic_product_order characters length limit prefix suffix tld
    (exclude_set : gset string) pattern :
  (0 < length)%Z ->
  generate_domains "ab" 2 3 "" "" ".com" ∅ None = ["aa.com"; "ab.com"; "ba.com"]
  /\ generate_domains characters length limit prefix suffix tld exclude_set pattern
     = limit_cut limit
         (filter (fun d => d ∉ exclude_set)
            (full_domain_of prefix suffix tld
               <$> lex_words (pattern_characters characters pattern) (Z.to_nat length))).
Proof.
  intros Hlen. split.
  - vm_compute. reflexivity.
  - rewrite <- product_lex. now apply generate_domains_spec.
Qed.

Lemma C6_lexicographic_product_order_witness :
  (0 < 2)%Z
  /\ generate_domains "ab" 2 3 "" "" ".com" ∅ None = ["aa.com"; "ab.com"; "ba.com"]
  /\ generate_domains "abc" 2 4 "x" "" ".io" {["xab.io"]} None
     = limit_cut 4
         (filter (fun d => d ∉ ({["xab.io"]} : gset string))
            (full_domain_of "x" "" ".io"
               <$> lex_words (pattern_characters "abc" None) (Z.to_nat 2))).
Proof.
  split; [lia|].
  apply (C6_lexicographic_product_order "abc" 2 4 "x" "" ".io" {["xab.io"]} None). lia.
Defined.

(** C3, as amended. When the character set in use has no repeated
    character and the length is positive, the returned list has no
    duplicates; and for every input no returned domain is in the exclude
    set. *)
Theorem C3_generator_unique_and_not_excluded characters length limit prefix suffix tld
    (exclude_set : gset string) pattern :
  (NoDup (list_ascii_of_string (pattern_characters characters pattern)) ->
   NoDup (generate_domains characters length limit prefix suffix tld exclude_set pattern))
  /\ (forall d,
        d ∈ generate_domains characters length limit prefix suffix tld exclude_set pattern ->
        d ∉ exclude_set).
Proof.
  destruct (Z_lt_le_dec 0 length) as [Hlen|Hlen].
  - rewrite generate_domains_spec by assumption. split.
    + intros Hchars. eapply sublist_NoDup; [|apply limit_cut_sublist].
      apply NoDup_filter, NoDup_fmap_2; [apply full_domain_of_inj|].
      now apply product_NoDup.
    + intros d Hd. eapply elem_of_sublist in Hd; [|apply limit_cut_sublist].
      now apply list_elem_of_filter in Hd as [Hd _].
  - unfold generate_domains, generate_domains_logged.
    destruct (length <=? 0)%Z eqn:Hle; [|apply Z.leb_gt in Hle; lia].
    simpl. split; [intros _; constructor | intros d Hd; inversion Hd].
Qed.

Lemma C3_generator_unique_and_not_excluded_witness :
  NoDup (list_ascii_of_string (pattern_characters "ab" None))
  /\ NoDup (generate_domains "ab" 2 3 "" "" ".com" {["ab.com"]} None)
  /\ (forall d, d ∈ generate_domains "ab" 2 3 "" "" ".com" {["ab.com"]} None ->
                d ∉ ({["ab.com"]} : gset string)).
Proof.
  assert (Hchars : NoDup (list_ascii_of_string (pattern_characters "ab" None))).
  { simpl. apply NoDup_ListNoDup. repeat constructor; simpl; intuition discriminate. }
  split; [exact Hchars|].
  destruct (C3_generator_unique_and_not_excluded "ab" 2 3 "" "" ".com" {["ab.com"]} None)
    as [Hnodup Hexcl].
  split; [exact (Hnodup Hchars) | exact Hexcl].
Defined.

(** C3, as stated, fails: a character set with a repeated character is a
    valid input and yields a duplicate. *)
Lemma C3_counterexample_repeated_character :
  generate_domains "aa" 1 0 "" "" ".com" ∅ None = ["a.com"; "a.com"]
  /\ ~ NoDup (generate_domains "aa" 1 0 "" "" ".com" ∅ None).
Proof.
  assert (Heq : generate_domains "aa" 1 0 "" "" ".com" ∅ None = ["a.com"; "a.com"])
    by (vm_compute; reflexivity).
  split; [exact Heq|]. rewrite Heq. intros Hnd.
  apply NoDup_cons in Hnd as [Hnin _]. apply Hnin. constructor.
Qed.



(** ** DNS prefilter *)

(** [dns_check] returns for every answer of the resolver: it is a total
    function of that answer, with the domain unchanged. *)
Lemma dns_check_cases gethostbyname domain :
  match gethostbyname domain with
  | Resolved _ => dns_check gethostbyname domain = (domain, true, None)
  | RaisedGaierror _ _ => dns_check gethostbyname domain = (domain, false, None)
  | RaisedOther e =>
      dns_check gethostbyname domain = (domain, true, Some ("DNS查询错误: " +:+ e))
  end.
Proof. unfold dns_check. now destruct (gethostbyname domain). Qed.

(** C4 does not hold of the code for a lookup that fails because the
    resolver cannot be reached: it raises [socket.gaierror] with
    [EAI_AGAIN], and [dns_check] answers as for a name that does not exist,
    not registered and without an error, where the claim asks for
    registered with the error attached. *)
Theorem C4_temporary_failure_reads_as_unregistered :
  dns_check (fun _ => RaisedGaierror EAI_AGAIN "Temporary failure in name resolution")
    "example.com"
  = ("example.com", false, None).
Proof. reflexivity. Qed.

(** ** Registrar checkers *)

Ltac split_matches :=
  repeat (simpl in *; try (simplify_eq; simpl; congruence);
          match goal with
          | |- context [match ?x with _ => _ end] => destruct x eqn:?
          | H : context [match ?x with _ => _ end] |- _ => destruct x eqn:?
          end).

Section CheckerVerdicts.
Context `{Runtime}.

(** A parsed Dynadot body never yields the unknown availability. *)
Lemma dynadot_parse_known data v : dynadot_parse data = Ok v -> fst v <> None.
Proof.
  unfold dynadot_parse, exc_bind. intros Hv. split_matches.
Qed.

Lemma dynadot_verdict_known outcome : fst (dynadot_verdict outcome) <> None.
Proof.
  unfold dynadot_verdict, exc_bind.
  destruct outcome as [response|e]; [|simpl; congruence].
  destruct (status_code response =? 200)%Z; [|simpl; congruence].
  destruct (json response) as [data|e]; [|destruct e as [[] ?]; simpl; congruence].
  destruct (dynadot_parse data) as [v|e] eqn:Hp.
  - now apply dynadot_parse_known in Hp.
  - destruct e as [[] ?]; simpl; congruence.
Qed.

Lemma client_parse_known data v : DynadotAPI.parse data = Ok v -> fst v <> None.
Proof.
  unfold DynadotAPI.parse, exc_bind. intros Hv. split_matches.
Qed.

Lemma client_verdict_known outcome : fst (DynadotAPI.verdict_of outcome) <> None.
Proof.
  unfold DynadotAPI.verdict_of, exc_bind.
  destruct outcome as [response|e]; [|simpl; congruence].
  destruct (status_code response =? 200)%Z; [|simpl; congruence].
  destruct (json response) as [data|e]; [|destruct e as [[] ?]; simpl; congruence].
  destruct (DynadotAPI.parse data) as [v|e] eqn:Hp.
  - now apply client_parse_known in Hp.
  - destruct e as [[] ?]; simpl; congruence.
Qed.

Lemma porkbun_verdict_unknown outcome :
  fst (porkbun_verdict outcome) = None <-> rate_limit_response outcome.
Proof.
  unfold porkbun_verdict, rate_limit_response, exc_bind. split.
  - intros Hv. destruct outcome as [response|e]; [|simpl in Hv; congruence].
    exists response. split; [reflexivity|].
    destruct (status_code response =? 200)%Z eqn:H200.
    + exfalso. split_matches.
    + destruct (status_code response =? 400)%Z eqn:H400; [|simpl in Hv; congruence].
      apply Z.eqb_eq in H400. split; [assumption|].
      simpl in Hv. destruct (Py.contains _ _); [reflexivity | simpl in Hv; congruence].
  - intros (response & -> & H400 & Hin).
    rewrite H400, Hin. reflexivity.
Qed.

Lemma client_porkbun_verdict_unknown outcome :
  fst (PorkbunAPI.verdict_of outcome) = None <-> rate_limit_response outcome.
Proof.
  unfold PorkbunAPI.verdict_of, rate_limit_response, exc_bind. split.
  - intros Hv. destruct outcome as [response|e]; [|simpl in Hv; congruence].
    exists response. split; [reflexivity|].
    destruct (status_code response =? 200)%Z eqn:H200.
    + exfalso. split_matches.
    + destruct (status_code response =? 400)%Z eqn:H400; [|simpl in Hv; congruence].
      apply Z.eqb_eq in H400. split; [assumption|].
      simpl in Hv. destruct (Py.contains _ _); [reflexivity | simpl in Hv; congruence].
  - intros (response & -> & H400 & Hin).
    rewrite H400, Hin. reflexivity.
Qed.

Lemma respect_rate_limit_n_http env RATE last w :
  n_http (snd (respect_rate_limit env RATE last w)) = n_http w.
Proof. unfold respect_rate_limit. now destruct (Qle_bool RATE _). Qed.

(** C10. The Dynadot checkers never return the unknown availability,
    whatever the request yields (a response of any status and body, a
    timeout, an exception); the Porkbun checkers return it exactly when the
    request is answered with status 400 and a body that contains
    "within 10 seconds used". *)
Theorem C10_unknown_only_from_porkbun env domain config last_request_time w :
  fst (fst (dynadot_check env domain config w)) <> None
  /\ fst (fst (fst (DynadotAPI.check_domain env domain last_request_time w))) <> None
  /\ (fst (fst (porkbun_check env domain config w)) = None
      <-> rate_limit_response (http env (n_http w)))
  /\ (fst (fst (fst (PorkbunAPI.check_domain env domain last_request_time w))) = None
      <-> rate_limit_response (http env (n_http w))).
Proof.
  repeat split.
  - unfold dynadot_check. destruct (py_truthy _); simpl; [|congruence].
    apply dynadot_verdict_known.
  - unfold DynadotAPI.check_domain.
    destruct (respect_rate_limit env DynadotAPI.RATE_LIMIT last_request_time w) as [l w1].
    simpl. apply client_verdict_known.
  - unfold porkbun_check. simpl. apply porkbun_verdict_unknown.
  - unfold porkbun_check. simpl. apply porkbun_verdict_unknown.
  - unfold PorkbunAPI.check_domain.
    pose proof (respect_rate_limit_n_http env PorkbunAPI.RATE_LIMIT last_request_time w) as Hn.
    destruct (respect_rate_limit env PorkbunAPI.RATE_LIMIT last_request_time w) as [l w1].
    simpl in *. rewrite <- Hn. apply client_porkbun_verdict_unknown.
  - unfold PorkbunAPI.check_domain.
    pose proof (respect_rate_limit_n_http env PorkbunAPI.RATE_LIMIT last_request_time w) as Hn.
    destruct (respect_rate_limit env PorkbunAPI.RATE_LIMIT last_request_time w) as [l w1].
    simpl in *. rewrite <- Hn. apply client_porkbun_verdict_unknown.
Qed.
End CheckerVerdicts.


(** ** Ledger *)

Lemma has_column_spec df c : has_column df c = true <-> c ∈ columns df.
Proof. unfold has_column. apply bool_decide_eq_true. Qed.

Lemma has_column_false df c : has_column df c = false <-> c ∉ columns df.
Proof. unfold has_column. apply bool_decide_eq_false. Qed.

Lemma backfill_columns df c :
  columns (backfill df c) = if has_column df c then columns df else (columns df ++ [c])%list.
Proof.
  unfold backfill. destruct (has_column df c) eqn:Hc; [reflexivity|].
  unfold set_column. simpl. now rewrite Hc.
Qed.

Lemma backfill_rows df c :
  rows (backfill df c)
  = if has_column df c then rows df
    else (fun row : gmap string Cell => <[c := backfill_default c]> row) <$> rows df.
Proof. unfold backfill. now destruct (has_column df c). Qed.

Lemma backfill_has_column df c c' :
  has_column (backfill df c) c' = true <-> has_column df c' = true \/ c' = c.
Proof.
  rewrite !has_column_spec, backfill_columns.
  destruct (has_column df c) eqn:Hc.
  - apply has_column_spec in Hc. split; [tauto | intros [?| ->]; assumption].
  - rewrite elem_of_app, list_elem_of_singleton. tauto.
Qed.

(** A column that is present is left as it is. *)
Lemma backfill_keeps_column df c c' :
  has_column df c' = true -> column (backfill df c) c' = column df c'.
Proof.
  intros Hc'. unfold column.
  assert (H1 : has_column (backfill df c) c' = true) by (apply backfill_has_column; tauto).
  rewrite H1, Hc', backfill_rows. destruct (has_column df c) eqn:Hc; [reflexivity|].
  f_equal. rewrite <- list_fmap_compose. apply list_fmap_ext. intros i row _. simpl.
  rewrite lookup_insert_ne; [reflexivity|]. intros ->. congruence.
Qed.

Lemma backfill_fills df c :
  has_column df c = false ->
  Forall (fun row : gmap string Cell => row !! c = Some (backfill_default c))
    (rows (backfill df c)).
Proof.
  intros Hc. rewrite backfill_rows, Hc. apply Forall_fmap, Forall_forall.
  intros row _. simpl. apply lookup_insert_eq.
Qed.

Lemma backfill_keeps_cells df c c' v :
  has_column df c' = true ->
  Forall (fun row : gmap string Cell => row !! c' = Some v) (rows df) ->
  Forall (fun row : gmap string Cell => row !! c' = Some v) (rows (backfill df c)).
Proof.
  intros Hc' Hall. rewrite backfill_rows. destruct (has_column df c) eqn:Hc; [assumption|].
  apply Forall_fmap. eapply Forall_impl; [exact Hall|]. intros row Hrow. simpl.
  rewrite lookup_insert_ne; [assumption|]. intros ->. congruence.
Qed.

Lemma backfill_all_has_column cols : forall df c,
  has_column (foldl backfill df cols) c = true <-> has_column df c = true \/ c ∈ cols.
Proof.
  induction cols as [|x cols IH]; intros df c; simpl.
  - rewrite elem_of_nil. tauto.
  - rewrite IH, backfill_has_column, elem_of_cons. tauto.
Qed.

Lemma backfill_all_keeps_column cols : forall df c,
  has_column df c = true -> column (foldl backfill df cols) c = column df c.
Proof.
  induction cols as [|x cols IH]; intros df c Hc; simpl; [reflexivity|].
  rewrite IH by (apply backfill_has_column; tauto). now apply backfill_keeps_column.
Qed.

Lemma backfill_all_keeps_cells cols : forall df c v,
  has_column df c = true ->
  Forall (fun row : gmap string Cell => row !! c = Some v) (rows df) ->
  Forall (fun row : gmap string Cell => row !! c = Some v) (rows (foldl backfill df cols)).
Proof.
  induction cols as [|x cols IH]; intros df c v Hc Hall; simpl; [assumption|].
  apply IH; [apply backfill_has_column; tauto | now apply backfill_keeps_cells].
Qed.

Lemma backfill_all_fills cols : forall df c,
  c ∈ cols -> has_column df c = false ->
  Forall (fun row : gmap string Cell => row !! c = Some (backfill_default c))
    (rows (foldl backfill df cols)).
Proof.
  induction cols as [|x cols IH]; intros df c Hin Hc; simpl.
  - inversion Hin.
  - destruct (decide (c = x)) as [->|Hne].
    + apply backfill_all_keeps_cells; [apply backfill_has_column; tauto|].
      now apply backfill_fills.
    + apply IH.
      * apply elem_of_cons in Hin as [?|?]; [contradiction | assumption].
      * destruct (has_column (backfill df x) c) eqn:Hb; [|reflexivity].
        apply backfill_has_column in Hb as [?|?]; congruence.
Qed.

Lemma backfill_all_length cols : forall df,
  List.length (rows (foldl backfill df cols)) = List.length (rows df).
Proof.
  induction cols as [|x cols IH]; intros df; simpl; [reflexivity|].
  rewrite IH, backfill_rows. destruct (has_column df x); [reflexivity|].
  apply length_fmap.
Qed.

(** C7, as amended. Loading a ledger file whose table lacks some of the
    columns domain, dns_checked, api_verified, available succeeds and
    returns a table with the same rows in which each of these four columns
    is present, a missing one filled with the empty string (domain) or with
    false (the three flags), and every column that was present unchanged; a
    missing note column is not added. *)
Theorem C7_load_backfills_required_columns (df : DataFrame) (col : string) :
  col ∈ required_columns ->
  let loaded := fst (load_checked_domains (Table df)) in
  has_column loaded col = true
  /\ List.length (rows loaded) = List.length (rows df)
  /\ (has_column df col = false ->
      Forall (fun row : gmap string Cell => row !! col = Some (backfill_default col))
        (rows loaded))
  /\ (forall c, has_column df c = true -> column loaded c = column df c)
  /\ has_column loaded "note" = has_column df "note".
Proof.
  intros Hcol loaded. subst loaded. unfold load_checked_domains. cbn [fst]. repeat split.
  - apply backfill_all_has_column. tauto.
  - apply backfill_all_length.
  - intros Hmissing. now apply backfill_all_fills.
  - intros c Hc. now apply backfill_all_keeps_column.
  - destruct (has_column df "note") eqn:Hn.
    + apply backfill_all_has_column. tauto.
    + destruct (has_column (foldl backfill df required_columns) "note") eqn:Hl; [|reflexivity].
      apply backfill_all_has_column in Hl as [Hl|Hl]; [congruence|].
      exfalso. unfold required_columns in Hl.
      repeat (apply elem_of_cons in Hl as [Hl|Hl]; [discriminate|]). inversion Hl.
Qed.

Lemma C7_load_backfills_required_columns_witness :
  "api_verified" ∈ required_columns
  /\ let loaded := fst (load_checked_domains (Table ledger_without_note)) in
     has_column loaded "api_verified" = true
     /\ List.length (rows loaded) = List.length (rows ledger_without_note)
     /\ (has_column ledger_without_note "api_verified" = false ->
         Forall (fun row : gmap string Cell =>
                   row !! "api_verified" = Some (backfill_default "api_verified"))
           (rows loaded))
     /\ (forall c, has_column ledger_without_note c = true ->
                   column loaded c = column ledger_without_note c)
     /\ has_column loaded "note" = has_column ledger_without_note "note".
Proof.
  assert (Hin : "api_verified" ∈ required_columns).
  { unfold required_columns. rewrite !elem_of_cons. tauto. }
  split; [exact Hin|].
  exact (C7_load_backfills_required_columns ledger_without_note "api_verified" Hin).
Defined.

(** C7, as stated, fails on the note column: a table without it is loaded
    without it, so its rows have no empty-string note. *)
Lemma C7_counterexample_note_not_backfilled :
  let loaded := fst (load_checked_domains (Table ledger_without_note)) in
  has_column ledger_without_note "note" = false
  /\ has_column loaded "note" = false
  /\ column loaded "note" = None
  /\ ~ Forall (fun row : gmap string Cell => row !! "note" = Some (CStr "")) (rows loaded).
Proof.
  simpl. repeat split; try (vm_compute; reflexivity).
  intros Hall. apply Forall_cons in Hall as [Hrow _].
  vm_compute in Hrow. discriminate.
Qed.


(** ** Monotonicity of api_verified *)

Lemma keeps_verified_refl df : keeps_verified df df.
Proof. split; [lia | intros i _; split; [reflexivity | tauto]]. Qed.

Lemma keeps_verified_trans a b c :
  keeps_verified a b -> keeps_verified b c -> keeps_verified a c.
Proof.
  intros [Hlen1 H1] [Hlen2 H2]. split; [lia|]. intros i Hi.
  destruct (H1 i Hi) as [Hd1 Hv1]. destruct (H2 i ltac:(lia)) as [Hd2 Hv2].
  split; [congruence | tauto].
Qed.

Lemma domain_mask_length df domain mask :
  domain_mask df domain = Some mask -> List.length mask = List.length (rows df).
Proof.
  unfold domain_mask, column. destruct (has_column df "domain"); [|discriminate].
  intros [= <-]. now rewrite !length_fmap.
Qed.

Lemma loc_set_length mask col v df :
  List.length mask = List.length (rows df) ->
  List.length (rows (loc_set mask col v df)) = List.length (rows df).
Proof. intros Hlen. simpl. rewrite length_zip_with. lia. Qed.

Lemma loc_set_keeps_verified mask col v df :
  List.length mask = List.length (rows df) ->
  col <> "domain" ->
  (col = "api_verified" -> v = CBool true) ->
  keeps_verified df (loc_set mask col v df).
Proof.
  intros Hlen Hdom Hval. split; [rewrite loc_set_length by assumption; lia|].
  intros i Hi. unfold domain_at, api_verified_at. simpl.
  rewrite lookup_zip_with.
  destruct (lookup_lt_is_Some_2 (rows df) i Hi) as [row Hrow].
  destruct (lookup_lt_is_Some_2 mask i ltac:(lia)) as [m Hm].
  rewrite Hrow, Hm. simpl. destruct m; [|split; [reflexivity | tauto]].
  split.
  - now rewrite lookup_insert_ne.
  - destruct (decide (col = "api_verified")) as [->|Hne].
    + rewrite lookup_insert_eq, Hval by reflexivity. tauto.
    + now rewrite lookup_insert_ne.
Qed.

Section Monotone.
Context `{Runtime}.

(** The three assignments of one verdict, as both strategies make them. *)
Lemma verdict_update_keeps_verified mask (a : Cell) note df :
  List.length mask = List.length (rows df) ->
  keeps_verified df
    (loc_set mask "note" (CStr note)
       (loc_set mask "available" a
          (loc_set mask "api_verified" (CBool true) df))).
Proof.
  intros Hlen.
  set (df1 := loc_set mask "api_verified" (CBool true) df).
  set (df2 := loc_set mask "available" a df1).
  assert (Hlen1 : List.length mask = List.length (rows df1))
    by (unfold df1; now rewrite loc_set_length).
  assert (Hlen2 : List.length mask = List.length (rows df2))
    by (unfold df2; now rewrite loc_set_length).
  apply (keeps_verified_trans _ df1); [now apply loc_set_keeps_verified|].
  apply (keeps_verified_trans _ df2); now apply loc_set_keeps_verified.
Qed.

Lemma sequential_keeps_verified env api_config domains :
  forall checked_df w,
    keeps_verified checked_df
      (fst (run_sequential_api_verification env api_config domains checked_df w)).
Proof.
  induction domains as [|domain rest IH]; intros checked_df w; simpl.
  - apply keeps_verified_refl.
  - destruct (get_random_active_provider env api_config w) as [[provider|] w1].
    + destruct (api_check env api_config domain (Some provider) w1) as [[a note] w2].
      destruct (if (is_none a && Py.contains "速率限制" note)%bool
                then api_check env api_config domain None
                       (sleep env (rate_limit_of provider) w2)
                else (a, note, w2)) as [[a' note'] w3].
      destruct (domain_mask checked_df domain) as [mask|] eqn:Hmask.
      * eapply keeps_verified_trans; [|apply IH].
        apply verdict_update_keeps_verified. eapply domain_mask_length, Hmask.
      * apply IH.
    + apply IH.
Qed.

Lemma merge_keeps_verified results :
  forall checked_df,
    keeps_verified checked_df (fst (merge_api_results results checked_df)).
Proof.
  induction results as [|[[domain a] note] rest IH]; intros checked_df; simpl.
  - apply keeps_verified_refl.
  - destruct (domain_mask checked_df domain) as [mask|] eqn:Hmask; simpl.
    + eapply keeps_verified_trans; [|apply IH].
      destruct (existsb id mask); [|apply keeps_verified_refl].
      apply verdict_update_keeps_verified. eapply domain_mask_length, Hmask.
    + apply keeps_verified_refl.
Qed.

Lemma parallel_keeps_verified env lane_env api_config domains checked_df max_workers w :
  keeps_verified checked_df
    (fst (fst (run_parallel_api_verification env lane_env api_config domains checked_df
                 max_workers w))).
Proof.
  unfold run_parallel_api_verification.
  destruct (active_providers api_config); [apply keeps_verified_refl|].
  destruct (Z.min _ _ <=? 0)%Z; [apply keeps_verified_refl|].
  simpl. destruct (merge_api_results _ checked_df) as [df c] eqn:Hm. simpl.
  change df with (fst (df, c)). rewrite <- Hm. apply merge_keeps_verified.
Qed.

Lemma dns_batch_keeps_verified env domains checked_df max_workers w :
  match run_dns_batch env domains checked_df max_workers w with
  | Some (updated_df, _) => keeps_verified checked_df updated_df
  | None => True
  end.
Proof.
  unfold run_dns_batch. destruct (max_workers <=? 0)%Z; [exact I|].
  destruct (dns_loop env _ [] w) as [new_rows w']. split.
  - simpl. rewrite length_app. lia.
  - intros i Hi. unfold domain_at, api_verified_at. simpl.
    rewrite lookup_app_l by assumption. split; [reflexivity | tauto].
Qed.

(** C2. Every update of the ledger by a stage keeps the rows in place
    with their domains and keeps a row whose api_verified is true at true:
    the sequential strategy, the parallel strategy (however it ends), the
    dispatch between the two, and the DNS batch, which only appends rows. *)
Theorem C2_api_verified_is_monotone env lane_env api_config domains checked_df
    use_multi_api max_workers threads w :
  keeps_verified checked_df
    (fst (run_sequential_api_verification env api_config domains checked_df w))
  /\ keeps_verified checked_df
       (fst (fst (run_parallel_api_verification env lane_env api_config domains
                    checked_df max_workers w)))
  /\ keeps_verified checked_df
       (fst (fst (run_api_verification env lane_env api_config domains checked_df
                    use_multi_api max_workers w)))
  /\ match run_dns_batch env domains checked_df threads w with
     | Some (updated_df, _) => keeps_verified checked_df updated_df
     | None => True
     end.
Proof.
  split; [apply sequential_keeps_verified|].
  split; [apply parallel_keeps_verified|].
  split; [|apply dns_batch_keeps_verified].
  - unfold run_api_verification.
    destruct (active_providers api_config); [apply keeps_verified_refl|].
    destruct (negb use_multi_api || (max_workers <=? 1)%Z)%bool.
    + pose proof (sequential_keeps_verified env api_config domains checked_df w) as Hs.
      destruct (run_sequential_api_verification env api_config domains checked_df w).
      exact Hs.
    + apply parallel_keeps_verified.
Qed.
End Monotone.


(** ** Lanes and the circuit breaker *)

Lemma requests_of_app a b : requests_of (a ++ b) = (requests_of a ++ requests_of b)%list.
Proof. unfold requests_of. apply omap_app. Qed.

Lemma assoc_get_dict_set {V} (d : list (string * V)) k v k' :
  assoc_get (dict_set k v d) k' = if decide (k = k') then Some v else assoc_get d k'.
Proof.
  induction d as [|[k0 v0] d IH]; simpl.
  - reflexivity.
  - destruct (decide (k0 = k)) as [->|Hne]; simpl.
    + destruct (decide (k = k')); reflexivity.
    + destruct (decide (k0 = k')) as [->|Hne'].
      * now rewrite decide_False by congruence.
      * exact IH.
Qed.

Section Lanes.
Context `{Runtime}.
Variable env : Env.

Lemma api_check_porkbun api_config domain w :
  get_provider_config api_config "porkbun" <> ∅ ->
  api_check env api_config domain (Some "porkbun") w
  = porkbun_check env domain (get_provider_config api_config "porkbun") w.
Proof.
  intros Hcfg. unfold api_check. simpl.
  destruct (decide (get_provider_config api_config "porkbun" = ∅)); [contradiction|].
  reflexivity.
Qed.

Lemma process_api_loop_porkbun api_config domains :
  get_provider_config api_config "porkbun" <> ∅ ->
  forall results w,
    let out := process_api_loop env api_config "porkbun" domains results w in
    (fun r : ApiResult => fst (fst r)) <$> fst out
    = (((fun r : ApiResult => fst (fst r)) <$> results) ++ domains)%list
    /\ requests_of (trace (snd out))
       = (requests_of (trace w) ++ ((fun d => ("porkbun", d)) <$> domains))%list.
Proof.
  intros Hcfg. induction domains as [|domain rest IH]; intros results w; simpl.
  - now rewrite !app_nil_r.
  - rewrite api_check_porkbun by assumption. unfold porkbun_check. simpl.
    set (v := porkbun_verdict (http env (n_http w))). destruct v as [a note] eqn:Hv.
    match goal with |- context [process_api_loop _ _ _ rest ?r ?w'] =>
      destruct (IH r w') as [IH1 IH2] end.
    split.
    + rewrite IH1, fmap_app. simpl. now rewrite <- app_assoc.
    + rewrite IH2. unfold sleep. simpl.
      destruct (is_true a); simpl;
        rewrite !requests_of_app; simpl; rewrite ?app_nil_r, <- !app_assoc; reflexivity.
Qed.
End Lanes.

Section Breaker.
Context `{Runtime}.
Variable env : Env.

Lemma rate_limited_note_is_no_error outcome :
  fst (PorkbunAPI.verdict_of outcome) = None ->
  is_error_note (snd (PorkbunAPI.verdict_of outcome)) = false.
Proof.
  intros Hv. apply client_porkbun_verdict_unknown in Hv as (response & -> & H400 & Hin).
  unfold PorkbunAPI.verdict_of. rewrite H400, Hin. vm_compute. reflexivity.
Qed.

Lemma respect_rate_limit_requests RATE last w :
  requests_of (trace (snd (respect_rate_limit env RATE last w))) = requests_of (trace w).
Proof.
  unfold respect_rate_limit. destruct (Qle_bool RATE _); simpl; [reflexivity|].
  rewrite requests_of_app. simpl. now rewrite app_nil_r.
Qed.

(** One call of the client: its verdict is the one of the next outcome, and
    it issues one request. *)
Lemma check_domain_step domain last w :
  let out := PorkbunAPI.check_domain env domain last w in
  fst (fst out) = PorkbunAPI.verdict_of (http env (n_http w))
  /\ n_http (snd out) = S (n_http w)
  /\ requests_of (trace (snd out))
     = (requests_of (trace w) ++ [("porkbun", complete_domain domain)])%list.
Proof.
  unfold PorkbunAPI.check_domain.
  pose proof (respect_rate_limit_n_http env PorkbunAPI.RATE_LIMIT last w) as Hn.
  pose proof (respect_rate_limit_requests PorkbunAPI.RATE_LIMIT last w) as Hr.
  destruct (respect_rate_limit env PorkbunAPI.RATE_LIMIT last w) as [l w1].
  simpl in *. rewrite Hn. repeat split.
  rewrite requests_of_app, Hr. reflexivity.
Qed.

Lemma batch_loop_breaker max_errors win : forall rest results consecutive_errors last w,
  win <> [] ->
  (consecutive_errors + Z.of_nat (List.length win) = max_errors)%Z ->
  (forall k, (n_http w <= k)%nat ->
             is_error_note (snd (PorkbunAPI.verdict_of (http env k))) = true) ->
  let out := PorkbunAPI.batch_loop env max_errors (win ++ rest) results
               consecutive_errors last w in
  out = PorkbunAPI.batch_loop env max_errors win results consecutive_errors last w
  /\ requests_of (trace (snd out))
     = (requests_of (trace w) ++ ((fun d => ("porkbun", complete_domain d)) <$> win))%list
  /\ (forall d, d ∉ win -> assoc_get (fst (fst out)) d = assoc_get results d)
  /\ (forall d, d ∈ win ->
        exists v, assoc_get (fst (fst out)) d = Some v /\ is_error_note (snd v) = true).
Proof.
  induction win as [|domain win IH]; intros rest results c last w Hne Hsum Herr;
    [contradiction|].
  cbn [app PorkbunAPI.batch_loop].
  destruct (check_domain_step domain last w) as (Hv & Hn & Hreq).
  destruct (PorkbunAPI.check_domain env domain last w) as [[[a note] last1] w1].
  simpl in Hv, Hn, Hreq.
  assert (Hnote : is_error_note note = true).
  { specialize (Herr (n_http w) (le_n _)). now rewrite <- Hv in Herr. }
  assert (Ha : is_none a = false).
  { destruct a; [reflexivity|]. exfalso.
    pose proof (rate_limited_note_is_no_error (http env (n_http w))) as Hno.
    rewrite <- Hv in Hno. simpl in Hno. rewrite Hno in Hnote by reflexivity. discriminate. }
  rewrite Ha. cbn [andb]. rewrite Hnote.
  destruct (max_errors <=? c + 1)%Z eqn:Hstop.
  - apply Z.leb_le in Hstop.
    assert (win = []) as -> by (destruct win; [reflexivity | simpl in Hsum; lia]).
    simpl. split; [reflexivity|]. split; [exact Hreq|]. split.
    + intros d Hd. rewrite assoc_get_dict_set.
      destruct (decide (domain = d)) as [->|]; [|reflexivity].
      exfalso. apply Hd. constructor.
    + intros d Hd. apply list_elem_of_singleton in Hd as ->.
      exists (a, note). rewrite assoc_get_dict_set, decide_True by reflexivity. now split.
  - apply Z.leb_gt in Hstop.
    assert (Hne' : win <> []) by (intros ->; simpl in Hsum; lia).
    destruct (IH rest (dict_set domain (a, note) results) (c + 1)%Z last1 w1 Hne')
      as (Heq & Hreq' & Hkeep & Hwin).
    { simpl in Hsum. lia. }
    { intros k Hk. apply Herr. lia. }
    split; [exact Heq|]. split; [|split].
    + rewrite Hreq', Hreq, <- app_assoc. reflexivity.
    + intros d Hd. rewrite Hkeep by (intros Hin; apply Hd; now constructor).
      rewrite assoc_get_dict_set. destruct (decide (domain = d)) as [->|]; [|reflexivity].
      exfalso. apply Hd. constructor.
    + intros d Hd. destruct (decide (d ∈ win)) as [Hin|Hnin]; [now apply Hwin|].
      apply elem_of_cons in Hd as [->|?]; [|contradiction].
      exists (a, note). rewrite Hkeep by assumption.
      rewrite assoc_get_dict_set, decide_True by reflexivity. now split.
Qed.
End Breaker.

(** C1, as amended. The circuit breaker is in [batch_check] of the
    standalone client: once the count of consecutive results with an error
    note reaches [max_errors] (5 by default), no request is issued for the
    remaining domains, and the results obtained until then are kept, those
    of earlier domains included. The lane of the parallel strategy,
    [process_api_batch], has no breaker: for Porkbun it issues one request
    for every domain of its queue and returns one result for each. *)
Theorem C1_breaker_is_in_batch_check `{Runtime} env api_config domains w
    max_errors win rest results consecutive_errors last_request_time wb :
  get_provider_config api_config "porkbun" <> ∅ ->
  win <> [] ->
  (consecutive_errors + Z.of_nat (List.length win) = max_errors)%Z ->
  (forall k, (n_http wb <= k)%nat ->
             is_error_note (snd (PorkbunAPI.verdict_of (http env k))) = true) ->
  let lane := process_api_batch env api_config domains "porkbun" w in
  let batch := PorkbunAPI.batch_loop env max_errors (win ++ rest) results
                 consecutive_errors last_request_time wb in
  ((fun r : ApiResult => fst (fst r)) <$> fst lane = domains
   /\ requests_of (trace (snd lane))
      = (requests_of (trace w) ++ ((fun d => ("porkbun", d)) <$> domains))%list)
  /\ (batch = PorkbunAPI.batch_loop env max_errors win results consecutive_errors
                last_request_time wb
      /\ requests_of (trace (snd batch))
         = (requests_of (trace wb)
              ++ ((fun d => ("porkbun", complete_domain d)) <$> win))%list
      /\ (forall d, d ∉ win -> assoc_get (fst (fst batch)) d = assoc_get results d)
      /\ (forall d, d ∈ win ->
            exists v, assoc_get (fst (fst batch)) d = Some v
                      /\ is_error_note (snd v) = true)).
Proof.
  intros Hcfg Hne Hsum Herr lane batch. split.
  - exact (process_api_loop_porkbun env api_config domains Hcfg [] w).
  - now apply batch_loop_breaker.
Qed.

Lemma porkbun_only_configured : get_provider_config porkbun_only "porkbun" <> ∅.
Proof.
  intros Heq. apply (f_equal (fun m : gmap string Json => m !! "api_key")) in Heq.
  vm_compute in Heq. discriminate.
Qed.

Lemma C1_breaker_is_in_batch_check_witness :
  let env := scripted_env [porkbun_available] http_500 in
  let start := PorkbunAPI.batch_check (H := plain_runtime) env ["good.com"] 5 0 world0 in
  let win := take 5 six_domains in
  let rest := drop 5 six_domains in
  let batch := PorkbunAPI.batch_check (H := plain_runtime) env ("good.com" :: six_domains)
                 5 0 world0 in
  get_provider_config porkbun_only "porkbun" <> ∅
  /\ win <> []
  /\ (0 + Z.of_nat (List.length win) = 5)%Z
  /\ (forall k, (n_http (snd start) <= k)%nat ->
        is_error_note (snd (PorkbunAPI.verdict_of (H := plain_runtime) (http env k))) = true)
  /\ batch = PorkbunAPI.batch_check (H := plain_runtime) env ("good.com" :: win) 5 0 world0
  /\ requests_of (trace (snd batch))
     = (fun d => ("porkbun", d)) <$> ("good.com" :: win)
  /\ assoc_get (fst (fst batch)) "good.com" = Some (Some true, "价格: 9.73").
Proof.
  intros env start win rest batch.
  assert (H1 : get_provider_config porkbun_only "porkbun" <> ∅)
    by exact porkbun_only_configured.
  assert (H2 : win <> []) by discriminate.
  assert (H3 : (0 + Z.of_nat (List.length win) = 5)%Z) by reflexivity.
  assert (H4 : forall k, (n_http (snd start) <= k)%nat ->
             is_error_note (snd (PorkbunAPI.verdict_of (H := plain_runtime) (http env k)))
             = true).
  { intros [|[|k]] Hk; [simpl in Hk; lia | vm_compute; reflexivity..]. }
  destruct (C1_breaker_is_in_batch_check (H := plain_runtime) env porkbun_only six_domains
              world0 5 win rest (fst (fst start)) 0 (snd (fst start)) (snd start)
              H1 H2 H3 H4)
    as (_ & Heq & Hreq & Hkeep & _).
  split; [exact H1|]. split; [exact H2|]. split; [exact H3|]. split; [exact H4|].
  split; [exact Heq|]. split; [exact Hreq|].
  apply (Hkeep "good.com"). intros Hin. vm_compute in Hin.
  repeat (apply elem_of_cons in Hin as [Hin|Hin]; [discriminate|]). inversion Hin.
Defined.

(** C1, as stated, fails: a lane fed six consecutive provider errors
    issues its sixth request. *)
Lemma C1_counterexample_lane_has_no_breaker :
  let lane := process_api_batch (H := plain_runtime) (constant_env http_500 no_such_name)
                porkbun_only six_domains "porkbun" world0 in
  Forall (fun r : ApiResult => is_error_note (snd r) = true) (fst lane)
  /\ List.length (fst lane) = 6%nat
  /\ requests_of (trace (snd lane)) = (fun d => ("porkbun", d)) <$> six_domains.
Proof.
  vm_compute. repeat split. repeat constructor.
Qed.

(** ** The rate-limited answer in the two strategies *)

(** C5 does not hold of the parallel strategy. Two providers are active
    and Porkbun answers "rate limited" to the one domain of its lane. The
    lane issues its one request and no other, and returns the unknown
    availability as the result; the parallel strategy then marks the row as
    verified with an availability of [None]. The sequential strategy, on
    the same answer, pauses for the interval and asks once more. *)
Theorem C5_parallel_lane_records_rate_limit_without_retry :
  let env := constant_env porkbun_rate_limited no_such_name in
  let ledger := dns_ledger ["abcd.com"; "abce.com"] in
  let lane := process_api_batch (H := plain_runtime) env two_providers ["abcd.com"]
                "porkbun" world0 in
  let parallel := run_api_verification (H := plain_runtime) env rate_limited_lanes
                    two_providers ["abcd.com"; "abce.com"] ledger true 2 world0 in
  let sequential := run_sequential_api_verification (H := plain_runtime) env two_providers
                      ["abcd.com"] ledger world0 in
  fst lane = [("abcd.com", None, "Porkbun速率限制")]
  /\ trace (snd lane) = [EvRequest "porkbun" "abcd.com" 0; EvSleep RATE_LIMIT_PORKBUN]
  /\ snd (fst parallel) = Returned
  /\ ((fun row : gmap string Cell =>
         (row !! "domain", row !! "api_verified", row !! "available"))
        <$> rows (fst (fst parallel)))
     = [(Some (CStr "abcd.com"), Some (CBool true), Some CNone);
        (Some (CStr "abce.com"), Some (CBool true), Some (CBool false))]
  /\ trace (snd sequential)
     = [EvRequest "porkbun" "abcd.com" 0; EvSleep RATE_LIMIT_PORKBUN;
        EvRequest "porkbun" "abcd.com" 11; EvSleep RATE_LIMIT_PORKBUN].
Proof.
  vm_compute. repeat split.
Qed.

(** ** Pacing *)





Section Pacing.
Context `{Runtime}.
Variable env : Env.
Hypothesis lag_nonneg : forall k, (0 <= lag env k)%Q.

(** What a call of [api_check] does to the clock and the trace: nothing, or
    one request issued at the time of the call. *)
Lemma api_check_effect api_config domain provider w :
  let w1 := snd (api_check env api_config domain provider w) in
  (trace w1 = trace w /\ now w1 = now w)
  \/ (exists p, trace w1 = (trace w ++ [EvRequest p domain (now w)])%list
                /\ now w1 = (now w + lag env (n_block w))%Q).
Proof.
  unfold api_check.
  set (chosen := match provider with
                 | Some p => if Py.truthy p then (Some p, w)
                             else get_random_active_provider env api_config w
                 | None => get_random_active_provider env api_config w
                 end).
  assert (Hw : trace (snd chosen) = trace w /\ now (snd chosen) = now w
               /\ n_block (snd chosen) = n_block w).
  { unfold chosen, get_random_active_provider.
    destruct provider as [p|]; [destruct (Py.truthy p)|];
      destruct (active_providers api_config); simpl; auto. }
  destruct chosen as [[p|] w0]; simpl in Hw; destruct Hw as (Ht & Hn & Hb); [|now left].
  destruct (negb (Py.truthy p)); [now left|].
  destruct (decide (get_provider_config api_config p = ∅)); [now left|].
  destruct (decide (Py.lower p = "porkbun")).
  - right. exists "porkbun". unfold porkbun_check. simpl. now rewrite Ht, Hn, Hb.
  - destruct (decide (Py.lower p = "dynadot")); [|now left].
    unfold dynadot_check. destruct (py_truthy _); [|now left].
    right. exists "dynadot". simpl. now rewrite Ht, Hn, Hb.
Qed.




End Pacing.


(** * Further properties *)

(** ** The generator: counts, shape and resumption *)

Lemma product_length alphabet n :
  List.length (Py.product alphabet n) = (String.length alphabet ^ n)%nat.
Proof. rewrite product_lex. unfold lex_words. now rewrite length_fmap, length_seq. Qed.

Lemma limit_cut_length {A} limit (l : list A) :
  Z.of_nat (List.length (limit_cut limit l))
  = if (0 <? limit)%Z then Z.min limit (Z.of_nat (List.length l)) else Z.of_nat (List.length l).
Proof.
  unfold limit_cut. destruct (0 <? limit)%Z eqn:Hl; [|reflexivity].
  apply Z.ltb_lt in Hl. rewrite length_take. lia.
Qed.

(** X1. The count announced in the log before the loop bounds the count of
    domains generated. *)
Theorem generate_domains_count_bound characters length limit prefix suffix tld
    (exclude_set : gset string) pattern :
  let total_combinations :=
    (Z.of_nat (String.length (pattern_characters characters pattern)) ^ length)%Z in
  let actual_limit := if (0 <? limit)%Z then limit else total_combinations in
  (Z.of_nat (List.length
               (generate_domains characters length limit prefix suffix tld exclude_set pattern))
   <= Z.min total_combinations actual_limit)%Z.
Proof.
  intros total actual.
  destruct (Z_lt_le_dec 0 length) as [Hlen|Hlen].
  - rewrite generate_domains_spec by assumption.
    set (F := filter _ _).
    assert (HF : (Z.of_nat (List.length F) <= total)%Z).
    { unfold F, total. etransitivity.
      - apply Nat2Z.inj_le, length_filter.
      - rewrite length_fmap, product_length, Nat2Z.inj_pow, Z2Nat.id by lia. lia. }
    rewrite limit_cut_length. unfold actual. destruct (0 <? limit)%Z; lia.
  - unfold generate_domains, generate_domains_logged.
    destruct (length <=? 0)%Z eqn:Hle; [|apply Z.leb_gt in Hle; lia].
    simpl. unfold actual, total.
    assert (0 <= Z.of_nat (String.length (pattern_characters characters pattern)) ^ length)%Z.
    { destruct (Z.eq_dec length 0) as [->|]; [simpl; lia|].
      rewrite Z.pow_neg_r by lia. lia. }
    destruct (0 <? limit)%Z eqn:Hl; [apply Z.ltb_lt in Hl|]; lia.
Qed.

Lemma product_words alphabet n w :
  w ∈ Py.product alphabet n ->
  String.length w = n
  /\ Forall (fun c => c ∈ list_ascii_of_string alphabet) (list_ascii_of_string w).
Proof.
  revert w. induction n as [|n IH]; intros w Hw; simpl in Hw.
  - apply list_elem_of_singleton in Hw as ->. split; [reflexivity | constructor].
  - apply list_elem_of_bind in Hw as (c & Hw & Hc).
    apply list_elem_of_fmap in Hw as (w' & -> & Hw').
    destruct (IH w' Hw') as [Hlen Hall]. simpl. split; [now rewrite Hlen|].
    now constructor.
Qed.

(** X2. Every generated domain is prefix, a body of exactly [length] characters
    of the character set in use, suffix and TLD. *)
Theorem generate_domains_shape characters length limit prefix suffix tld
    (exclude_set : gset string) pattern :
  Forall (fun d => exists body,
            d = prefix +:+ body +:+ suffix +:+ tld
            /\ Z.of_nat (String.length body) = length
            /\ Forall (fun c => c ∈ list_ascii_of_string
                                     (pattern_characters characters pattern))
                 (list_ascii_of_string body))
    (generate_domains characters length limit prefix suffix tld exclude_set pattern).
Proof.
  destruct (Z_lt_le_dec 0 length) as [Hlen|Hlen].
  - rewrite generate_domains_spec by assumption. apply Forall_forall. intros d Hd.
    eapply elem_of_sublist in Hd; [|apply limit_cut_sublist].
    apply list_elem_of_filter in Hd as [_ Hd].
    apply list_elem_of_fmap in Hd as (body & -> & Hbody).
    apply product_words in Hbody as [Hl Hall].
    exists body. split; [reflexivity|]. split; [lia | assumption].
  - unfold generate_domains, generate_domains_logged.
    destruct (length <=? 0)%Z eqn:Hle; [|apply Z.leb_gt in Hle; lia].
    constructor.
Qed.

Lemma filter_all {A} (P : A -> Prop) `{forall x, Decision (P x)} (l : list A) :
  Forall P l -> filter P l = l.
Proof.
  induction 1 as [|x l Hx _ IH]; [reflexivity|].
  now rewrite filter_cons_True, IH.
Qed.

Lemma filter_none {A} (P : A -> Prop) `{forall x, Decision (P x)} (l : list A) :
  Forall (fun x => ~ P x) l -> filter P l = [].
Proof.
  induction 1 as [|x l Hx _ IH]; [reflexivity|].
  now rewrite filter_cons_False.
Qed.

Lemma filter_ext_in {A} (P Q : A -> Prop) `{forall x, Decision (P x)}
    `{forall x, Decision (Q x)} (l : list A) :
  (forall x, x ∈ l -> (P x <-> Q x)) -> filter P l = filter Q l.
Proof.
  induction l as [|x l IH]; intros Hext; [reflexivity|].
  rewrite !filter_cons.
  assert (Hx : P x <-> Q x) by (apply Hext; constructor).
  rewrite IH by (intros y Hy; apply Hext; now constructor).
  destruct (decide (P x)), (decide (Q x)); tauto.
Qed.

(** X3. With no limit and nothing excluded the generator returns every
    combination. *)
Theorem generate_domains_all characters length limit prefix suffix tld pattern :
  (0 < length)%Z -> (limit <= 0)%Z ->
  Z.of_nat (List.length
              (generate_domains characters length limit prefix suffix tld ∅ pattern))
  = (Z.of_nat (String.length (pattern_characters characters pattern)) ^ length)%Z.
Proof.
  intros Hlen Hlim. rewrite generate_domains_spec by assumption.
  unfold limit_cut. destruct (0 <? limit)%Z eqn:Hl; [apply Z.ltb_lt in Hl; lia|].
  rewrite filter_all by (apply Forall_forall; intros x _; apply not_elem_of_empty).
  rewrite length_fmap, product_length, Nat2Z.inj_pow, Z2Nat.id by lia. reflexivity.
Qed.

Lemma generate_domains_all_witness :
  (0 < 2)%Z /\ (0 <= 0)%Z
  /\ Z.of_nat (List.length (generate_domains "abc" 2 0 "" "" ".com" ∅ None))
     = (Z.of_nat (String.length (pattern_characters "abc" None)) ^ 2)%Z.
Proof.
  split; [lia|]. split; [lia|].
  apply (generate_domains_all "abc" 2 0 "" "" ".com" None); lia.
Defined.

(** X4. A second run that excludes what an unlimited first run returned
    generates nothing. *)
Theorem generate_domains_exhausted characters length limit prefix suffix tld
    (exclude_set : gset string) pattern :
  generate_domains characters length limit prefix suffix tld
    (exclude_set ∪ list_to_set
       (generate_domains characters length 0 prefix suffix tld exclude_set pattern))
    pattern
  = [].
Proof.
  destruct (Z_lt_le_dec 0 length) as [Hlen|Hlen].
  - rewrite !generate_domains_spec by assumption.
    change (limit_cut 0 ?l) with l.
    set (M := full_domain_of prefix suffix tld <$> _).
    rewrite (filter_none _ M).
    + unfold limit_cut. destruct (0 <? limit)%Z; [apply take_nil | reflexivity].
    + apply Forall_forall. intros d Hd Hnot. apply Hnot.
      destruct (decide (d ∈ exclude_set)) as [Hin|Hnin]; [now apply elem_of_union_l|].
      apply elem_of_union_r, elem_of_list_to_set, list_elem_of_filter. now split.
  - unfold generate_domains, generate_domains_logged.
    destruct (length <=? 0)%Z eqn:Hle; [reflexivity | apply Z.leb_gt in Hle; lia].
Qed.

Lemma filter_taken {A} `{Countable A} (l : list A) : forall a,
  NoDup l ->
  filter (fun x => x ∉ (list_to_set (take a l) : gset A)) l = drop a l.
Proof.
  induction l as [|x l IH]; intros a Hnd; [now destruct a|].
  apply NoDup_cons in Hnd as [Hx Hnd]. destruct a as [|a]; simpl.
  - apply filter_all, Forall_forall. intros y _. apply not_elem_of_empty.
  - rewrite filter_cons_False
      by (intros Hn; apply Hn, elem_of_union_l, elem_of_singleton; reflexivity).
    rewrite <- (IH a Hnd). apply filter_ext_in. intros y Hy.
    assert (y <> x) by (intros ->; contradiction).
    rewrite not_elem_of_union, elem_of_singleton. tauto.
Qed.

(** X5. Resumption in batches: a run of [a] results followed by a run of [b]
    results that excludes the first gives what one run of [a + b] results
    gives. *)
Theorem generate_domains_resume characters length a b prefix suffix tld
    (exclude_set : gset string) pattern :
  NoDup (list_ascii_of_string (pattern_characters characters pattern)) ->
  (0 < length)%Z -> (0 < a)%Z -> (0 < b)%Z ->
  let first := generate_domains characters length a prefix suffix tld exclude_set pattern in
  first ++ generate_domains characters length b prefix suffix tld
             (exclude_set ∪ list_to_set first) pattern
  = generate_domains characters length (a + b) prefix suffix tld exclude_set pattern.
Proof.
  intros Hchars Hlen Ha Hb first. unfold first.
  rewrite !generate_domains_spec by assumption.
  set (M := full_domain_of prefix suffix tld <$> _).
  set (F := filter (fun d => d ∉ exclude_set) M).
  assert (HF : NoDup F).
  { apply NoDup_filter, NoDup_fmap_2; [apply full_domain_of_inj|].
    now apply product_NoDup. }
  unfold limit_cut.
  destruct (0 <? a)%Z eqn:Ha'; [|apply Z.ltb_ge in Ha'; lia].
  destruct (0 <? b)%Z eqn:Hb'; [|apply Z.ltb_ge in Hb'; lia].
  destruct (0 <? a + b)%Z eqn:Hab; [|apply Z.ltb_ge in Hab; lia].
  assert (Hfilter : filter (fun d => d ∉ exclude_set ∪ list_to_set (take (Z.to_nat a) F)) M
                    = drop (Z.to_nat a) F).
  { rewrite <- (filter_taken F (Z.to_nat a) HF). unfold F.
    rewrite list_filter_filter. apply filter_ext_in. intros d _.
    rewrite not_elem_of_union. tauto. }
  rewrite Hfilter, take_take_drop. f_equal. lia.
Qed.

Lemma generate_domains_resume_witness :
  let first := generate_domains "abc" 2 2 "" "" ".com" {["ab.com"]} None in
  NoDup (list_ascii_of_string (pattern_characters "abc" None))
  /\ (0 < 2)%Z /\ (0 < 2)%Z /\ (0 < 3)%Z
  /\ first ++ generate_domains "abc" 2 3 "" "" ".com" ({["ab.com"]} ∪ list_to_set first) None
     = generate_domains "abc" 2 (2 + 3) "" "" ".com" {["ab.com"]} None.
Proof.
  intros first.
  assert (Hchars : NoDup (list_ascii_of_string (pattern_characters "abc" None))).
  { simpl. apply NoDup_ListNoDup. repeat constructor; simpl; intuition discriminate. }
  split; [exact Hchars|]. repeat (split; [lia|]).
  apply (generate_domains_resume "abc" 2 2 3 "" "" ".com" {["ab.com"]} None Hchars); lia.
Defined.

(** ** The lanes of the parallel strategy *)

Lemma dict_set_keys_fresh {V} (d : list (string * V)) k v :
  k ∉ (fst <$> d) -> dict_set k v d = d ++ [(k, v)].
Proof.
  induction d as [|[k' v'] d IH]; intros Hk; simpl; [reflexivity|].
  rewrite fmap_cons, not_elem_of_cons in Hk. destruct Hk as [Hne Hk]. simpl in Hne.
  rewrite decide_False by congruence. now rewrite IH.
Qed.

Lemma assign_providers_keys providers domains : forall i acc,
  NoDup domains ->
  (forall d, d ∈ domains -> d ∉ (fst <$> acc)) ->
  fst <$> assign_providers providers i domains acc = (fst <$> acc) ++ domains.
Proof.
  induction domains as [|d domains IH]; intros i acc Hnd Hfresh; simpl.
  - now rewrite app_nil_r.
  - apply NoDup_cons in Hnd as [Hd Hnd].
    rewrite dict_set_keys_fresh by (apply Hfresh; constructor).
    rewrite IH; [|assumption|].
    + rewrite fmap_app. simpl. now rewrite <- app_assoc.
    + intros d' Hd'. rewrite fmap_app, elem_of_app. simpl.
      rewrite list_elem_of_singleton. intros [Hin| ->]; [|contradiction].
      revert Hin. apply Hfresh. now constructor.
Qed.

Lemma assign_providers_other providers domains : forall i acc d,
  d ∉ domains ->
  assoc_get (assign_providers providers i domains acc) d = assoc_get acc d.
Proof.
  induction domains as [|d0 domains IH]; intros i acc d Hd; simpl; [reflexivity|].
  apply not_elem_of_cons in Hd as [Hne Hd].
  rewrite IH by assumption. rewrite assoc_get_dict_set.
  now rewrite decide_False by congruence.
Qed.

Lemma assign_providers_lookup providers domains : forall i acc j d,
  NoDup domains ->
  domains !! j = Some d ->
  assoc_get (assign_providers providers i domains acc) d
  = Some (default "" (providers !! ((i + j) mod List.length providers)%nat)).
Proof.
  induction domains as [|d0 domains IH]; intros i acc j d Hnd Hj; [discriminate|].
  apply NoDup_cons in Hnd as [Hd0 Hnd]. simpl. destruct j as [|j]; simpl in Hj.
  - injection Hj as ->. rewrite assign_providers_other by assumption.
    rewrite assoc_get_dict_set, decide_True by reflexivity.
    now rewrite Nat.add_0_r.
  - rewrite (IH (S i) _ j d Hnd Hj).
    now replace (i + S j)%nat with (S i + j)%nat by lia.
Qed.

Lemma dict_append_queues {V} (d : list (string * list V)) k x :
  flat_map snd (dict_append k x d) ≡ₚ flat_map snd d ++ [x].
Proof.
  induction d as [|[k' xs] d IH]; simpl; [reflexivity|].
  destruct (decide (k' = k)) as [->|Hne]; simpl.
  - rewrite <- !app_assoc. apply Permutation_app_head, Permutation_app_comm.
  - rewrite IH. now rewrite app_assoc.
Qed.

Lemma dict_append_keys {V} (d : list (string * list V)) k x :
  fst <$> dict_append k x d
  = if decide (k ∈ (fst <$> d)) then fst <$> d else (fst <$> d) ++ [k].
Proof.
  induction d as [|[k' xs] d IH].
  - destruct (decide (k ∈ (fst <$> ([] : list (string * list V))))) as [Hin|_];
      [inversion Hin | reflexivity].
  - cbn [dict_append]. destruct (decide (k' = k)) as [->|Hne].
    + rewrite !fmap_cons. cbn [fst].
      destruct (decide (k ∈ k :: (fst <$> d))) as [_|Hn]; [reflexivity|].
      exfalso. apply Hn. constructor.
    + rewrite !fmap_cons, IH. cbn [fst].
      destruct (decide (k ∈ (fst <$> d))) as [Hin|Hnin];
        destruct (decide (k ∈ k' :: (fst <$> d))) as [Hin'|Hnin']; try reflexivity.
      * exfalso. apply Hnin'. now constructor.
      * apply elem_of_cons in Hin' as [?|?]; congruence.
Qed.

Lemma dict_append_nonempty {V} (d : list (string * list V)) k x :
  Forall (fun lane => snd lane <> []) d ->
  Forall (fun lane => snd lane <> []) (dict_append k x d).
Proof.
  induction 1 as [|[k' xs] d Hhd Htl IH]; simpl.
  - repeat constructor. discriminate.
  - destruct (decide (k' = k)); constructor; simpl; auto.
    now destruct xs.
Qed.

Lemma group_fold assignment : forall acc,
  let lanes := foldl lane_step acc assignment in
  flat_map snd lanes ≡ₚ flat_map snd acc ++ (fst <$> assignment)
  /\ (NoDup (fst <$> acc) -> NoDup (fst <$> lanes))
  /\ (forall p, p ∈ (fst <$> lanes) -> p ∈ (fst <$> acc) \/ p ∈ (snd <$> assignment))
  /\ (Forall (fun lane => snd lane <> []) acc -> Forall (fun lane => snd lane <> []) lanes).
Proof.
  induction assignment as [|[domain provider] rest IH]; intros acc; simpl.
  - rewrite app_nil_r. repeat split; auto.
  - destruct (IH (dict_append provider domain acc)) as (Hperm & Hnd & Hkeys & Hne).
    repeat split.
    + rewrite Hperm, dict_append_queues, <- app_assoc. reflexivity.
    + intros Hacc. apply Hnd. rewrite dict_append_keys.
      destruct (decide (provider ∈ (fst <$> acc))); [assumption|].
      apply NoDup_app. repeat split; [assumption| |apply NoDup_singleton].
      intros p Hp Hp'. apply list_elem_of_singleton in Hp' as ->. contradiction.
    + intros p Hp. destruct (Hkeys p Hp) as [Hin|Hin]; [|right; now constructor].
      rewrite dict_append_keys in Hin.
      destruct (decide (provider ∈ (fst <$> acc))); [now left|].
      apply elem_of_app in Hin as [Hin|Hin]; [now left|].
      apply list_elem_of_singleton in Hin as ->. right. constructor.
    + intros Hacc. now apply Hne, dict_append_nonempty.
Qed.

Lemma dict_set_values {V} (P : V -> Prop) (d : list (string * V)) k v :
  P v -> Forall (fun e => P (snd e)) d -> Forall (fun e => P (snd e)) (dict_set k v d).
Proof.
  intros Hv. induction 1 as [|[k' v'] d Hhd Htl IH]; simpl.
  - now repeat constructor.
  - destruct (decide (k' = k)); constructor; auto.
Qed.

Lemma assign_providers_values providers domains : forall i acc,
  providers <> [] ->
  Forall (fun e : string * string => snd e ∈ providers) acc ->
  Forall (fun e : string * string => snd e ∈ providers)
    (assign_providers providers i domains acc).
Proof.
  induction domains as [|d domains IH]; intros i acc Hne Hacc; simpl; [assumption|].
  apply IH; [assumption|]. apply (dict_set_values (fun p => p ∈ providers)); [|assumption].
  assert (Hlt : (i mod List.length providers < List.length providers)%nat).
  { apply Nat.mod_upper_bound. destruct providers; [contradiction | discriminate]. }
  destruct (lookup_lt_is_Some_2 providers _ Hlt) as [p Hp]. rewrite Hp. simpl.
  eapply list_elem_of_lookup_2, Hp.
Qed.

(** X6. The round-robin assignment of the parallel strategy: the domain at
    position [j] goes to the provider at position [j mod n]. *)
Theorem assign_providers_round_robin providers domains :
  NoDup domains ->
  let assignment := assign_providers providers 0 domains [] in
  fst <$> assignment = domains
  /\ forall j d, domains !! j = Some d ->
       assoc_get assignment d
       = Some (default "" (providers !! (j mod List.length providers)%nat)).
Proof.
  intros Hnd assignment. split.
  - unfold assignment. rewrite assign_providers_keys; [reflexivity | assumption|].
    intros d _. apply not_elem_of_nil.
  - intros j d Hj. unfold assignment.
    now rewrite (assign_providers_lookup providers domains 0 [] j d Hnd Hj).
Qed.

(** X7. The queues of the lanes partition the domains: every domain is in the
    queue of exactly one lane, there is one lane per provider that got a
    domain, no lane is empty, and there are no more lanes than providers. *)
Theorem lanes_partition_the_domains providers domains :
  providers <> [] ->
  NoDup domains ->
  let tasks := group_by_provider (assign_providers providers 0 domains []) in
  flat_map snd tasks ≡ₚ domains
  /\ NoDup (fst <$> tasks)
  /\ Forall (fun lane => fst lane ∈ providers /\ snd lane <> []) tasks
  /\ (List.length tasks <= List.length providers)%nat.
Proof.
  intros Hne Hnd tasks.
  destruct (group_fold (assign_providers providers 0 domains []) [])
    as (Hperm & Hkeys & Hfrom & Hnonempty).
  change (foldl lane_step [] (assign_providers providers 0 domains [])) with tasks in *.
  assert (Hdom : fst <$> assign_providers providers 0 domains [] = domains).
  { rewrite assign_providers_keys; [reflexivity | assumption|].
    intros d _. apply not_elem_of_nil. }
  simpl in Hperm. rewrite Hdom in Hperm.
  assert (Hin : forall p, p ∈ (fst <$> tasks) -> p ∈ providers).
  { intros p Hp. destruct (Hfrom p Hp) as [Hp'|Hp']; [inversion Hp'|].
    apply list_elem_of_fmap in Hp' as (e & -> & He).
    pose proof (assign_providers_values providers domains 0 [] Hne (Forall_nil_2 _)) as Hall.
    rewrite Forall_forall in Hall. now apply Hall. }
  split; [exact Hperm|]. split; [apply Hkeys; constructor|]. split.
  - apply Forall_forall. intros lane Hlane. split.
    + apply Hin, list_elem_of_fmap. now exists lane.
    + specialize (Hnonempty (Forall_nil_2 _)). rewrite Forall_forall in Hnonempty.
      now apply Hnonempty.
  - rewrite <- (length_fmap fst tasks). apply submseteq_length, NoDup_submseteq.
    + apply Hkeys. constructor.
    + exact Hin.
Qed.

Lemma lanes_partition_the_domains_witness :
  let providers := ["porkbun"; "dynadot"] in
  let tasks := group_by_provider (assign_providers providers 0 six_domains []) in
  providers <> [] /\ NoDup six_domains
  /\ flat_map snd tasks ≡ₚ six_domains
  /\ NoDup (fst <$> tasks)
  /\ Forall (fun lane => fst lane ∈ providers /\ snd lane <> []) tasks
  /\ (List.length tasks <= List.length providers)%nat.
Proof.
  intros providers tasks.
  assert (H1 : providers <> []) by discriminate.
  assert (H2 : NoDup six_domains).
  { apply NoDup_ListNoDup. repeat constructor; simpl; intuition discriminate. }
  split; [exact H1|]. split; [exact H2|].
  exact (lanes_partition_the_domains providers six_domains H1 H2).
Defined.

Lemma assign_providers_round_robin_witness :
  let providers := ["porkbun"; "dynadot"] in
  let assignment := assign_providers providers 0 six_domains [] in
  NoDup six_domains
  /\ six_domains !! 3%nat = Some "aaad.com"
  /\ fst <$> assignment = six_domains
  /\ assoc_get assignment "aaad.com" = Some "dynadot".
Proof.
  intros providers assignment.
  assert (H2 : NoDup six_domains).
  { apply NoDup_ListNoDup. repeat constructor; simpl; intuition discriminate. }
  assert (H3 : six_domains !! 3%nat = Some "aaad.com") by reflexivity.
  destruct (assign_providers_round_robin providers six_domains H2) as [Hk Hl].
  split; [exact H2|]. split; [exact H3|]. split; [exact Hk|].
  exact (Hl 3%nat "aaad.com" H3).
Defined.

(** ** An available verdict needs a yes *)

Section AvailableOnlyOnYes.
Context `{Runtime}.

Lemma is_JStr_true j s : is_JStr j s = true -> j = JStr s.
Proof.
  destruct j; simpl; try discriminate. destruct (decide _) as [->|]; [reflexivity|discriminate].
Qed.

(** X8. A Porkbun checker, of the pipeline or of the client, reports a domain
    as available only when the registrar answered with status 200 and a
    body that says SUCCESS and avail = "yes". *)
Theorem porkbun_available_only_on_yes outcome :
  (fst (porkbun_verdict outcome) = Some true -> porkbun_says_yes outcome)
  /\ (fst (PorkbunAPI.verdict_of outcome) = Some true -> porkbun_says_yes outcome).
Proof.
  unfold porkbun_verdict, PorkbunAPI.verdict_of, porkbun_says_yes, exc_bind.
  split; intros Hv.
  - destruct outcome as [response|e]; [|simpl in Hv; congruence].
    destruct (status_code response =? 200)%Z eqn:H200.
    + apply Z.eqb_eq in H200.
      destruct (json response) as [data|e] eqn:Hj; [|simpl in Hv; congruence].
      destruct (py_get data "status" JNull) as [status|e] eqn:Hs; [|simpl in Hv; congruence].
      destruct (is_JStr status "SUCCESS") eqn:Hst.
      * apply is_JStr_true in Hst as ->.
        destruct (py_get data "response" (JObj [])) as [rd|e] eqn:Hr;
          [|simpl in Hv; congruence].
        destruct (py_get rd "avail" JNull) as [avail|e] eqn:Ha; [|simpl in Hv; congruence].
        destruct (py_get rd "price" (JStr "未知")) as [price|e]; [|simpl in Hv; congruence].
        simpl in Hv. injection Hv as Hv. apply is_JStr_true in Hv as ->.
        exists response, data, rd. repeat split; assumption.
      * destruct (py_get data "message" _); simpl in Hv; congruence.
    + destruct (_ && _)%bool; simpl in Hv; congruence.
  - destruct outcome as [response|e]; [|simpl in Hv; congruence].
    destruct (status_code response =? 200)%Z eqn:H200.
    + apply Z.eqb_eq in H200.
      destruct (json response) as [data|[[] ?]] eqn:Hj; try (simpl in Hv; congruence).
      destruct (py_get data "status" JNull) as [status|[[] ?]] eqn:Hs;
        try (simpl in Hv; congruence).
      destruct (is_JStr status "SUCCESS") eqn:Hst.
      * apply is_JStr_true in Hst as ->.
        destruct (py_get data "response" (JObj [])) as [rd|[[] ?]] eqn:Hr;
          try (simpl in Hv; congruence).
        destruct (py_get rd "avail" JNull) as [avail|[[] ?]] eqn:Ha;
          try (simpl in Hv; congruence).
        destruct (py_get rd "price" (JStr "未知")) as [price|[[] ?]];
          try (simpl in Hv; congruence).
        destruct (is_JStr avail "yes") eqn:Hyes; [|simpl in Hv; congruence].
        apply is_JStr_true in Hyes as ->.
        exists response, data, rd. repeat split; assumption.
      * destruct (py_get data "message" _) as [?|[[] ?]]; simpl in Hv; congruence.
    + destruct (_ && _)%bool; simpl in Hv; congruence.
Qed.
End AvailableOnlyOnYes.

Section DynadotYes.
Context `{Runtime}.

Lemma dynadot_parse_yes data note :
  dynadot_parse data = Ok (Some true, note) ->
  exists sr result others avail,
    py_item data "SearchResponse" = Ok sr
    /\ py_item sr "SearchResults" = Ok (JArr (result :: others))
    /\ py_get result "Available" (JStr "no") = Ok avail
    /\ py_lower avail = Ok "yes".
Proof.
  unfold dynadot_parse, exc_bind. intros Hv.
  repeat case_match; simplify_eq; eauto 10.
Qed.

Lemma client_parse_yes data note :
  DynadotAPI.parse data = Ok (Some true, note) ->
  exists sr result others avail,
    py_item data "SearchResponse" = Ok sr
    /\ py_item sr "SearchResults" = Ok (JArr (result :: others))
    /\ py_get result "Available" (JStr "no") = Ok avail
    /\ py_lower avail = Ok "yes".
Proof.
  unfold DynadotAPI.parse, exc_bind. intros Hv.
  repeat case_match; simplify_eq; eauto 10.
Qed.

(** X9. A Dynadot checker, of the pipeline or of the client, reports a domain
    as available only when the registrar answered with status 200 and the
    first search result says Available = "yes", in any case of letters. *)
Theorem dynadot_available_only_on_yes outcome :
  (fst (dynadot_verdict outcome) = Some true -> dynadot_says_yes outcome)
  /\ (fst (DynadotAPI.verdict_of outcome) = Some true -> dynadot_says_yes outcome).
Proof.
  unfold dynadot_verdict, DynadotAPI.verdict_of, dynadot_says_yes, exc_bind.
  split; intros Hv.
  - destruct outcome as [response|e]; [|simpl in Hv; congruence].
    destruct (status_code response =? 200)%Z eqn:H200; [|simpl in Hv; congruence].
    apply Z.eqb_eq in H200.
    destruct (json response) as [data|[[] ?]] eqn:Hj; try (simpl in Hv; congruence).
    destruct (dynadot_parse data) as [[a note]|[[] ?]] eqn:Hp;
      try (simpl in Hv; congruence).
    simpl in Hv. subst a.
    apply dynadot_parse_yes in Hp as (sr & result & others & avail & ? & ? & ? & ?).
    exists response, data, sr, result, others, avail. repeat split; assumption.
  - destruct outcome as [response|e]; [|simpl in Hv; congruence].
    destruct (status_code response =? 200)%Z eqn:H200; [|simpl in Hv; congruence].
    apply Z.eqb_eq in H200.
    destruct (json response) as [data|[[] ?]] eqn:Hj; try (simpl in Hv; congruence).
    destruct (DynadotAPI.parse data) as [[a note]|[[] ?]] eqn:Hp;
      try (simpl in Hv; congruence).
    simpl in Hv. subst a.
    apply client_parse_yes in Hp as (sr & result & others & avail & ? & ? & ? & ?).
    exists response, data, sr, result, others, avail. repeat split; assumption.
Qed.
End DynadotYes.

Lemma porkbun_available_only_on_yes_witness :
  fst (porkbun_verdict (H := plain_runtime) porkbun_available) = Some true
  /\ fst (PorkbunAPI.verdict_of (H := plain_runtime) porkbun_available) = Some true
  /\ porkbun_says_yes (H := plain_runtime) porkbun_available.
Proof.
  split; [reflexivity|]. split; [reflexivity|].
  exact (proj1 (porkbun_available_only_on_yes (H := plain_runtime) porkbun_available)
           eq_refl).
Defined.

Lemma dynadot_available_only_on_yes_witness :
  fst (dynadot_verdict (H := plain_runtime) dynadot_available) = Some true
  /\ fst (DynadotAPI.verdict_of (H := plain_runtime) dynadot_available) = Some true
  /\ dynadot_says_yes (H := plain_runtime) dynadot_available.
Proof.
  split; [reflexivity|]. split; [reflexivity|].
  exact (proj2 (dynadot_available_only_on_yes (H := plain_runtime) dynadot_available)
           eq_refl).
Defined.

(** ** The DNS batch and the ledger *)

Lemma dns_loop_rows env completed : forall new_rows w,
  fst (dns_loop env completed new_rows w) = new_rows ++ (probe_row env <$> completed).
Proof.
  induction completed as [|d rest IH]; intros new_rows w; simpl.
  - now rewrite app_nil_r.
  - unfold probe_row at 1.
    destruct (dns_check (gethostbyname env) d) as [[domain reg] err].
    rewrite IH, <- app_assoc. reflexivity.
Qed.

Lemma dns_loop_requests env completed : forall new_rows w,
  let w' := snd (dns_loop env completed new_rows w) in
  requests_of (trace w') = requests_of (trace w) /\ n_http w' = n_http w.
Proof.
  induction completed as [|d rest IH]; intros new_rows w; simpl; [auto|].
  destruct (dns_check (gethostbyname env) d) as [[domain reg] err].
  match goal with |- context [dns_loop env rest ?r ?w1] =>
    destruct (IH r w1) as [IH1 IH2] end.
  rewrite IH1, IH2.
  assert (Hemit : forall e w0, (forall p d t, e <> EvRequest p d t) ->
            requests_of (trace (emit e w0)) = requests_of (trace w0)).
  { intros e w0 He. simpl. rewrite requests_of_app. destruct e; simpl;
      rewrite ?app_nil_r; try reflexivity. exfalso. eapply He. reflexivity. }
  unfold log_error, save_available_domain.
  destruct err as [e|]; [destruct (Py.truthy e)|]; destruct reg;
    rewrite ?Hemit by discriminate; auto.
Qed.

Lemma probe_row_cells env d :
  probe_row env d !! "domain" = Some (CStr d)
  /\ probe_row env d !! "dns_checked" = Some (CBool true)
  /\ probe_row env d !! "api_verified" = Some (CBool false)
  /\ probe_row env d !! "available" = Some (CBool (no_dns_record env d)).
Proof.
  unfold probe_row, dns_check, no_dns_record.
  destruct (gethostbyname env d); repeat split.
Qed.

Lemma frame_of_rows_rows new_rows : rows (frame_of_rows new_rows) = new_rows.
Proof. now destruct new_rows. Qed.

Lemma run_dns_batch_rows env domains checked_df max_workers w :
  (0 < max_workers)%Z ->
  exists updated_df w',
    run_dns_batch env domains checked_df max_workers w = Some (updated_df, w')
    /\ rows updated_df = rows checked_df ++ (probe_row env <$> as_completed env string domains).
Proof.
  intros Hw. unfold run_dns_batch.
  destruct (max_workers <=? 0)%Z eqn:Hle; [apply Z.leb_le in Hle; lia|].
  pose proof (dns_loop_rows env (as_completed env string domains) [] w) as Hrows.
  destruct (dns_loop env (as_completed env string domains) [] w) as [new_rows w'].
  simpl in Hrows. subst new_rows. eexists _, _. split; [reflexivity|].
  simpl. now rewrite frame_of_rows_rows.
Qed.

(** X10. The DNS batch keeps the rows of the ledger and appends one row per
    completed probe, in completion order: the row of the probed domain,
    checked by DNS, not verified by a registrar, and available exactly when
    the resolver found no record. *)
Theorem run_dns_batch_appends env domains checked_df max_workers w :
  (0 < max_workers)%Z ->
  exists updated_df w',
    run_dns_batch env domains checked_df max_workers w = Some (updated_df, w')
    /\ take (List.length (rows checked_df)) (rows updated_df) = rows checked_df
    /\ Forall2 (fun d (row : gmap string Cell) =>
                  row !! "domain" = Some (CStr d)
                  /\ row !! "dns_checked" = Some (CBool true)
                  /\ row !! "api_verified" = Some (CBool false)
                  /\ row !! "available" = Some (CBool (no_dns_record env d)))
         (as_completed env string domains)
         (drop (List.length (rows checked_df)) (rows updated_df)).
Proof.
  intros Hw.
  destruct (run_dns_batch_rows env domains checked_df max_workers w Hw)
    as (updated_df & w' & Hrun & Hrows).
  exists updated_df, w'. split; [exact Hrun|]. rewrite Hrows. split.
  - now rewrite take_app_length.
  - rewrite drop_app_length. apply Forall2_fmap_r, Forall_Forall2_diag, Forall_forall.
    intros d _. apply probe_row_cells.
Qed.

Lemma run_dns_batch_appends_witness :
  let env := constant_env http_500 no_such_name in
  let ledger := dns_ledger ["aaaa.com"] in
  (0 < 20)%Z
  /\ exists updated_df w',
       run_dns_batch env ["abcd.com"; "abce.com"] ledger 20 world0
       = Some (updated_df, w')
       /\ take (List.length (rows ledger)) (rows updated_df) = rows ledger
       /\ Forall2 (fun d (row : gmap string Cell) =>
                     row !! "domain" = Some (CStr d)
                     /\ row !! "dns_checked" = Some (CBool true)
                     /\ row !! "api_verified" = Some (CBool false)
                     /\ row !! "available" = Some (CBool (no_dns_record env d)))
            (as_completed env string ["abcd.com"; "abce.com"])
            (drop (List.length (rows ledger)) (rows updated_df)).
Proof.
  intros env ledger. assert (H1 : (0 < 20)%Z) by lia. split; [exact H1|].
  exact (run_dns_batch_appends env ["abcd.com"; "abce.com"] ledger 20 world0 H1).
Defined.

Lemma concat_has_column a b col :
  has_column a col = true -> has_column (concat a b) col = true.
Proof.
  unfold has_column. rewrite !bool_decide_eq_true. simpl. intros Hc.
  apply elem_of_app. now left.
Qed.

Lemma pending_of_probe_rows env (l : list string) :
  omap (fun row : gmap string Cell =>
          if (cell_is_true (default CNaN (row !! "dns_checked"))
              && cell_is_false (default CNaN (row !! "api_verified"))
              && cell_is_true (default CNaN (row !! "available")))%bool
          then match row !! "domain" with
               | Some (CStr s) => Some s
               | _ => None
               end
          else None)
       (probe_row env <$> l)
  = filter (fun d => no_dns_record env d = true) l.
Proof.
  induction l as [|d l IH]; [reflexivity|].
  rewrite fmap_cons, filter_cons. cbn [omap list_omap].
  destruct (probe_row_cells env d) as (Hd & Hc & Hv & Ha).
  rewrite Hd, Hc, Hv, Ha, IH. simpl.
  destruct (no_dns_record env d); simpl; try reflexivity;
    destruct (decide _); congruence.
Qed.

(** X11. After the DNS batch, the domains waiting for a registrar are those that
    were waiting before, followed by the probed domains without a DNS
    record, in completion order. *)
Theorem pending_after_dns_batch env domains checked_df max_workers w waiting :
  (0 < max_workers)%Z ->
  pending_domains checked_df = Some waiting ->
  exists updated_df w',
    run_dns_batch env domains checked_df max_workers w = Some (updated_df, w')
    /\ pending_domains updated_df
       = Some (waiting ++ filter (fun d => no_dns_record env d = true)
                            (as_completed env string domains)).
Proof.
  intros Hw Hpending.
  destruct (run_dns_batch_rows env domains checked_df max_workers w Hw)
    as (updated_df & w' & Hrun & Hrows).
  exists updated_df, w'. split; [exact Hrun|].
  unfold run_dns_batch in Hrun.
  destruct (max_workers <=? 0)%Z; [discriminate|].
  destruct (dns_loop env _ [] w) as [new_rows w0]. injection Hrun as <- _.
  unfold pending_domains in *.
  destruct (has_column checked_df "dns_checked") eqn:H1; [|discriminate].
  destruct (has_column checked_df "api_verified") eqn:H2; [|discriminate].
  destruct (has_column checked_df "available") eqn:H3; [|discriminate].
  destruct (has_column checked_df "domain") eqn:H4; [|discriminate].
  simpl in Hpending. injection Hpending as <-.
  rewrite !concat_has_column by assumption. simpl andb. cbv iota.
  rewrite Hrows, omap_app. do 2 f_equal. apply pending_of_probe_rows.
Qed.

Lemma pending_after_dns_batch_witness :
  let env := constant_env http_500 no_such_name in
  (0 < 20)%Z
  /\ pending_domains empty_ledger = Some []
  /\ exists updated_df w',
       run_dns_batch env ["abcd.com"; "abce.com"] empty_ledger 20 world0
       = Some (updated_df, w')
       /\ pending_domains updated_df
          = Some ([] ++ filter (fun d => no_dns_record env d = true)
                          (as_completed env string ["abcd.com"; "abce.com"])).
Proof.
  intros env. split; [lia|]. split; [reflexivity|].
  apply (pending_after_dns_batch env ["abcd.com"; "abce.com"] empty_ledger 20 world0 []);
    [lia | reflexivity].
Defined.

(** X12. A run without registrar verification contacts no registrar. *)
Theorem dns_only_run_issues_no_request `{Runtime} env lane_env api_config args file w :
  arg_verify_api args = false ->
  arg_only_verify_api args = false ->
  let w' := main env lane_env api_config args file w in
  requests_of (trace w') = requests_of (trace w) /\ n_http w' = n_http w.
Proof.
  intros Hverify Honly. unfold main.
  destruct (load_checked_domains file) as [checked_df checked_set].
  rewrite Honly, Hverify.
  destruct (generate_domains _ _ _ _ _ _ _ _) as [|d domains]; [auto|].
  unfold run_dns_batch. destruct (arg_threads args <=? 0)%Z; [auto|].
  pose proof (dns_loop_requests env (as_completed env string (d :: domains)) [] w) as Hreq.
  destruct (dns_loop env _ [] w) as [new_rows w1]. simpl in *.
  destruct Hreq as [Hr Hn]. rewrite requests_of_app, Hr. simpl.
  now rewrite app_nil_r.
Qed.

Lemma dns_only_run_issues_no_request_witness :
  let env := constant_env http_500 no_such_name in
  let w' := main (H := plain_runtime) env (fun _ => env) porkbun_only default_args
              Missing world0 in
  arg_verify_api default_args = false
  /\ arg_only_verify_api default_args = false
  /\ requests_of (trace w') = requests_of (trace world0) /\ n_http w' = n_http world0.
Proof.
  intros env w'. split; [reflexivity|]. split; [reflexivity|].
  apply (dns_only_run_issues_no_request (H := plain_runtime) env (fun _ => env)
           porkbun_only default_args Missing world0); reflexivity.
Defined.

Lemma elem_of_str_cells cells d : d ∈ str_cells cells <-> CStr d ∈ cells.
Proof.
  unfold str_cells. rewrite elem_of_list_to_set, list_elem_of_omap. split.
  - intros (c & Hc & Hd). destruct c; try discriminate. now injection Hd as <-.
  - intros Hd. now exists (CStr d).
Qed.

Lemma loaded_set_is_domain_column file :
  snd (load_checked_domains file)
  = str_cells (default [] (column (fst (load_checked_domains file)) "domain"))
  /\ has_column (fst (load_checked_domains file)) "domain" = true.
Proof.
  destruct file as [|msg|df]; simpl; try (split; reflexivity).
  split; [reflexivity|].
  apply (backfill_all_has_column required_columns df "domain"). right.
  unfold required_columns. constructor.
Qed.

Lemma generated_fresh characters length limit prefix suffix tld
    (exclude_set : gset string) pattern :
  (NoDup (list_ascii_of_string (pattern_characters characters pattern)) ->
   NoDup (generate_domains characters length limit prefix suffix tld exclude_set pattern))
  /\ Forall (fun d => d ∉ exclude_set)
       (generate_domains characters length limit prefix suffix tld exclude_set pattern).
Proof.
  destruct (Z_lt_le_dec 0 length) as [Hlen|Hlen].
  - rewrite generate_domains_spec by assumption. split.
    + intros Hchars. eapply sublist_NoDup; [|apply limit_cut_sublist].
      apply NoDup_filter, NoDup_fmap_2; [apply full_domain_of_inj|].
      now apply product_NoDup.
    + apply Forall_forall. intros d Hd.
      eapply elem_of_sublist in Hd; [|apply limit_cut_sublist].
      now apply list_elem_of_filter in Hd as [Hd _].
  - unfold generate_domains, generate_domains_logged.
    destruct (length <=? 0)%Z eqn:Hle; [|apply Z.leb_gt in Hle; lia].
    simpl. split; [intros _|]; constructor.
Qed.

(** X13. A domain appears at most once in the ledger: loading the ledger,
    generating candidates against it and running the DNS batch on them
    keeps the domain column free of duplicates. *)
Theorem ledger_domains_stay_unique env file characters length limit prefix suffix tld
    pattern threads w updated_df w' :
  let loaded := load_checked_domains file in
  let domains := generate_domains characters length limit prefix suffix tld (snd loaded)
                   pattern in
  NoDup (list_ascii_of_string (pattern_characters characters pattern)) ->
  as_completed env string domains ≡ₚ domains ->
  NoDup (default [] (column (fst loaded) "domain")) ->
  run_dns_batch env domains (fst loaded) threads w = Some (updated_df, w') ->
  NoDup (default [] (column updated_df "domain")).
Proof.
  intros loaded domains Hchars Hperm Hold Hrun.
  destruct (loaded_set_is_domain_column file) as [Hset Hcol].
  fold loaded in Hset, Hcol.
  destruct (generated_fresh characters length limit prefix suffix tld (snd loaded) pattern)
    as [Hnd Hfresh].
  fold domains in Hnd, Hfresh. specialize (Hnd Hchars).
  assert (Hw : (0 < threads)%Z).
  { unfold run_dns_batch in Hrun. destruct (threads <=? 0)%Z eqn:Hle; [discriminate|].
    now apply Z.leb_gt in Hle. }
  destruct (run_dns_batch_rows env domains (fst loaded) threads w Hw)
    as (u & w0 & Hrun' & Hrows).
  rewrite Hrun in Hrun'. injection Hrun' as <- <-.
  assert (Hcol' : has_column updated_df "domain" = true).
  { unfold run_dns_batch in Hrun. destruct (threads <=? 0)%Z; [discriminate|].
    destruct (dns_loop env _ [] w). injection Hrun as <- _.
    now apply concat_has_column. }
  unfold column in *. rewrite Hcol' . rewrite Hcol in Hold, Hset. simpl in *.
  rewrite Hrows, fmap_app.
  assert (Hnew : (fun row : gmap string Cell => default CNaN (row !! "domain"))
                   <$> (probe_row env <$> as_completed env string domains)
                 = CStr <$> as_completed env string domains).
  { rewrite <- list_fmap_compose. apply list_fmap_ext. intros i d _. simpl.
    now rewrite (proj1 (probe_row_cells env d)). }
  rewrite Hnew. apply NoDup_app. split; [exact Hold|]. split.
  - intros c Hc Hc'. apply list_elem_of_fmap in Hc' as (d & -> & Hd).
    rewrite Hperm in Hd. rewrite Forall_forall in Hfresh.
    apply (Hfresh d Hd). rewrite Hset. now apply elem_of_str_cells.
  - apply NoDup_fmap_2; [intros x y Heq; now injection Heq|].
    now rewrite Hperm.
Qed.

Lemma ledger_domains_stay_unique_witness :
  let env := constant_env http_500 no_such_name in
  let loaded := load_checked_domains (Table ledger_without_note) in
  let domains := generate_domains "abcd" 4 3 "" "" ".com" (snd loaded) None in
  let run := run_dns_batch env domains (fst loaded) 20 world0 in
  NoDup (list_ascii_of_string (pattern_characters "abcd" None))
  /\ as_completed env string domains ≡ₚ domains
  /\ NoDup (default [] (column (fst loaded) "domain"))
  /\ exists updated_df w', run = Some (updated_df, w')
       /\ NoDup (default [] (column updated_df "domain")).
Proof.
  intros env loaded domains run.
  assert (H1 : NoDup (list_ascii_of_string (pattern_characters "abcd" None))).
  { simpl. apply NoDup_ListNoDup. repeat constructor; simpl; intuition discriminate. }
  assert (H2 : as_completed env string domains ≡ₚ domains) by reflexivity.
  assert (H3 : NoDup (default [] (column (fst loaded) "domain"))).
  { vm_compute. apply NoDup_singleton. }
  split; [exact H1|]. split; [exact H2|]. split; [exact H3|].
  destruct run as [[updated_df w']|] eqn:Hrun; [|vm_compute in Hrun; discriminate].
  exists updated_df, w'. split; [reflexivity|].
  exact (ledger_domains_stay_unique env (Table ledger_without_note) "abcd" 4 3 "" "" ".com"
           None 20 world0 updated_df w' H1 H2 H3 Hrun).
Defined.

(** ** The sequential strategy and the merge of the lanes *)

Section SequentialStrategy.
Context `{Runtime}.
Variable env : Env.
Variable api_config : APIConfig.

Lemma api_check_requests domain provider w :
  let w1 := snd (api_check env api_config domain provider w) in
  (List.length (requests_of (trace w1)) <= S (List.length (requests_of (trace w))))%nat.
Proof.
  destruct (api_check_effect env api_config domain provider w) as [[Ht _]|(p & Ht & _)];
    simpl; rewrite Ht.
  - lia.
  - rewrite requests_of_app, length_app. simpl. lia.
Qed.

Lemma random_provider_trace w :
  trace (snd (get_random_active_provider env api_config w)) = trace w.
Proof.
  unfold get_random_active_provider. now destruct (active_providers api_config).
Qed.

Lemma random_provider_some w :
  active_providers api_config <> [] ->
  exists p, fst (get_random_active_provider env api_config w) = Some p.
Proof.
  intros Hne. unfold get_random_active_provider.
  destruct (active_providers api_config) as [|p0 ps] eqn:Ha; [contradiction|].
  unfold random_choice. cbn [fst].
  apply lookup_lt_is_Some_2, Nat.mod_upper_bound. discriminate.
Qed.

(** X14. The sequential strategy issues at most two requests for a domain: the
    check and at most one retry. *)
Theorem sequential_requests_bounded domains : forall checked_df w,
  let w' := snd (run_sequential_api_verification env api_config domains checked_df w) in
  (List.length (requests_of (trace w'))
   <= List.length (requests_of (trace w)) + 2 * List.length domains)%nat.
Proof.
  induction domains as [|domain rest IH]; intros checked_df w; simpl; [lia|].
  pose proof (random_provider_trace w) as Hr.
  destruct (get_random_active_provider env api_config w) as [[provider|] w0]; simpl in Hr.
  - pose proof (api_check_requests domain (Some provider) w0) as H1.
    destruct (api_check env api_config domain (Some provider) w0) as [[a note] w1].
    simpl in H1.
    set (retry := if (is_none a && Py.contains "速率限制" note)%bool
                  then api_check env api_config domain None
                         (sleep env (rate_limit_of provider) w1)
                  else (a, note, w1)).
    assert (H2 : (List.length (requests_of (trace (snd retry)))
                  <= S (List.length (requests_of (trace w1))))%nat).
    { unfold retry. destruct (is_none a && _)%bool; [|simpl; lia].
      etransitivity; [apply api_check_requests|].
      simpl. rewrite requests_of_app. simpl. rewrite app_nil_r. lia. }
    destruct retry as [[a' note'] w2]. simpl in H2.
    destruct (domain_mask checked_df domain) as [mask|].
    + etransitivity; [apply IH|]. simpl.
      rewrite requests_of_app. simpl. rewrite app_nil_r.
      destruct (is_true a'); simpl; rewrite ?requests_of_app; simpl;
        rewrite ?app_nil_r, <- ?Hr in *; lia.
    + etransitivity; [apply IH|]. simpl.
      rewrite requests_of_app. simpl. rewrite app_nil_r, <- ?Hr in *. lia.
  - etransitivity; [apply IH|]. simpl.
    rewrite requests_of_app. simpl. rewrite app_nil_r, Hr. lia.
Qed.
End SequentialStrategy.

Lemma loc_set_has_column mask col v df c :
  has_column df c = true -> has_column (loc_set mask col v df) c = true.
Proof.
  unfold has_column at 2. simpl. intros Hc. apply bool_decide_eq_true.
  apply has_column_spec in Hc. destruct (has_column df col); [assumption|].
  apply elem_of_app. now left.
Qed.

Lemma domain_mask_at df domain mask i :
  domain_mask df domain = Some mask ->
  domain_at df i = Some (CStr domain) ->
  mask !! i = Some true.
Proof.
  unfold domain_mask, column, domain_at.
  destruct (has_column df "domain"); [|discriminate]. intros [= <-] Hd.
  rewrite !list_lookup_fmap. destruct (rows df !! i) as [row|]; [|discriminate].
  simpl. rewrite Hd. simpl. now rewrite bool_decide_eq_true_2.
Qed.

Lemma loc_set_marks mask df i :
  List.length mask = List.length (rows df) ->
  mask !! i = Some true ->
  api_verified_at (loc_set mask "api_verified" (CBool true) df) i = true.
Proof.
  intros Hlen Hm. unfold api_verified_at. simpl. rewrite lookup_zip_with, Hm. simpl.
  destruct (lookup_lt_is_Some_2 (rows df) i) as [row Hrow].
  { rewrite <- Hlen. eapply lookup_lt_Some, Hm. }
  rewrite Hrow. simpl. now rewrite lookup_insert_eq.
Qed.

Lemma domain_at_lt df i c : domain_at df i = Some c -> (i < List.length (rows df))%nat.
Proof.
  unfold domain_at. destruct (rows df !! i) eqn:Hr; [|discriminate].
  intros _. eapply lookup_lt_Some, Hr.
Qed.

Section SequentialLedger.
Context `{Runtime}.
Variable env : Env.
Variable api_config : APIConfig.

(** One update of the sequential loop, as a function of the table. *)
Lemma sequential_update_marks mask (a : Cell) note df i :
  List.length mask = List.length (rows df) ->
  mask !! i = Some true ->
  api_verified_at
    (loc_set mask "note" (CStr note)
       (loc_set mask "available" a (loc_set mask "api_verified" (CBool true) df))) i
  = true.
Proof.
  intros Hlen Hm.
  set (df1 := loc_set mask "api_verified" (CBool true) df).
  set (df2 := loc_set mask "available" a df1).
  assert (Hlen1 : List.length mask = List.length (rows df1))
    by (unfold df1; now rewrite loc_set_length).
  assert (Hlen2 : List.length mask = List.length (rows df2))
    by (unfold df2; now rewrite loc_set_length).
  assert (Hi : (i < List.length (rows df))%nat)
    by (rewrite <- Hlen; eapply lookup_lt_Some, Hm).
  assert (H1 : api_verified_at df1 i = true) by now apply loc_set_marks.
  assert (H2 : api_verified_at df2 i = true).
  { destruct (loc_set_keeps_verified mask "available" a df1 Hlen1) as [_ Hk]; try done.
    apply Hk; [lia | assumption]. }
  destruct (loc_set_keeps_verified mask "note" (CStr note) df2 Hlen2) as [_ Hk]; try done.
  apply Hk; [lia | assumption].
Qed.

Lemma verdict_update_length mask (a : Cell) note df :
  List.length mask = List.length (rows df) ->
  List.length (rows (loc_set mask "note" (CStr note)
                       (loc_set mask "available" a
                          (loc_set mask "api_verified" (CBool true) df))))
  = List.length (rows df).
Proof.
  intros Hlen.
  set (df1 := loc_set mask "api_verified" (CBool true) df).
  set (df2 := loc_set mask "available" a df1).
  assert (Hlen1 : List.length (rows df1) = List.length (rows df))
    by (unfold df1; now rewrite loc_set_length).
  assert (Hlen2 : List.length (rows df2) = List.length (rows df))
    by (unfold df2; rewrite loc_set_length; congruence).
  rewrite loc_set_length; congruence.
Qed.

Lemma sequential_rows_count domains : forall checked_df w,
  List.length (rows (fst (run_sequential_api_verification env api_config domains
                            checked_df w)))
  = List.length (rows checked_df).
Proof.
  induction domains as [|domain rest IH]; intros checked_df w; simpl; [reflexivity|].
  destruct (get_random_active_provider env api_config w) as [[provider|] w0];
    [|apply IH].
  destruct (api_check env api_config domain (Some provider) w0) as [[a note] w1].
  destruct (if (is_none a && Py.contains "速率限制" note)%bool
            then api_check env api_config domain None
                   (sleep env (rate_limit_of provider) w1)
            else (a, note, w1)) as [[a' note'] w2].
  destruct (domain_mask checked_df domain) as [mask|] eqn:Hmask; [|apply IH].
  rewrite IH. apply domain_mask_length in Hmask.
  now apply verdict_update_length.
Qed.

Lemma sequential_marks domains : forall checked_df w i d,
  active_providers api_config <> [] ->
  has_column checked_df "domain" = true ->
  d ∈ domains ->
  domain_at checked_df i = Some (CStr d) ->
  api_verified_at
    (fst (run_sequential_api_verification env api_config domains checked_df w)) i = true.
Proof.
  induction domains as [|domain rest IH]; intros checked_df w i d Hact Hcol Hd Hat;
    [inversion Hd|].
  simpl.
  destruct (random_provider_some env api_config w Hact) as [provider Hp].
  destruct (get_random_active_provider env api_config w) as [p w0]. simpl in Hp. subst p.
  destruct (api_check env api_config domain (Some provider) w0) as [[a note] w1].
  destruct (if (is_none a && Py.contains "速率限制" note)%bool
            then api_check env api_config domain None
                   (sleep env (rate_limit_of provider) w1)
            else (a, note, w1)) as [[a' note'] w2].
  destruct (domain_mask checked_df domain) as [mask|] eqn:Hmask.
  2:{ unfold domain_mask, column in Hmask. rewrite Hcol in Hmask. discriminate. }
  pose proof (domain_mask_length _ _ _ Hmask) as Hlen.
  set (df3 := loc_set mask "note" (CStr note')
                (loc_set mask "available" (CBool (is_true a'))
                   (loc_set mask "api_verified" (CBool true) checked_df))).
  pose proof (verdict_update_keeps_verified mask (CBool (is_true a')) note' checked_df Hlen)
    as [Hlen3 Hkeep]. fold df3 in Hlen3, Hkeep.
  pose proof (domain_at_lt _ _ _ Hat) as Hi.
  destruct (Hkeep i Hi) as [Hdom _].
  match goal with |- api_verified_at (fst (run_sequential_api_verification _ _ rest _ ?w3)) i = true =>
    set (w' := w3) end.
  destruct (decide (d = domain)) as [->|Hne].
  - pose proof (sequential_keeps_verified env api_config rest df3 w') as [_ Hk].
    apply Hk; [lia|].
    apply sequential_update_marks; [assumption|].
    eapply domain_mask_at; eassumption.
  - apply (IH df3 w' i d); try assumption.
    + unfold df3. now repeat apply loc_set_has_column.
    + apply elem_of_cons in Hd as [?|?]; [contradiction | assumption].
    + now rewrite Hdom.
Qed.

(** X15. After the sequential strategy ran over [domains], every row of one of
    these domains is marked as verified, so none of them is selected for
    verification again. *)
Theorem sequential_verifies_every_domain domains checked_df w :
  active_providers api_config <> [] ->
  has_column checked_df "domain" = true ->
  let after := fst (run_sequential_api_verification env api_config domains checked_df w) in
  (forall i d, d ∈ domains -> domain_at checked_df i = Some (CStr d) ->
               api_verified_at after i = true)
  /\ (forall waiting d, pending_domains after = Some waiting -> d ∈ domains -> d ∉ waiting).
Proof.
  intros Hact Hcol after. split.
  - intros i d Hd Hat. now apply (sequential_marks domains checked_df w i d).
  - intros waiting d Hpending Hd Hin.
    unfold pending_domains in Hpending.
    destruct (_ && _)%bool; [|discriminate]. injection Hpending as <-.
    apply list_elem_of_omap in Hin as (row & Hrow & Hsel).
    apply list_elem_of_lookup in Hrow as [i Hi].
    destruct (cell_is_true (default CNaN (row !! "dns_checked"))); [|discriminate].
    destruct (cell_is_false (default CNaN (row !! "api_verified"))) eqn:Hfalse;
      [|discriminate].
    destruct (cell_is_true (default CNaN (row !! "available"))); [|discriminate].
    simpl in Hsel. destruct (row !! "domain") as [[s| | | |]|] eqn:Hdom; try discriminate.
    injection Hsel as ->.
    pose proof (sequential_keeps_verified env api_config domains checked_df w) as [_ Hk].
    pose proof (sequential_rows_count domains checked_df w) as Hcount.
    fold after in Hk, Hcount.
    assert (Hlt : (i < List.length (rows checked_df))%nat).
    { rewrite <- Hcount. eapply lookup_lt_Some, Hi. }
    destruct (Hk i Hlt) as [Hsame _].
    assert (Hat : domain_at checked_df i = Some (CStr d)).
    { rewrite <- Hsame. unfold domain_at. now rewrite Hi. }
    pose proof (sequential_marks domains checked_df w i d Hact Hcol Hd Hat) as Hv.
    fold after in Hv. unfold api_verified_at in Hv. rewrite Hi in Hv.
    destruct (row !! "api_verified") as [[| [] | | |]|]; simpl in *; discriminate.
Qed.
End SequentialLedger.

Lemma sequential_verifies_every_domain_witness :
  let env := constant_env porkbun_available no_such_name in
  let ledger := dns_ledger ["abcd.com"; "abce.com"] in
  let after := fst (run_sequential_api_verification (H := plain_runtime) env porkbun_only
                      ["abcd.com"] ledger world0) in
  active_providers porkbun_only <> []
  /\ has_column ledger "domain" = true
  /\ domain_at ledger 0 = Some (CStr "abcd.com")
  /\ pending_domains after = Some ["abce.com"]
  /\ api_verified_at after 0 = true
  /\ "abcd.com" ∉ ["abce.com"].
Proof.
  intros env ledger after.
  assert (H1 : active_providers porkbun_only <> []) by discriminate.
  assert (H2 : has_column ledger "domain" = true) by reflexivity.
  assert (H3 : domain_at ledger 0 = Some (CStr "abcd.com")) by reflexivity.
  assert (H4 : pending_domains after = Some ["abce.com"]) by (vm_compute; reflexivity).
  assert (H5 : "abcd.com" ∈ ["abcd.com"]) by constructor.
  destruct (sequential_verifies_every_domain (H := plain_runtime) env porkbun_only
              ["abcd.com"] ledger world0 H1 H2) as [Hmark Hwait].
  split; [exact H1|]. split; [exact H2|]. split; [exact H3|]. split; [exact H4|].
  split; [exact (Hmark 0%nat "abcd.com" H5 H3) | exact (Hwait ["abce.com"] "abcd.com" H4 H5)].
Defined.

Section StageRows.
Context `{Runtime}.

Lemma mask_all_false df domain mask :
  domain_mask df domain = Some mask ->
  (forall i, domain_at df i <> Some (CStr domain)) ->
  existsb id mask = false.
Proof.
  intros Hmask Hnone. destruct (existsb id mask) eqn:He; [|reflexivity].
  apply existsb_exists in He as (m & Hin & Hm). unfold id in Hm. subst m.
  apply list_elem_of_In, list_elem_of_lookup in Hin as [i Hi].
  exfalso. apply (Hnone i).
  unfold domain_mask, column in Hmask.
  destruct (has_column df "domain"); [|discriminate]. injection Hmask as <-.
  rewrite !list_lookup_fmap in Hi. unfold domain_at.
  destruct (rows df !! i) as [row|]; [|discriminate]. simpl in Hi.
  injection Hi as Hi. destruct (row !! "domain") as [[s| | | |]|]; simpl in Hi;
    try discriminate.
  now apply bool_decide_eq_true in Hi as ->.
Qed.

(** X16. Results for domains that are not in the ledger change nothing: the
    merge of the parallel strategy adds no row for them. *)
Theorem merge_ignores_unknown_domains results checked_df :
  has_column checked_df "domain" = true ->
  Forall (fun r : ApiResult => forall i, domain_at checked_df i <> Some (CStr (fst (fst r))))
    results ->
  merge_api_results results checked_df = (checked_df, Returned).
Proof.
  intros Hcol. induction 1 as [|[[domain a] note] rest Hr _ IH]; simpl; [reflexivity|].
  destruct (domain_mask checked_df domain) as [mask|] eqn:Hmask.
  - now rewrite (mask_all_false _ _ _ Hmask Hr).
  - unfold domain_mask, column in Hmask. rewrite Hcol in Hmask. discriminate.
Qed.

Lemma merge_rows_count results : forall checked_df,
  List.length (rows (fst (merge_api_results results checked_df)))
  = List.length (rows checked_df).
Proof.
  induction results as [|[[domain a] note] rest IH]; intros checked_df; simpl;
    [reflexivity|].
  destruct (domain_mask checked_df domain) as [mask|] eqn:Hmask; [|reflexivity].
  rewrite IH. destruct (existsb id mask); [|reflexivity].
  apply domain_mask_length in Hmask.
  set (df1 := loc_set mask "api_verified" (CBool true) checked_df).
  set (df2 := loc_set mask "available" (verdict_cell a) df1).
  assert (Hlen1 : List.length (rows df1) = List.length (rows checked_df))
    by (unfold df1; now rewrite loc_set_length).
  assert (Hlen2 : List.length (rows df2) = List.length (rows checked_df))
    by (unfold df2; rewrite loc_set_length; congruence).
  rewrite loc_set_length; congruence.
Qed.

(** X17. The registrar stage never adds or deletes a row of the ledger, in
    either strategy. *)
Theorem api_stage_keeps_row_count env lane_env api_config domains checked_df
    use_multi_api max_workers w :
  List.length (rows (fst (fst (run_api_verification env lane_env api_config domains
                                 checked_df use_multi_api max_workers w))))
  = List.length (rows checked_df).
Proof.
  unfold run_api_verification.
  destruct (active_providers api_config) eqn:Ha; [reflexivity|].
  destruct (negb use_multi_api || (max_workers <=? 1)%Z)%bool.
  - pose proof (sequential_rows_count env api_config domains checked_df w) as Hs.
    destruct (run_sequential_api_verification env api_config domains checked_df w).
    exact Hs.
  - unfold run_parallel_api_verification. rewrite Ha.
    destruct (Z.min _ _ <=? 0)%Z; [reflexivity|].
    simpl. destruct (merge_api_results _ checked_df) as [df c] eqn:Hm. simpl.
    change df with (fst (df, c)). rewrite <- Hm. apply merge_rows_count.
Qed.
End StageRows.

Lemma merge_ignores_unknown_domains_witness :
  let ledger := dns_ledger ["abcd.com"] in
  let results : list ApiResult := [("zzzz.com", Some true, "Porkbun价格: 9.73")] in
  has_column ledger "domain" = true
  /\ Forall (fun r : ApiResult => forall i, domain_at ledger i <> Some (CStr (fst (fst r))))
       results
  /\ merge_api_results (H := plain_runtime) results ledger = (ledger, Returned).
Proof.
  intros ledger results.
  assert (H1 : has_column ledger "domain" = true) by reflexivity.
  assert (H2 : Forall (fun r : ApiResult =>
                         forall i, domain_at ledger i <> Some (CStr (fst (fst r)))) results).
  { repeat constructor. intros [|i]; vm_compute; discriminate. }
  split; [exact H1|]. split; [exact H2|].
  exact (merge_ignores_unknown_domains (H := plain_runtime) results ledger H1 H2).
Defined.

(** ** Provider registry and domain names *)

Lemma contains_dot_com d : Py.contains "." (d +:+ ".com") = true.
Proof.
  induction d as [|c d IH]; [reflexivity|].
  change (String c d +:+ ".com") with (String c (d +:+ ".com")).
  cbn [Py.contains]. rewrite IH. apply orb_true_r.
Qed.

(** X18. The name a client asks about always has a dot, and completing a name
    twice is completing it once. *)
Theorem complete_domain_has_dot domain :
  Py.contains "." (complete_domain domain) = true
  /\ complete_domain (complete_domain domain) = complete_domain domain.
Proof.
  assert (Hdot : Py.contains "." (complete_domain domain) = true).
  { unfold complete_domain. destruct (Py.contains "." domain) eqn:Hc; [exact Hc|].
    apply contains_dot_com. }
  split; [exact Hdot|]. unfold complete_domain at 1. now rewrite Hdot.
Qed.

(** X19. Registering a provider and looking it up: the name is matched without
    regard to case, the configuration read back is the one given, the
    provider is active when its configuration does not say otherwise, and
    the other providers keep their configuration. *)
Theorem add_provider_lookup provider config c name :
  let c' := add_provider provider config c in
  (Py.lower name = Py.lower provider ->
   get_provider_config c' name = config
   /\ (py_truthy (default (JBool true) (config !! "active")) = true ->
       is_provider_active c' name = true))
  /\ (Py.lower name <> Py.lower provider ->
      get_provider_config c' name = get_provider_config c name
      /\ is_provider_active c' name = is_provider_active c name).
Proof.
  intros c'. unfold c', get_provider_config, is_provider_active, add_provider. simpl. split.
  - intros ->. rewrite lookup_insert_eq. split; [reflexivity|].
    intros ->. apply bool_decide_eq_true, elem_of_app. right. constructor.
  - intros Hne. rewrite lookup_insert_ne by congruence. split; [reflexivity|].
    destruct (py_truthy _); [|reflexivity].
    apply bool_decide_ext. rewrite elem_of_app, list_elem_of_singleton. tauto.
Qed.

Lemma add_provider_lookup_witness :
  let c' := add_provider "Porkbun" {["api_key" := JStr "pk"]} (mkAPIConfig ∅ []) in
  Py.lower "PORKBUN" = Py.lower "Porkbun"
  /\ get_provider_config c' "PORKBUN" = {["api_key" := JStr "pk"]}
  /\ is_provider_active c' "PORKBUN" = true
  /\ Py.lower "dynadot" <> Py.lower "Porkbun"
  /\ get_provider_config c' "dynadot" = get_provider_config (mkAPIConfig ∅ []) "dynadot".
Proof.
  intros c'.
  destruct (add_provider_lookup "Porkbun" {["api_key" := JStr "pk"]} (mkAPIConfig ∅ [])
              "PORKBUN") as [Hsame _].
  destruct (add_provider_lookup "Porkbun" {["api_key" := JStr "pk"]} (mkAPIConfig ∅ [])
              "dynadot") as [_ Hother].
  assert (H1 : Py.lower "PORKBUN" = Py.lower "Porkbun") by reflexivity.
  assert (H2 : Py.lower "dynadot" <> Py.lower "Porkbun") by discriminate.
  destruct (Hsame H1) as [Hcfg Hact]. destruct (Hother H2) as [Hcfg' _].
  split; [exact H1|]. split; [exact Hcfg|]. split; [apply Hact; reflexivity|].
  split; [exact H2 | exact Hcfg'].
Defined.

(** ** The batch call of the Dynadot client *)

Section DynadotBatch.
Context `{Runtime}.
Variable env : Env.

Lemma dynadot_check_domain_step domain last w :
  let out := DynadotAPI.check_domain env domain last w in
  fst (fst out) = DynadotAPI.verdict_of (http env (n_http w))
  /\ n_http (snd out) = S (n_http w)
  /\ requests_of (trace (snd out))
     = requests_of (trace w) ++ [("dynadot", complete_domain domain)].
Proof.
  unfold DynadotAPI.check_domain.
  pose proof (respect_rate_limit_n_http env DynadotAPI.RATE_LIMIT last w) as Hn.
  pose proof (respect_rate_limit_requests env DynadotAPI.RATE_LIMIT last w) as Hr.
  destruct (respect_rate_limit env DynadotAPI.RATE_LIMIT last w) as [l w1].
  simpl in *. rewrite Hn. repeat split.
  rewrite requests_of_app, Hr. reflexivity.
Qed.

Lemma dynadot_batch_loop_no_error max_errors domains :
  forall results consecutive_errors last w,
  (forall k, (n_http w <= k)%nat ->
             is_error_note (snd (DynadotAPI.verdict_of (http env k))) = false) ->
  let out := DynadotAPI.batch_loop env max_errors domains results consecutive_errors
               last w in
  requests_of (trace (snd out))
  = requests_of (trace w) ++ ((fun d => ("dynadot", complete_domain d)) <$> domains)
  /\ n_http (snd out) = (n_http w + List.length domains)%nat
  /\ forall d, d ∈ domains ->
       exists k, (n_http w <= k < n_http w + List.length domains)%nat
                 /\ assoc_get (fst (fst out)) d = Some (DynadotAPI.verdict_of (http env k)).
Proof.
  induction domains as [|domain rest IH]; intros results c last w Hok.
  - simpl. rewrite app_nil_r, Nat.add_0_r. repeat split. intros d Hd. inversion Hd.
  - cbn [DynadotAPI.batch_loop].
    destruct (dynadot_check_domain_step domain last w) as (Hv & Hn & Hreq).
    destruct (DynadotAPI.check_domain env domain last w) as [[[a note] last1] w1].
    simpl in Hv, Hn, Hreq.
    assert (Hnote : is_error_note note = false).
    { specialize (Hok (n_http w) (le_n _)). now rewrite <- Hv in Hok. }
    rewrite Hnote.
    destruct (IH (dict_set domain (a, note) results) 0 last1 w1) as (Hr & Hc & Hres).
    { intros k Hk. apply Hok. lia. }
    split; [|split].
    + rewrite Hr, Hreq, <- app_assoc. reflexivity.
    + rewrite Hc, Hn. simpl. lia.
    + intros d Hd. destruct (decide (d ∈ rest)) as [Hin|Hnin].
      * destruct (Hres d Hin) as (k & Hk & Hget). exists k. split; [simpl; lia | exact Hget].
      * apply elem_of_cons in Hd as [->|?]; [|contradiction].
        exists (n_http w). split; [simpl; lia|].
        assert (Hkeep : forall res c0 l0 w0,
                  assoc_get (fst (fst (DynadotAPI.batch_loop env max_errors rest res c0 l0 w0)))
                    domain = assoc_get res domain).
        { clear -Hnin. induction rest as [|d0 rest IHr]; intros res c0 l0 w0; [reflexivity|].
          apply not_elem_of_cons in Hnin as [Hne Hnin]. cbn [DynadotAPI.batch_loop].
          destruct (DynadotAPI.check_domain env d0 l0 w0) as [[[a0 n0] l1] w1].
          assert (Hset : assoc_get (dict_set d0 (a0, n0) res) domain = assoc_get res domain).
          { rewrite assoc_get_dict_set. now rewrite decide_False by congruence. }
          destruct (is_error_note n0).
          - destruct (max_errors <=? c0 + 1)%Z; [exact Hset|].
            now rewrite IHr.
          - now rewrite IHr. }
        rewrite Hkeep, assoc_get_dict_set, decide_True by reflexivity. now rewrite Hv.
Qed.

(** X20. Timeouts never trip the breaker of [batch_check]: the note of a timeout
    holds none of the two words that count as an error, so a batch that is
    answered by timeouts only asks about every domain, whatever
    [max_errors] is, and records each domain as not available. *)
Theorem dynadot_batch_timeouts_never_trip domains max_errors last_request_time w :
  (forall k, (n_http w <= k)%nat -> exists msg, http env k = NetRaised (mkExc ETimeout msg)) ->
  let out := DynadotAPI.batch_check env domains max_errors last_request_time w in
  requests_of (trace (snd out))
  = requests_of (trace w) ++ ((fun d => ("dynadot", complete_domain d)) <$> domains)
  /\ forall d, d ∈ domains -> assoc_get (fst (fst out)) d = Some (Some false, "请求超时").
Proof.
  intros Htimeout out.
  assert (Hv : forall k, (n_http w <= k)%nat ->
             DynadotAPI.verdict_of (http env k) = (Some false, "请求超时")).
  { intros k Hk. destruct (Htimeout k Hk) as [msg ->]. reflexivity. }
  destruct (dynadot_batch_loop_no_error max_errors domains [] 0 last_request_time w)
    as (Hreq & _ & Hres).
  { intros k Hk. rewrite (Hv k Hk). vm_compute. reflexivity. }
  split; [exact Hreq|].
  intros d Hd. destruct (Hres d Hd) as (k & Hk & Hget).
  unfold out, DynadotAPI.batch_check. rewrite Hget, Hv by lia. reflexivity.
Qed.

(** X21. The breaker of the Dynadot client: once the count of consecutive error
    notes reaches [max_errors], no request is issued for the domains that
    are left. *)
Theorem dynadot_batch_breaker max_errors win :
  forall rest results consecutive_errors last w,
  win <> [] ->
  (consecutive_errors + Z.of_nat (List.length win) = max_errors)%Z ->
  (forall k, (n_http w <= k)%nat ->
             is_error_note (snd (DynadotAPI.verdict_of (http env k))) = true) ->
  let out := DynadotAPI.batch_loop env max_errors (win ++ rest) results
               consecutive_errors last w in
  out = DynadotAPI.batch_loop env max_errors win results consecutive_errors last w
  /\ requests_of (trace (snd out))
     = requests_of (trace w) ++ ((fun d => ("dynadot", complete_domain d)) <$> win).
Proof.
  induction win as [|domain win IH]; intros rest results c last w Hne Hsum Herr;
    [contradiction|].
  cbn [app DynadotAPI.batch_loop].
  destruct (dynadot_check_domain_step domain last w) as (Hv & Hn & Hreq).
  destruct (DynadotAPI.check_domain env domain last w) as [[[a note] last1] w1].
  simpl in Hv, Hn, Hreq.
  assert (Hnote : is_error_note note = true).
  { specialize (Herr (n_http w) (le_n _)). now rewrite <- Hv in Herr. }
  rewrite Hnote.
  destruct (max_errors <=? c + 1)%Z eqn:Hstop.
  - apply Z.leb_le in Hstop.
    assert (win = []) as -> by (destruct win; [reflexivity | simpl in Hsum; lia]).
    simpl. split; [reflexivity | exact Hreq].
  - apply Z.leb_gt in Hstop.
    assert (Hne' : win <> []) by (intros ->; simpl in Hsum; lia).
    destruct (IH rest (dict_set domain (a, note) results) (c + 1)%Z last1 w1 Hne')
      as (Heq & Hreq').
    { simpl in Hsum. lia. }
    { intros k Hk. apply Herr. lia. }
    split; [exact Heq|]. rewrite Hreq', Hreq, <- app_assoc. reflexivity.
Qed.
End DynadotBatch.

Lemma dynadot_batch_timeouts_never_trip_witness :
  let env := constant_env (NetRaised (mkExc ETimeout "timed out")) no_such_name in
  let out := DynadotAPI.batch_check (H := plain_runtime) env six_domains 1 0 world0 in
  (forall k, (n_http world0 <= k)%nat ->
             exists msg, http env k = NetRaised (mkExc ETimeout msg))
  /\ requests_of (trace (snd out))
     = requests_of (trace world0)
         ++ ((fun d => ("dynadot", complete_domain d)) <$> six_domains)
  /\ (forall d, d ∈ six_domains ->
        assoc_get (fst (fst out)) d = Some (Some false, "请求超时")).
Proof.
  intros env out.
  assert (H1 : forall k, (n_http world0 <= k)%nat ->
             exists msg, http env k = NetRaised (mkExc ETimeout msg))
    by (intros k _; now exists "timed out").
  split; [exact H1|].
  exact (dynadot_batch_timeouts_never_trip (H := plain_runtime) env six_domains 1 0%Q
           world0 H1).
Defined.

Lemma dynadot_batch_breaker_witness :
  let env := constant_env http_500 no_such_name in
  let win := take 5 six_domains in
  let rest := drop 5 six_domains in
  win <> []
  /\ (0 + Z.of_nat (List.length win) = 5)%Z
  /\ (forall k, (n_http world0 <= k)%nat ->
        is_error_note (snd (DynadotAPI.verdict_of (H := plain_runtime) (http env k))) = true)
  /\ DynadotAPI.batch_check (H := plain_runtime) env six_domains 5 0 world0
     = DynadotAPI.batch_check (H := plain_runtime) env win 5 0 world0
  /\ requests_of (trace (snd (DynadotAPI.batch_check (H := plain_runtime) env
                                six_domains 5 0 world0)))
     = (fun d => ("dynadot", d)) <$> win.
Proof.
  intros env win rest.
  assert (H2 : win <> []) by discriminate.
  assert (H3 : (0 + Z.of_nat (List.length win) = 5)%Z) by reflexivity.
  assert (H4 : forall k, (n_http world0 <= k)%nat ->
             is_error_note (snd (DynadotAPI.verdict_of (H := plain_runtime) (http env k)))
             = true) by (intros k _; vm_compute; reflexivity).
  destruct (dynadot_batch_breaker (H := plain_runtime) env 5 win rest [] 0 0%Q world0
              H2 H3 H4) as (Heq & Hreq).
  split; [exact H2|]. split; [exact H3|]. split; [exact H4|].
  split; [exact Heq | exact Hreq].
Defined.

(** ** The configuration file *)

Section FromFileProperties.
Context `{Runtime}.

(** X22. A file in the old one-provider shape loads as the file in the new
    shape that lists this provider with the same key and secret and as
    active: the provider is registered under its lowercased name and is
    active, and a [providers] member of the file is not read. *)
Theorem from_file_accepts_old_shape members name :
  assoc_get members "provider" = Some (JStr name) ->
  Py.truthy name = true ->
  let provider_config :=
    JObj [("api_key", default JNull (assoc_get members "api_key"));
          ("api_secret", default JNull (assoc_get members "api_secret"));
          ("active", JBool true)] in
  let loaded := from_file (ConfigParsed (JObj members)) in
  loaded = from_file (ConfigParsed (JObj [("providers", JObj [(name, provider_config)])]))
  /\ loaded_providers loaded = {[Py.lower name := provider_config]}
  /\ loaded_active loaded = [Py.lower name].
Proof.
  intros Hprovider Hname provider_config loaded. subst loaded.
  unfold from_file. rewrite Hprovider. simpl. rewrite Hname. auto.
Qed.

Lemma assoc_get_list_to_map (members : list (string * Json)) key :
  (list_to_map members : gmap string Json) !! key = assoc_get members key.
Proof.
  induction members as [|[k v] members IH]; simpl; [apply lookup_empty|].
  destruct (decide (k = key)) as [->|Hne].
  - apply lookup_insert_eq.
  - rewrite lookup_insert_ne by assumption. exact IH.
Qed.

Lemma add_provider_json_dict provider members c :
  add_provider_json provider (JObj members) c
  = (mkLoaded (<[Py.lower provider := JObj members]> (loaded_providers c))
       (if py_truthy (default (JBool true)
                        ((list_to_map members : gmap string Json) !! "active"))
        then loaded_active c ++ [Py.lower provider] else loaded_active c),
     false).
Proof.
  unfold add_provider_json. simpl. rewrite assoc_get_list_to_map.
  destruct (assoc_get members "active") as [v|]; simpl;
    [destruct (py_truthy v)|]; reflexivity.
Qed.

(** X23. For a file in which every provider's entry is an object, the loaded
    configuration is the one [add_provider] builds from the entries in the
    order of the file. *)
Theorem from_file_registers_each_entry members entries :
  assoc_get members "provider" = None ->
  assoc_get members "providers" = Some (JObj entries) ->
  Forall (fun e : string * Json => exists config, snd e = JObj config) entries ->
  to_api_config (from_file (ConfigParsed (JObj members)))
  = foldl (fun c (e : string * Json) =>
             add_provider (fst e) (default ∅ (as_dict (snd e))) c)
      (mkAPIConfig ∅ []) entries.
Proof.
  intros Hnone Hsome Hall. unfold from_file. rewrite Hnone, Hsome.
  assert (Hstart : to_api_config (mkLoaded ∅ []) = mkAPIConfig ∅ []).
  { unfold to_api_config. simpl. now rewrite omap_empty. }
  rewrite <- Hstart. generalize (mkLoaded ∅ []). clear Hnone Hsome Hstart.
  induction Hall as [|[name cfg] rest (config & Hcfg) _ IH]; intros c; [reflexivity|].
  simpl in Hcfg. subst cfg. cbn [add_providers foldl fst snd].
  rewrite add_provider_json_dict. rewrite IH. f_equal.
  unfold to_api_config, add_provider. simpl. f_equal.
  apply (omap_insert_Some as_dict). reflexivity.
Qed.
(** X24. An entry that is not an object ends the loading: it is stored, the
    entries before it are registered, the entries after it are not. *)
Theorem from_file_stops_at_malformed_entry members good name bad rest :
  assoc_get members "provider" = None ->
  assoc_get members "providers" = Some (JObj (good ++ (name, bad) :: rest)) ->
  Forall (fun e : string * Json => exists config, snd e = JObj config) good ->
  (forall config, bad <> JObj config) ->
  let before := add_providers good (mkLoaded ∅ []) in
  let loaded := from_file (ConfigParsed (JObj members)) in
  loaded_providers loaded = <[Py.lower name := bad]> (loaded_providers before)
  /\ loaded_active loaded = loaded_active before.
Proof.
  intros Hnone Hsome Hall Hbad before loaded. subst before loaded.
  unfold from_file. rewrite Hnone, Hsome.
  generalize (mkLoaded ∅ []). clear Hnone Hsome.
  induction Hall as [|[n cfg] good (config & Hcfg) _ IH]; intros c.
  - cbn [app add_providers]. unfold add_provider_json.
    destruct bad; try (split; reflexivity). now destruct (Hbad members0).
  - simpl in Hcfg. subst cfg. cbn [app add_providers].
    rewrite add_provider_json_dict. apply IH.
Qed.

End FromFileProperties.

Lemma from_file_accepts_old_shape_witness :
  let members := [("provider", JStr "Porkbun"); ("api_key", JStr "pk");
                  ("api_secret", JStr "sk")] in
  let provider_config :=
    JObj [("api_key", JStr "pk"); ("api_secret", JStr "sk"); ("active", JBool true)] in
  let loaded := from_file (H := plain_runtime) (ConfigParsed (JObj members)) in
  assoc_get members "provider" = Some (JStr "Porkbun")
  /\ Py.truthy "Porkbun" = true
  /\ loaded = from_file (H := plain_runtime)
                (ConfigParsed (JObj [("providers", JObj [("Porkbun", provider_config)])]))
  /\ loaded_providers loaded = {["porkbun" := provider_config]}
  /\ loaded_active loaded = ["porkbun"].
Proof.
  intros members provider_config loaded.
  assert (H1 : assoc_get members "provider" = Some (JStr "Porkbun")) by reflexivity.
  assert (H2 : Py.truthy "Porkbun" = true) by reflexivity.
  split; [exact H1|]. split; [exact H2|].
  exact (from_file_accepts_old_shape (H := plain_runtime) members "Porkbun" H1 H2).
Defined.

Lemma from_file_stops_at_malformed_entry_witness :
  let good := [("porkbun", JObj [("api_key", JStr "pk")])] in
  let rest := [("dynadot", JObj [("api_key", JStr "dk")])] in
  let members := [("providers", JObj (good ++ ("namecheap", JStr "nk") :: rest))] in
  let loaded := from_file (H := plain_runtime) (ConfigParsed (JObj members)) in
  assoc_get members "provider" = None
  /\ assoc_get members "providers" = Some (JObj (good ++ ("namecheap", JStr "nk") :: rest))
  /\ Forall (fun e : string * Json => exists config, snd e = JObj config) good
  /\ (forall config, JStr "nk" <> JObj config)
  /\ loaded_providers loaded
     = <[ "namecheap" := JStr "nk" ]> {[ "porkbun" := JObj [("api_key", JStr "pk")] ]}
  /\ loaded_active loaded = ["porkbun"].
Proof.
  intros good rest members loaded.
  assert (H1 : assoc_get members "provider" = None) by reflexivity.
  assert (H2 : assoc_get members "providers"
               = Some (JObj (good ++ ("namecheap", JStr "nk") :: rest))) by reflexivity.
  assert (H3 : Forall (fun e : string * Json => exists config, snd e = JObj config) good)
    by (repeat constructor; eexists; reflexivity).
  assert (H4 : forall config, JStr "nk" <> JObj config) by discriminate.
  split; [exact H1|]. split; [exact H2|]. split; [exact H3|]. split; [exact H4|].
  exact (from_file_stops_at_malformed_entry (H := plain_runtime) members good "namecheap"
           (JStr "nk") rest H1 H2 H3 H4).
Defined.

Lemma from_file_registers_each_entry_witness :
  let entries := [("Porkbun", JObj [("api_key", JStr "pk")]);
                  ("dynadot", JObj [("api_key", JStr "dk"); ("active", JBool false)])] in
  let members := [("providers", JObj entries)] in
  assoc_get members "provider" = None
  /\ assoc_get members "providers" = Some (JObj entries)
  /\ Forall (fun e : string * Json => exists config, snd e = JObj config) entries
  /\ to_api_config (from_file (H := plain_runtime) (ConfigParsed (JObj members)))
     = foldl (fun c (e : string * Json) =>
                add_provider (fst e) (default ∅ (as_dict (snd e))) c)
         (mkAPIConfig ∅ []) entries.
Proof.
  intros entries members.
  assert (H1 : assoc_get members "provider" = None) by reflexivity.
  assert (H2 : assoc_get members "providers" = Some (JObj entries)) by reflexivity.
  assert (H3 : Forall (fun e : string * Json => exists config, snd e = JObj config) entries)
    by (repeat constructor; eexists; reflexivity).
  split; [exact H1|]. split; [exact H2|]. split; [exact H3|].
  exact (from_file_registers_each_entry (H := plain_runtime) members entries H1 H2 H3).
Defined.

(** ** The retry of the Porkbun client *)

Section PorkbunRetry.
Context `{Runtime}.
Variable env : Env.

Lemma client_rate_limited_verdict outcome :
  rate_limit_response outcome ->
  PorkbunAPI.verdict_of outcome = (None, "Porkbun速率限制").
Proof.
  intros (response & -> & H400 & Hin). unfold PorkbunAPI.verdict_of.
  now rewrite H400, Hin.
Qed.

Lemma check_domain_trace_extends domain last w :
  exists events,
    trace (snd (PorkbunAPI.check_domain env domain last w)) = (trace w ++ events)%list.
Proof.
  unfold PorkbunAPI.check_domain, respect_rate_limit.
  destruct (Qle_bool _ _); simpl; [|rewrite <- app_assoc]; eauto.
Qed.

Lemma batch_loop_last max_errors domain results consecutive_errors last w :
  let step := PorkbunAPI.check_domain env domain last w in
  let retried :=
    if (is_none (fst (fst (fst step))) && Py.contains "速率限制" (snd (fst (fst step))))%bool
    then PorkbunAPI.check_domain env domain (snd (fst step))
           (sleep env PorkbunAPI.RATE_LIMIT (snd step))
    else step in
  PorkbunAPI.batch_loop env max_errors [domain] results consecutive_errors last w
  = (dict_set domain (fst (fst retried)) results, snd (fst retried), snd retried).
Proof.
  intros step retried. subst retried step. cbn [PorkbunAPI.batch_loop].
  destruct (PorkbunAPI.check_domain env domain last w) as [[[a n] l] w1]. cbn [fst snd].
  destruct (is_none a && Py.contains "速率限制" n)%bool.
  - destruct (PorkbunAPI.check_domain env domain l _) as [[[a2 n2] l2] w2]. cbn [fst snd].
    destruct (is_error_note n2); [destruct (_ <=? _)%Z|]; reflexivity.
  - cbn [fst snd]. destruct (is_error_note n); [destruct (_ <=? _)%Z|]; reflexivity.
Qed.

(** X25. The batch call of the Porkbun client retries a rate-limited answer
    once, after a pause of [RATE_LIMIT], and records what the second
    request yields, whatever it is; any other answer is recorded without a
    second request. *)
Theorem porkbun_batch_retries_once domain max_errors last_request_time w :
  let first := http env (n_http w) in
  let out := PorkbunAPI.batch_check env [domain] max_errors last_request_time w in
  let asked := ("porkbun", complete_domain domain) in
  (rate_limit_response first ->
   requests_of (trace (snd out)) = (requests_of (trace w) ++ [asked; asked])%list
   /\ EvSleep PorkbunAPI.RATE_LIMIT ∈ trace (snd out)
   /\ fst (fst out) = [(domain, PorkbunAPI.verdict_of (http env (S (n_http w))))])
  /\ (~ rate_limit_response first ->
      requests_of (trace (snd out)) = (requests_of (trace w) ++ [asked])%list
      /\ fst (fst out) = [(domain, PorkbunAPI.verdict_of first)]).
Proof.
  intros first out asked. subst out. unfold PorkbunAPI.batch_check.
  rewrite batch_loop_last.
  destruct (check_domain_step env domain last_request_time w) as (Hv & Hn & Hr).
  destruct (PorkbunAPI.check_domain env domain last_request_time w) as [[v l] w1].
  cbn [fst snd] in *. fold first in Hv. split.
  - intros Hrl. rewrite Hv, (client_rate_limited_verdict first Hrl). cbn [fst snd].
    change (is_none None && Py.contains "速率限制" "Porkbun速率限制")%bool with true.
    cbv iota.
    destruct (check_domain_step env domain l (sleep env PorkbunAPI.RATE_LIMIT w1))
      as (Hv2 & _ & Hr2).
    destruct (check_domain_trace_extends domain l (sleep env PorkbunAPI.RATE_LIMIT w1))
      as [events Htrace].
    destruct (PorkbunAPI.check_domain env domain l _) as [[v2 l2] w2].
    cbn [fst snd] in *. split; [|split].
    + rewrite Hr2. unfold sleep. cbn [trace]. rewrite requests_of_app, Hr. simpl.
      rewrite app_nil_r, <- app_assoc. reflexivity.
    + rewrite Htrace. unfold sleep. cbn [trace].
      apply elem_of_app. left. apply elem_of_app. right. constructor.
    + rewrite Hv2. unfold sleep. cbn [n_http]. now rewrite Hn.
  - intros Hno.
    assert (Hsome : is_none (fst v) = false).
    { destruct (fst v) eqn:Hf; [reflexivity|]. exfalso. apply Hno.
      apply client_porkbun_verdict_unknown. now rewrite <- Hv. }
    rewrite Hsome. cbn [andb fst snd]. split; [exact Hr|]. now rewrite Hv.
Qed.
End PorkbunRetry.

Lemma porkbun_batch_retries_once_witness :
  let env := scripted_env [porkbun_rate_limited; porkbun_available] http_500 in
  let out := PorkbunAPI.batch_check (H := plain_runtime) env ["abcd"] 5 0 world0 in
  let env' := scripted_env [porkbun_available] http_500 in
  let out' := PorkbunAPI.batch_check (H := plain_runtime) env' ["abcd"] 5 0 world0 in
  rate_limit_response (http env (n_http world0))
  /\ requests_of (trace (snd out)) = [("porkbun", "abcd.com"); ("porkbun", "abcd.com")]
  /\ EvSleep PorkbunAPI.RATE_LIMIT ∈ trace (snd out)
  /\ fst (fst out) = [("abcd", PorkbunAPI.verdict_of (H := plain_runtime) porkbun_available)]
  /\ ~ rate_limit_response (http env' (n_http world0))
  /\ requests_of (trace (snd out')) = [("porkbun", "abcd.com")]
  /\ fst (fst out') = [("abcd", PorkbunAPI.verdict_of (H := plain_runtime) porkbun_available)].
Proof.
  intros env out env' out'.
  assert (H1 : rate_limit_response (http env (n_http world0))).
  { eexists. split; [reflexivity|]. split; reflexivity. }
  assert (H2 : ~ rate_limit_response (http env' (n_http world0))).
  { intros (response & Heq & H400 & _). injection Heq as <-. discriminate. }
  split; [exact H1|].
  pose proof (proj1 (porkbun_batch_retries_once (H := plain_runtime) env "abcd" 5 0%Q world0)
                H1) as (Ha & Hb & Hc).
  split; [exact Ha|]. split; [exact Hb|]. split; [exact Hc|]. split; [exact H2|].
  exact (proj2 (porkbun_batch_retries_once (H := plain_runtime) env' "abcd" 5 0%Q world0) H2).
Defined.

(** ** The domains the registrar stage asks about *)

Lemma asks_refl domains w w' :
  requests_of (trace w') = requests_of (trace w) -> asks_only_about domains w w'.
Proof. intros Heq. exists []. rewrite Heq, app_nil_r. split; [reflexivity | constructor]. Qed.

Lemma asks_trans domains w1 w2 w3 :
  asks_only_about domains w1 w2 -> asks_only_about domains w2 w3 ->
  asks_only_about domains w1 w3.
Proof.
  intros (a & Ha & Fa) (b & Hb & Fb). exists (a ++ b)%list. split.
  - now rewrite Hb, Ha, <- app_assoc.
  - now apply Forall_app.
Qed.

Lemma asks_weaken domains domains' w w' :
  domains ⊆ domains' -> asks_only_about domains w w' -> asks_only_about domains' w w'.
Proof.
  intros Hsub (a & Ha & Fa). exists a. split; [exact Ha|].
  eapply Forall_impl; [exact Fa|]. intros r Hr. now apply Hsub.
Qed.

Section AskedDomains.
Context `{Runtime}.
Variable env : Env.
Variable api_config : APIConfig.

Lemma api_check_asks domain provider w :
  asks_only_about [domain] w (snd (api_check env api_config domain provider w)).
Proof.
  destruct (api_check_effect env api_config domain provider w) as [[Ht _]|(p & Ht & _)];
    simpl in Ht.
  - apply asks_refl. now rewrite Ht.
  - exists [(p, domain)]. rewrite Ht, requests_of_app. split; [reflexivity|].
    repeat constructor.
Qed.

Lemma sequential_asks domains : forall checked_df w,
  asks_only_about domains w
    (snd (run_sequential_api_verification env api_config domains checked_df w)).
Proof.
  induction domains as [|domain rest IH]; intros checked_df w; simpl;
    [now apply asks_refl|].
  assert (Hrest : forall df w0 w1, asks_only_about [domain] w0 w1 ->
            asks_only_about (domain :: rest) w0
              (snd (run_sequential_api_verification env api_config rest df w1))).
  { intros df w0 w1 H01. eapply asks_trans.
    - eapply asks_weaken; [|exact H01]. intros d Hd.
      apply list_elem_of_singleton in Hd as ->. constructor.
    - eapply asks_weaken; [|apply IH]. intros d Hd. now constructor. }
  pose proof (random_provider_trace env api_config w) as Hr.
  destruct (get_random_active_provider env api_config w) as [[provider|] w0]; simpl in Hr.
  - pose proof (api_check_asks domain (Some provider) w0) as H1.
    destruct (api_check env api_config domain (Some provider) w0) as [[a note] w1].
    simpl in H1.
    set (retry := if (is_none a && Py.contains "速率限制" note)%bool
                  then api_check env api_config domain None
                         (sleep env (rate_limit_of provider) w1)
                  else (a, note, w1)).
    assert (H2 : asks_only_about [domain] w (snd retry)).
    { apply asks_trans with w0; [apply asks_refl; now rewrite Hr|].
      apply asks_trans with w1; [exact H1|].
      unfold retry. destruct (is_none a && _)%bool; [|now apply asks_refl].
      apply asks_trans with (sleep env (rate_limit_of provider) w1);
        [|apply api_check_asks].
      apply asks_refl. simpl. rewrite requests_of_app. simpl. apply app_nil_r. }
    destruct retry as [[a' note'] w2]. simpl in H2.
    destruct (domain_mask checked_df domain) as [mask|]; apply Hrest.
    + eapply asks_trans; [exact H2|]. apply asks_refl. simpl.
      rewrite requests_of_app. simpl. rewrite app_nil_r.
      destruct (is_true a'); [|reflexivity].
      simpl. rewrite requests_of_app. simpl. apply app_nil_r.
    + eapply asks_trans; [exact H2|]. apply asks_refl. simpl.
      rewrite requests_of_app. simpl. apply app_nil_r.
  - apply Hrest. apply asks_refl. simpl. rewrite requests_of_app, Hr. simpl.
    apply app_nil_r.
Qed.

End AskedDomains.

Lemma dict_set_keys_subset {V} (d : list (string * V)) k v :
  fst <$> dict_set k v d ⊆ k :: (fst <$> d).
Proof.
  induction d as [|[k' v'] d IH]; simpl.
  - reflexivity.
  - destruct (decide (k' = k)) as [->|Hne]; simpl.
    + intros x Hx. now constructor.
    + intros x Hx. apply elem_of_cons in Hx as [->|Hx].
      * constructor. constructor.
      * apply IH in Hx. apply elem_of_cons in Hx as [->|Hx]; [constructor|].
        now do 2 constructor.
Qed.

Lemma assign_providers_keys_subset providers domains : forall i acc,
  fst <$> assign_providers providers i domains acc ⊆ (fst <$> acc) ++ domains.
Proof.
  induction domains as [|d domains IH]; intros i acc; simpl.
  - now rewrite app_nil_r.
  - intros x Hx. apply IH in Hx. apply elem_of_app in Hx as [Hx|Hx].
    + apply dict_set_keys_subset in Hx. apply elem_of_cons in Hx as [->|Hx].
      * apply elem_of_app. right. constructor.
      * apply elem_of_app. now left.
    + apply elem_of_app. right. now constructor.
Qed.

Lemma lane_queues_subset providers domains lane d :
  lane ∈ group_by_provider (assign_providers providers 0 domains []) ->
  d ∈ snd lane -> d ∈ domains.
Proof.
  intros Hlane Hd.
  destruct (group_fold (assign_providers providers 0 domains []) []) as (Hperm & _).
  change (foldl lane_step [] (assign_providers providers 0 domains []))
    with (group_by_provider (assign_providers providers 0 domains [])) in Hperm.
  assert (Hin : d ∈ flat_map snd (group_by_provider (assign_providers providers 0 domains []))).
  { apply list_elem_of_In, in_flat_map. exists lane. split; now apply list_elem_of_In. }
  rewrite Hperm in Hin. simpl in Hin.
  apply assign_providers_keys_subset in Hin. now simpl in Hin.
Qed.

Section AskedByTheStage.
Context `{Runtime}.

Lemma lane_asks env api_config provider domains : forall results w,
  asks_only_about domains w
    (snd (process_api_loop env api_config provider domains results w)).
Proof.
  induction domains as [|domain rest IH]; intros results w; simpl;
    [now apply asks_refl|].
  pose proof (api_check_asks env api_config domain (Some provider) w) as H1.
  destruct (api_check env api_config domain (Some provider) w) as [[a note] w1].
  simpl in H1. eapply asks_trans; [|eapply asks_weaken; [|apply IH]].
  - eapply asks_trans.
    + eapply asks_weaken; [|exact H1]. intros d Hd.
      apply list_elem_of_singleton in Hd as ->. constructor.
    + apply asks_refl. simpl. rewrite requests_of_app. simpl. rewrite app_nil_r.
      destruct (is_true a); [|reflexivity].
      simpl. rewrite requests_of_app. simpl. apply app_nil_r.
  - intros d Hd. now constructor.
Qed.

Lemma run_api_verification_asks env lane_env api_config domains checked_df
    use_multi_api max_workers w :
  (forall lanes : list (list ApiResult * World),
     as_completed env (list ApiResult * World)%type lanes ⊆ lanes) ->
  asks_only_about domains w
    (snd (run_api_verification env lane_env api_config domains checked_df use_multi_api
            max_workers w)).
Proof.
  intros Hpool. unfold run_api_verification.
  destruct (active_providers api_config) as [|p0 ps] eqn:Ha; [now apply asks_refl|].
  destruct (negb use_multi_api || (max_workers <=? 1)%Z)%bool.
  - pose proof (sequential_asks env api_config domains checked_df w) as Hs.
    destruct (run_sequential_api_verification env api_config domains checked_df w).
    exact Hs.
  - unfold run_parallel_api_verification. rewrite Ha.
    destruct (Z.min _ _ <=? 0)%Z; [now apply asks_refl|].
    cbn [snd trace]. 
    set (tasks := group_by_provider (assign_providers (p0 :: ps) 0 domains [])).
    set (lanes := _ <$> tasks).
    specialize (Hpool lanes).
    exists (requests_of (flat_map (fun lane : list ApiResult * World => trace (snd lane))
                           (as_completed env (list ApiResult * World)%type lanes))).
    split; [apply requests_of_app|].
    induction (as_completed env (list ApiResult * World)%type lanes) as [|lane done IH];
      [constructor|].
    simpl. rewrite requests_of_app. apply Forall_app. split.
    + assert (Hlane : lane ∈ lanes) by (apply Hpool; constructor).
      apply list_elem_of_fmap in Hlane as ([provider queue] & -> & Htask).
      destruct (lane_asks (lane_env provider) api_config provider queue []
                  (mkWorld (now w) (n_http w) (n_block w) (n_pick w) []))
        as (asked & Hasked & Hall).
      unfold process_api_batch. rewrite Hasked. simpl.
      eapply Forall_impl; [exact Hall|]. intros r Hr.
      exact (lane_queues_subset (p0 :: ps) domains (provider, queue) (snd r) Htask Hr).
    + apply IH. intros x Hx. apply Hpool. now constructor.
Qed.
(** X26. The registrar stage asks only about the domains it is given, in either
    strategy, when the pool hands back no other lane than those submitted
    to it. *)
Theorem api_stage_asks_only_about_its_domains env lane_env api_config domains checked_df
    use_multi_api max_workers w :
  (forall lanes : list (list ApiResult * World),
     as_completed env (list ApiResult * World)%type lanes ⊆ lanes) ->
  asks_only_about domains w
    (snd (run_api_verification env lane_env api_config domains checked_df use_multi_api
            max_workers w)).
Proof. apply run_api_verification_asks. Qed.


End AskedByTheStage.

Lemma api_stage_asks_only_about_its_domains_witness :
  let env := constant_env porkbun_available no_such_name in
  let ledger := dns_ledger ["abcd.com"; "abce.com"] in
  (forall lanes : list (list ApiResult * World),
     as_completed env (list ApiResult * World)%type lanes ⊆ lanes)
  /\ asks_only_about ["abcd.com"; "abce.com"] world0
       (snd (run_api_verification (H := plain_runtime) env (fun _ => env) two_providers
               ["abcd.com"; "abce.com"] ledger true 2 world0)).
Proof.
  intros env ledger.
  assert (H1 : forall lanes : list (list ApiResult * World),
             as_completed env (list ApiResult * World)%type lanes ⊆ lanes)
    by (intros lanes; reflexivity).
  split; [exact H1|].
  exact (api_stage_asks_only_about_its_domains (H := plain_runtime) env (fun _ => env)
           two_providers ["abcd.com"; "abce.com"] ledger true 2 world0 H1).
Defined.


(** ** The loaders of the standalone clients *)

Section Loaders.
Context `{Runtime}.

(** X28. The loaders of the clients read the entry under the exact name of the
    provider and do not look at [active]: an entry with a key gives a
    client also when it is marked inactive, and no client when its name is
    spelled in another case, while [from_file] registers it under the
    lowercased name and lists it as active by [active] alone. *)
Theorem load_from_config_reads_exact_name name config :
  let file := ConfigParsed (JObj [("providers", JObj [(name, JObj config)])]) in
  let api_key := default JNull (assoc_get config "api_key") in
  let api_secret := default JNull (assoc_get config "api_secret") in
  py_truthy api_key = true ->
  porkbun_api.load_from_config file
  = (if decide (name = "porkbun") then Some (api_key, api_secret) else None)
  /\ dynadot_api.load_from_config file
     = (if decide (name = "dynadot") then Some api_key else None)
  /\ loaded_providers (from_file file) = {[Py.lower name := JObj config]}
  /\ loaded_active (from_file file)
     = if py_truthy (default (JBool true) (assoc_get config "active"))
       then [Py.lower name] else [].
Proof.
  intros file api_key api_secret Hkey. subst file.
  unfold porkbun_api.load_from_config, dynadot_api.load_from_config, from_file, exc_bind.
  cbn [py_get assoc_get]. 
  rewrite decide_True by reflexivity. cbn [from_option id].
  split; [|split].
  - destruct (decide (name = "porkbun")) as [->|Hne]; cbn [py_get assoc_get from_option id].
    + rewrite decide_True by reflexivity. cbn [from_option id py_get].
      fold api_key. rewrite Hkey. reflexivity.
    + rewrite decide_False by assumption. reflexivity.
  - destruct (decide (name = "dynadot")) as [->|Hne]; cbn [py_get assoc_get from_option id].
    + rewrite decide_True by reflexivity. cbn [from_option id py_get].
      fold api_key. rewrite Hkey. reflexivity.
    + rewrite decide_False by assumption. reflexivity.
  - destruct (decide ("providers" = "provider")) as [Heq|_]; [discriminate|].
    cbn [add_providers]. rewrite add_provider_json_dict, assoc_get_list_to_map. cbn [loaded_providers loaded_active].
    split; [reflexivity|]. now destruct (py_truthy _).
Qed.
End Loaders.

Lemma load_from_config_reads_exact_name_witness :
  let config := [("api_key", JStr "pk"); ("api_secret", JStr "sk"); ("active", JBool false)] in
  let inactive := ConfigParsed (JObj [("providers", JObj [("porkbun", JObj config)])]) in
  let capital := ConfigParsed (JObj [("providers", JObj [("Porkbun", JObj config)])]) in
  py_truthy (default JNull (assoc_get config "api_key")) = true
  /\ porkbun_api.load_from_config (H := plain_runtime) inactive = Some (JStr "pk", JStr "sk")
  /\ loaded_active (from_file (H := plain_runtime) inactive) = []
  /\ porkbun_api.load_from_config (H := plain_runtime) capital = None
  /\ loaded_providers (from_file (H := plain_runtime) capital) = {["porkbun" := JObj config]}.
Proof.
  intros config inactive capital.
  assert (H1 : py_truthy (default JNull (assoc_get config "api_key")) = true) by reflexivity.
  destruct (load_from_config_reads_exact_name (H := plain_runtime) "porkbun" config H1)
    as (Ha & _ & _ & Hb).
  destruct (load_from_config_reads_exact_name (H := plain_runtime) "Porkbun" config H1)
    as (Hc & _ & Hd & _).
  split; [exact H1|]. split; [exact Ha|]. split; [exact Hb|]. split; [exact Hc | exact Hd].
Defined.
